(** * AutoStyleOfReport: the docx tool of [tools/docxfile.py]

    A shallow embedding of the two pipelines of [tools/docxfile.py]: the
    package style merger ([copy_styles_and_dependencies_from_template] and
    its helpers) and the line walker that builds the document
    ([generate_docx_with_template]), followed by the tool entry point
    ([DocxWithTemplateStyleTool._invoke]).

    Python strings are [string]s (their UTF-8 bytes); the file system the
    helpers work on is a finite map from paths to nodes; exceptions are
    values of [exn], and code that touches the disk runs in a state monad
    whose state survives a raised exception. *)

From Stdlib Require Import String Ascii List Arith Lia Bool.
From stdpp Require Import base option list gmap strings pretty.

Open Scope string_scope.
Open Scope list_scope.

(** ** Exceptions and results *)

Inductive exn : Type :=
| IndexError (msg : string)
| KeyError (msg : string)
| ValueError (msg : string)
| TypeError (msg : string)
| BadZipFile (msg : string)
| XMLSyntaxError (msg : string)
| OSError (msg : string)
| AttributeError (msg : string)
| ValidationError (msg : string).

(** [str(e)] *)
Definition str (e : exn) : string :=
  match e with
  | IndexError m | KeyError m | ValueError m | TypeError m
  | BadZipFile m | XMLSyntaxError m | OSError m | AttributeError m
  | ValidationError m => m
  end.

Inductive result (A : Type) : Type :=
| Ok (a : A)
| Raise (e : exn).
Arguments Ok {A} a.
Arguments Raise {A} e.

Definition is_ok {A} (r : result A) : bool :=
  match r with Ok _ => true | Raise _ => false end.

Definition rbind {A B} (r : result A) (k : A -> result B) : result B :=
  match r with
  | Ok a => k a
  | Raise e => Raise e
  end.

(** ** Strings *)

(** The double quote character and a string put between double quotes. *)
Definition dquote : ascii := ascii_of_nat 34.
Definition quoted (s : string) : string :=
  String dquote s ++ String dquote EmptyString.

Definition startswith (s p : string) : bool := String.prefix p s.

(** The characters [str.strip] removes, among the ASCII ones: tab, line feed,
    vertical tab, form feed, carriage return, the four separators
    [\x1c]-[\x1f] and the space.  White space outside ASCII is not
    modelled. *)
Definition isspace (c : ascii) : bool :=
  let n := nat_of_ascii c in
  (((9 <=? n) && (n <=? 13)) || ((28 <=? n) && (n <=? 32)))%nat.

Fixpoint lstrip (s : string) : string :=
  match s with
  | String c r => if isspace c then lstrip r else s
  | EmptyString => EmptyString
  end.

Fixpoint rstrip (s : string) : string :=
  match s with
  | String c r =>
      match rstrip r with
      | EmptyString => if isspace c then EmptyString else String c EmptyString
      | r' => String c r'
      end
  | EmptyString => EmptyString
  end.

Definition strip (s : string) : string := rstrip (lstrip s).

(** [s.find(sub)] from the start: the first index where [sub] occurs. *)
Fixpoint str_find (sub s : string) : option nat :=
  if String.prefix sub s then Some 0
  else match s with
       | String _ r => S <$> str_find sub r
       | EmptyString => None
       end.

(** [s[n:]] *)
Fixpoint drop_str (n : nat) (s : string) : string :=
  match n, s with
  | S n', String _ r => drop_str n' r
  | _, _ => s
  end.

(** ** XML trees

    The two XML parts the merger edits ([[Content_Types].xml] and a
    [.rels] part) are a root element with a flat list of children that carry
    attributes only.  Tags are in Clark notation, as lxml has them. *)

Definition NS_CT := "http://schemas.openxmlformats.org/package/2006/content-types".
Definition NS_REL := "http://schemas.openxmlformats.org/package/2006/relationships".
Definition REL_TYPE_NUMBERING :=
  "http://schemas.openxmlformats.org/officeDocument/2006/relationships/numbering".
Definition REL_TYPE_STYLES :=
  "http://schemas.openxmlformats.org/officeDocument/2006/relationships/styles".
Definition REL_TYPE_THEME :=
  "http://schemas.openxmlformats.org/officeDocument/2006/relationships/theme".

Definition clark (ns name : string) : string := "{" ++ ns ++ "}" ++ name.

Record Element : Type := mkElement {
  tag : string;
  attrib : list (string * string)
}.

Record ElementTree : Type := mkTree {
  root_tag : string;
  children : list Element
}.

(** [el.get(name)] *)
Fixpoint attr_get (name : string) (l : list (string * string)) : option string :=
  match l with
  | [] => None
  | (k, v) :: r => if String.eqb k name then Some v else attr_get name r
  end.

Definition el_get (el : Element) (name : string) : option string :=
  attr_get name (attrib el).

(** [el.set(name, value)]: replaces the value in place or adds the
    attribute at the end. *)
Fixpoint attr_set (name value : string) (l : list (string * string)) :=
  match l with
  | [] => [(name, value)]
  | (k, v) :: r =>
      if String.eqb k name then (k, value) :: r else (k, v) :: attr_set name value r
  end.

Definition el_set (el : Element) (name value : string) : Element :=
  mkElement (tag el) (attr_set name value (attrib el)).

(** [etree.Element(tag)] *)
Definition new_element (t : string) : Element := mkElement t [].

(** [root.append(el)] *)
Definition root_append (root : ElementTree) (el : Element) : ElementTree :=
  mkTree (root_tag root) (children root ++ [el]).

(** [root.findall(tag)]: the children with that tag, in document order. *)
Definition root_findall (root : ElementTree) (t : string) : list Element :=
  List.filter (fun el => String.eqb (tag el) t) (children root).

(** An XPath string literal ["..."] cannot hold a double quote.  The
    expressions below are built by interpolating a Python string between
    double quotes; for an interpolated string free of double quotes the
    predicate [@A="v"] is the test that attribute [A] is present and equal
    to [v], which is what the model implements.  Every call in the source
    passes one of the constants above or a key of [CONTENT_TYPES]. *)
Fixpoint xpath_literal (s : string) : bool :=
  match s with
  | EmptyString => true
  | String c r => negb (Ascii.eqb c dquote) && xpath_literal r
  end.

Definition attr_is (el : Element) (name value : string) : bool :=
  match el_get el name with
  | Some v => String.eqb v value
  | None => false
  end.

(** [root.xpath('ct:Override[@PartName="{partname}"]', ...)] *)
Definition xpath_override (root : ElementTree) (partname : string) : list Element :=
  List.filter (fun el => attr_is el "PartName" partname)
              (root_findall root (clark NS_CT "Override")).

(** [root.xpath('r:Relationship[@Type="{rel_type}" and @Target="{target}"]', ...)] *)
Definition xpath_relationship (root : ElementTree) (rel_type target : string)
  : list Element :=
  List.filter (fun el => attr_is el "Type" rel_type && attr_is el "Target" target)
              (root_findall root (clark NS_REL "Relationship")).

(** ** Relationship identifiers: lines 98-103 of [ensure_relationship] *)

(** The relationships of a table: the children with the Relationship tag. *)
Definition relationships (root : ElementTree) : list Element :=
  root_findall root (clark NS_REL "Relationship").

(** [f"rId{n}"] *)
Definition rId (n : nat) : string := "rId" ++ pretty n.

(** [set([el.get("Id") for el in root.findall(Relationship) if el.get("Id")])]:
    the identifiers present and not empty. *)
Definition existing_ids (root : ElementTree) : gset string :=
  list_to_set
    (omap (fun el => match el_get el "Id" with
                     | Some EmptyString => None
                     | o => o
                     end)
          (relationships root)).

(** [while rid in existing_ids: next_num += 1; rid = f"rId{next_num}"],
    entered with [next_num].  Each turn of the loop uses one unit of fuel;
    with the fuel used up the candidate at hand is returned as it is, taken
    or not. *)
Fixpoint next_rid_loop (fuel : nat) (ids : gset string) (next_num : nat) : nat :=
  if decide (rId next_num ∈ ids) then
    match fuel with
    | O => next_num
    | S fuel' => next_rid_loop fuel' ids (S next_num)
    end
  else next_num.

(** Lines 99-103.  The loop passes over taken identifiers only, so it turns
    at most once per identifier of the table: [size ids] is fuel enough, and
    the number returned is free ([next_rid_spec]). *)
Definition next_rid (ids : gset string) : nat :=
  next_rid_loop (size ids) ids 1.

(** ** Byte strings and the file system

    A byte string is kept by what the code reads from it: the tree
    [etree.parse] returns for a serialised XML part, the member list
    [zipfile] reads from an archive, or data that is neither.  Writing a tree
    and parsing it again gives the tree back. *)

#[local] Set Warnings "-register-all".
Inductive bytes : Type :=
| Raw (data : string)
| XmlDoc (t : ElementTree)
| ZipArchive (members : list (string * bytes)).

Inductive node : Type :=
| File (content : bytes)
| Dir.

(** The disk: relative paths with [/] as separator, as the source writes
    them, to what is there. *)
Abbreviation FS := (gmap string node).

(** Code that touches the disk: the state left behind is kept when an
    exception is raised. *)
Definition io (A : Type) : Type := FS -> result A * FS.

Definition ret {A} (a : A) : io A := fun fs => (Ok a, fs).
Definition raise {A} (e : exn) : io A := fun fs => (Raise e, fs).
Definition bind {A B} (m : io A) (k : A -> io B) : io B :=
  fun fs => match m fs with
            | (Ok a, fs') => k a fs'
            | (Raise e, fs') => (Raise e, fs')
            end.
Definition gets {A} (f : FS -> A) : io A := fun fs => (Ok (f fs), fs).
Definition lift {A} (r : result A) : io A := fun fs => (r, fs).

#[export] Instance io_ret : MRet io := @ret.
#[export] Instance io_bind : MBind io := fun A B k m => bind m k.

(** [try: body finally: cleanup] *)
Definition try_finally {A} (body : io A) (cleanup : io unit) : io A :=
  fun fs => match body fs with
            | (r, fs') => match cleanup fs' with
                          | (Ok _, fs'') => (r, fs'')
                          | (Raise e, fs'') => (Raise e, fs'')
                          end
            end.

(** [try: body except Exception as e: handler(e)] *)
Definition try_except {A} (body : io A) (handler : exn -> io A) : io A :=
  fun fs => match body fs with
            | (Ok a, fs') => (Ok a, fs')
            | (Raise e, fs') => handler e fs'
            end.

(** [for x in l: body(x)] *)
Fixpoint for_each {A} (l : list A) (body : A -> io unit) : io unit :=
  match l with
  | [] => ret tt
  | x :: r => bind (body x) (fun _ => for_each r body)
  end.

(** *** Paths *)

(** [os.path.join(a, b)] for a relative [b] and an [a] without a trailing
    separator, the only way the source joins paths. *)
Definition path_join (a b : string) : string := a ++ "/" ++ b.

(** The directories above a path: [a] and [a/b] for [a/b/c]. *)
Fixpoint dir_prefixes (acc s : string) : list string :=
  match s with
  | EmptyString => []
  | String c r =>
      if Ascii.eqb c "/"%char then acc :: dir_prefixes (acc ++ "/") r
      else dir_prefixes (acc ++ String c EmptyString) r
  end.

(** [os.path.dirname(p)] *)
Definition dirname (p : string) : string := List.last (dir_prefixes "" p) "".

(** The part after the last separator: [os.path.basename(p)]. *)
Fixpoint basename_aux (cur s : string) : string :=
  match s with
  | EmptyString => cur
  | String c r =>
      if Ascii.eqb c "/"%char then basename_aux "" r
      else basename_aux (cur ++ String c EmptyString) r
  end.
Definition basename (p : string) : string := basename_aux "" p.

(** [p] is [d] or lies below it. *)
Definition under (d p : string) : bool :=
  String.eqb p d || String.prefix (d ++ "/") p.

(** [os.path.relpath(full, d)] for a [full] below [d]. *)
Definition relpath (full d : string) : string :=
  drop_str (S (String.length d)) full.

(** *** The [os], [shutil], [zipfile] and [lxml] calls of the source *)

(** [os.path.exists(p)] *)
Definition exists_ (p : string) (fs : FS) : bool := bool_decide (is_Some (fs !! p)).

(** One level of [os.makedirs]: an existing directory is kept, a file in the
    way is an error. *)
Definition mkdir_step (d : string) : io unit :=
  fun fs => match fs !! d with
            | None => (Ok tt, <[d := Dir]> fs)
            | Some Dir => (Ok tt, fs)
            | Some (File _) => (Raise (OSError ("Not a directory: " ++ d)), fs)
            end.

(** [os.makedirs(d, exist_ok=True)] *)
Definition makedirs_exist_ok (d : string) : io unit :=
  match d with
  | EmptyString => raise (OSError "No such file or directory: ")
  | _ => for_each (dir_prefixes "" d ++ [d]) mkdir_step
  end.

(** [os.makedirs(d)]: the directory itself must not exist yet. *)
Definition makedirs (d : string) : io unit :=
  fun fs => match fs !! d with
            | Some _ => (Raise (OSError ("File exists: " ++ d)), fs)
            | None => makedirs_exist_ok d fs
            end.

(** What [shutil.rmtree(d)] leaves once it has run through. *)
Definition remove_tree (d : string) (fs : FS) : FS :=
  filter (fun kv => ¬ Is_true (under d kv.1)) fs.

(** [shutil.rmtree(d)] *)
Definition rmtree (d : string) : io unit :=
  fun fs => match fs !! d with
            | Some Dir => (Ok tt, remove_tree d fs)
            | Some (File _) => (Raise (OSError ("Not a directory: " ++ d)), fs)
            | None => (Raise (OSError ("No such file or directory: " ++ d)), fs)
            end.

(** [shutil.rmtree(d, ignore_errors=True)] *)
Definition rmtree_ignore_errors (d : string) : io unit :=
  fun fs => match fs !! d with
            | Some Dir => (Ok tt, remove_tree d fs)
            | _ => (Ok tt, fs)
            end.

(** [open(p, "wb").write(data)], and every other call that creates or
    truncates the file [p] and fills it: a new file needs its directory. *)
Definition write_file (p : string) (data : bytes) : io unit :=
  fun fs => match fs !! p with
            | Some Dir => (Raise (OSError ("Is a directory: " ++ p)), fs)
            | Some (File _) => (Ok tt, <[p := File data]> fs)
            | None =>
                match dirname p with
                | EmptyString => (Ok tt, <[p := File data]> fs)
                | d => match fs !! d with
                       | Some Dir => (Ok tt, <[p := File data]> fs)
                       | _ => (Raise (OSError ("No such file or directory: " ++ p)), fs)
                       end
                end
            end.

(** Reading the file [p] whole. *)
Definition read_file (p : string) : io bytes :=
  fun fs => match fs !! p with
            | Some (File data) => (Ok data, fs)
            | Some Dir => (Raise (OSError ("Is a directory: " ++ p)), fs)
            | None => (Raise (OSError ("No such file or directory: " ++ p)), fs)
            end.

(** [os.remove(p)] *)
Definition remove (p : string) : io unit :=
  fun fs => match fs !! p with
            | Some (File _) => (Ok tt, delete p fs)
            | Some Dir => (Raise (OSError ("Is a directory: " ++ p)), fs)
            | None => (Raise (OSError ("No such file or directory: " ++ p)), fs)
            end.

(** [zipfile.ZipFile(...)] on bytes: the member list, or [BadZipFile]. *)
Definition ZipFile (data : bytes) : result (list (string * bytes)) :=
  match data with
  | ZipArchive members => Ok members
  | _ => Raise (BadZipFile "File is not a zip file")
  end.

(** [zf.namelist()] *)
Definition namelist (members : list (string * bytes)) : list string :=
  fst <$> members.

(** The components of a path, split at the slashes. *)
Fixpoint components (s : string) : list string :=
  match s with
  | EmptyString => [EmptyString]
  | String c r =>
      if Ascii.eqb c "/" then EmptyString :: components r
      else match components r with
           | x :: l => String c x :: l
           | [] => [String c EmptyString]
           end
  end.

(** A member name [zf.extractall] uses as it stands: it has no NUL
    character, and no component of it is empty, [.] or [..].  Such a name
    is not absolute and does not end in a slash, so the member is a file
    and not a directory entry; of any other name [zipfile] drops what
    follows a NUL character and the components that are empty, [.] or
    [..], and for a name that ends in a slash it makes a directory. *)
Definition clean_name (name : string) : bool :=
  forallb (fun c => negb (Ascii.eqb c Ascii.zero)) (list_ascii_of_string name)
  && forallb (fun x => negb (String.eqb x "" || String.eqb x "." || String.eqb x ".."))
             (components name).

(** [zf.extractall(extract_dir)]: every member in turn, its directories
    made as needed, a later member of the same name written over the
    earlier one.  This is [extractall] on members whose names are
    [clean_name]s, as the names of [PARTS_TO_COPY] and the other paths the
    merger reads are; a member of another name is written here as a file
    under its literal name, and what is stated of [unzip_docx] itself
    assumes clean names. *)
Definition extract_member (extract_dir : string) (m : string * bytes) : io unit :=
  let target := path_join extract_dir m.1 in
  makedirs_exist_ok (dirname target) ;;
  write_file target m.2.

Definition extractall (members : list (string * bytes)) (extract_dir : string)
  : io unit :=
  for_each members (extract_member extract_dir).

(** [etree.parse(path)] *)
Definition etree_parse (path : string) : io ElementTree :=
  data ← read_file path;
  match data with
  | XmlDoc t => ret t
  | _ => raise (XMLSyntaxError ("Document is not well formed: " ++ path))
  end.

(** [tree.write(path, xml_declaration=True, encoding="utf-8", standalone="yes")] *)
Definition tree_write (path : string) (t : ElementTree) : io unit :=
  write_file path (XmlDoc t).

(** [shutil.copy2(src, dst)]: into the directory [dst] when it is one. *)
Definition copy2 (src dst : string) : io unit :=
  data ← read_file src;
  is_dir ← gets (fun fs => match fs !! dst with Some Dir => true | _ => false end);
  write_file (if (is_dir : bool) then path_join dst (basename src) else dst) data.

(** ** The package style merger *)

Definition PARTS_TO_COPY : list string := [
  "word/styles.xml";
  "word/stylesWithEffects.xml";
  "word/theme/theme1.xml";
  "word/fontTable.xml";
  "word/numbering.xml";
  "word/settings.xml";
  "word/_rels/styles.xml.rels";
  "word/_rels/numbering.xml.rels"
].

(** The dictionary, in the order it is written and iterated. *)
Definition CONTENT_TYPES : list (string * string) := [
  ("/word/styles.xml",
   "application/vnd.openxmlformats-officedocument.wordprocessingml.styles+xml");
  ("/word/stylesWithEffects.xml",
   "application/vnd.ms-word.stylesWithEffects+xml");
  ("/word/theme/theme1.xml",
   "application/vnd.openxmlformats-officedocument.theme+xml");
  ("/word/fontTable.xml",
   "application/vnd.openxmlformats-officedocument.wordprocessingml.fontTable+xml");
  ("/word/numbering.xml",
   "application/vnd.openxmlformats-officedocument.wordprocessingml.numbering+xml");
  ("/word/settings.xml",
   "application/vnd.openxmlformats-officedocument.wordprocessingml.settings+xml")
].

Definition unzip_docx (docx_path extract_dir : string) : io unit :=
  there ← gets (exists_ extract_dir);
  (if (there : bool) then rmtree extract_dir else ret tt);;
  makedirs extract_dir;;
  data ← read_file docx_path;
  members ← lift (ZipFile data);
  extractall members extract_dir.

(** [os.walk(input_dir)] with the files read: every file below the
    directory, under its path relative to it. *)
Definition walk_files (input_dir : string) (fs : FS) : list (string * bytes) :=
  omap (fun kv : string * node =>
          match kv.2 with
          | File data =>
              if String.prefix (input_dir ++ "/") kv.1
              then Some (relpath kv.1 input_dir, data) else None
          | Dir => None
          end)
       (map_to_list fs).

Definition zip_dir (input_dir output_docx : string) : io unit :=
  write_file output_docx (ZipArchive []);;
  members ← gets (walk_files input_dir);
  write_file output_docx (ZipArchive members).

Definition ensure_content_type_override (ct_path partname content_type : string)
  : io unit :=
  root ← etree_parse ct_path;
  match xpath_override root partname with
  | [] =>
      let override := new_element (clark NS_CT "Override") in
      let override := el_set override "PartName" partname in
      let override := el_set override "ContentType" content_type in
      tree_write ct_path (root_append root override)
  | _ :: _ => ret tt
  end.

Definition read_relationships (doc_rels_path : string) : io ElementTree :=
  there ← gets (exists_ doc_rels_path);
  (if (there : bool) then ret tt
   else makedirs_exist_ok (dirname doc_rels_path);;
        tree_write doc_rels_path (mkTree (clark NS_REL "Relationships") []));;
  etree_parse doc_rels_path.

(** Lines 98-109: the relationship that is appended. *)
Definition new_relationship (root : ElementTree) (rel_type target : string)
  : Element :=
  let rid := rId (next_rid (existing_ids root)) in
  let rel := new_element (clark NS_REL "Relationship") in
  let rel := el_set rel "Id" rid in
  let rel := el_set rel "Type" rel_type in
  el_set rel "Target" target.

Definition ensure_relationship (doc_rels_path rel_type target : string) : io unit :=
  root ← read_relationships doc_rels_path;
  match xpath_relationship root rel_type target with
  | _ :: _ => tree_write doc_rels_path root
  | [] =>
      tree_write doc_rels_path
        (root_append root (new_relationship root rel_type target))
  end.

Definition safe_copy (src_root dst_root rel_path : string) : io bool :=
  let src := path_join src_root rel_path in
  let dst := path_join dst_root rel_path in
  there ← gets (exists_ src);
  if (there : bool) then
    makedirs_exist_ok (dirname dst);;
    copy2 src dst;;
    ret true
  else ret false.

(** [partname.lstrip("/")] *)
Fixpoint lstrip_slash (s : string) : string :=
  match s with
  | String c r => if Ascii.eqb c "/"%char then lstrip_slash r else s
  | EmptyString => EmptyString
  end.

Section Merger.

(** The bytes [Document().save(output_path)] writes: the package of
    python-docx's built-in empty document. *)
Variable blank_docx : bytes.

Definition t_dir := "_tmp_tpl_unzip".
Definition b_dir := "_tmp_blank_unzip".

(** Lines 134-135 *)
Definition copy_parts : io unit :=
  for_each PARTS_TO_COPY (fun part => safe_copy t_dir b_dir part;; ret tt).

(** Lines 138-141 *)
Definition fix_content_types : io unit :=
  let ct_path := path_join b_dir "[Content_Types].xml" in
  for_each CONTENT_TYPES (fun kv =>
    there ← gets (exists_ (path_join b_dir (lstrip_slash kv.1)));
    if (there : bool) then ensure_content_type_override ct_path kv.1 kv.2
    else ret tt).

(** Lines 144-148 *)
Definition fix_relationships : io unit :=
  let doc_rels_path := path_join b_dir "word/_rels/document.xml.rels" in
  ensure_relationship doc_rels_path REL_TYPE_STYLES "styles.xml";;
  ensure_relationship doc_rels_path REL_TYPE_THEME "theme/theme1.xml";;
  there ← gets (exists_ (path_join b_dir "word/numbering.xml"));
  if (there : bool) then
    ensure_relationship doc_rels_path REL_TYPE_NUMBERING "numbering.xml"
  else ret tt.

Definition copy_styles_and_dependencies_from_template
    (template_path output_path : string) : io unit :=
  write_file output_path blank_docx;;
  unzip_docx template_path t_dir;;
  unzip_docx output_path b_dir;;
  copy_parts;;
  fix_content_types;;
  fix_relationships;;
  zip_dir b_dir output_path;;
  rmtree_ignore_errors t_dir;;
  rmtree_ignore_errors b_dir.

End Merger.

(** ** Regular expressions of the builder

    Every pattern of the source has the shape [OPEN(.*?)CLOSE], with [OPEN]
    and [CLOSE] literal strings or an alternation of literal strings of one
    length.  The group is lazy: it ends at the first place where [CLOSE]
    matches.  Without [re.DOTALL] the dot does not match a line feed. *)

Definition newline : ascii := ascii_of_nat 10.

(** The first alternative that is a prefix of [s]. *)
Fixpoint prefix_any (alts : list string) (s : string) : option string :=
  match alts with
  | [] => None
  | a :: r => if String.prefix a s then Some a else prefix_any r s
  end.

(** [(.*?)CLOSE] from the start of [s]: the group and the length of the
    text matched. *)
Fixpoint lazy_until (dotall : bool) (closes : list string) (s : string)
  : option (string * nat) :=
  match prefix_any closes s with
  | Some c => Some (EmptyString, String.length c)
  | None =>
      match s with
      | EmptyString => None
      | String c r =>
          if negb dotall && Ascii.eqb c newline then None
          else match lazy_until dotall closes r with
               | Some (g, n) => Some (String c g, S n)
               | None => None
               end
      end
  end.

(** [OPEN(.*?)CLOSE] matched at the start of [s]. *)
Definition match_here (dotall : bool) (opens closes : list string) (s : string)
  : option (string * nat) :=
  match prefix_any opens s with
  | Some o =>
      match lazy_until dotall closes (drop_str (String.length o) s) with
      | Some (g, n) => Some (g, String.length o + n)
      | None => None
      end
  | None => None
  end.

(** [re.search(pattern, s)]: the group of the leftmost match. *)
Fixpoint re_search (dotall : bool) (opens closes : list string) (s : string)
  : option string :=
  match match_here dotall opens closes s with
  | Some (g, _) => Some g
  | None =>
      match s with
      | EmptyString => None
      | String _ r => re_search dotall opens closes r
      end
  end.

(** [re.findall(pattern, s)]: the groups of the matches found from left to
    right, none overlapping another.  [skip] counts the characters of the
    last match that are still to be passed over. *)
Fixpoint re_findall_from (dotall : bool) (opens closes : list string)
    (skip : nat) (s : string) : list string :=
  match s with
  | EmptyString => []
  | String _ r =>
      match skip with
      | S k => re_findall_from dotall opens closes k r
      | O =>
          match match_here dotall opens closes s with
          | Some (g, n) => g :: re_findall_from dotall opens closes (Nat.pred n) r
          | None => re_findall_from dotall opens closes O r
          end
      end
  end.

Definition re_findall (dotall : bool) (opens closes : list string) (s : string)
  : list string :=
  re_findall_from dotall opens closes O s.

(** [re.search(r'>(.*?)</div>', line)] *)
Definition search_div (line : string) : option string :=
  re_search false [">"] ["</div>"] line.

(** [s.split('\n')] *)
Fixpoint split_lines_aux (cur s : string) : list string :=
  match s with
  | EmptyString => [cur]
  | String c r =>
      if Ascii.eqb c newline then cur :: split_lines_aux EmptyString r
      else split_lines_aux (cur ++ String c EmptyString) r
  end.
Definition split_lines (s : string) : list string := split_lines_aux EmptyString s.

(** ['\n'.join(l)] *)
Fixpoint join_lines (l : list string) : string :=
  match l with
  | [] => EmptyString
  | [x] => x
  | x :: r => x ++ String newline (join_lines r)
  end.

(** Lines 377-396: the rows read from the text between [<table>] and
    [</table>]. *)
Definition header_rows (table_text : string) : list (list string) :=
  match re_search true ["<thead>"] ["</thead>"] table_text with
  | Some header_content =>
      match re_findall true ["<th>"] ["</th>"] header_content with
      | [] => []
      | header_row => [strip <$> header_row]
      end
  | None => []
  end.

Definition body_rows (table_text : string) : list (list string) :=
  match re_search true ["<tbody>"] ["</tbody>"] table_text with
  | Some body_content =>
      omap (fun row =>
              match re_findall true ["<th>"; "<td>"] ["</th>"; "</td>"] row with
              | [] => None
              | cells => Some (strip <$> cells)
              end)
           (re_findall true ["<tr>"] ["</tr>"] body_content)
  | None => []
  end.

Definition extract_table_data (table_text : string) : list (list string) :=
  header_rows table_text ++ body_rows table_text.

(** ** The document object model

    What the builder does to a python-docx document, as far as the source
    uses it: paragraphs with a style and runs, tables of cells. *)

Inductive WD_ALIGN_PARAGRAPH : Type := CENTER.

Record Run : Type := mkRun {
  run_text : string;
  bold : option bool;
  font_size : option nat            (* in points *)
}.

Record Paragraph : Type := mkParagraph {
  style : option string;
  alignment : option WD_ALIGN_PARAGRAPH;
  runs : list Run
}.

Record Cell : Type := mkCell {
  paragraphs : list Paragraph;
  tcPr : list string                 (* the fill colours of the [w:shd] elements appended *)
}.

Record Table : Type := mkTable {
  table_style : option string;
  columns : nat;
  rows : list (list Cell)
}.

Inductive BodyNode : Type :=
| ParagraphNode (p : Paragraph)
| TableNode (t : Table).

Inductive WD_STYLE_TYPE : Type := PARAGRAPH | TABLE.

Record Document : Type := mkDocument {
  package : list (string * bytes);              (* the parts the document was opened from *)
  styles : list (string * WD_STYLE_TYPE);       (* the styles defined, by name *)
  body : list BodyNode
}.

Definition style_type_eqb (a b : WD_STYLE_TYPE) : bool :=
  match a, b with
  | PARAGRAPH, PARAGRAPH | TABLE, TABLE => true
  | _, _ => false
  end.

Fixpoint style_lookup (name : string) (l : list (string * WD_STYLE_TYPE))
  : option WD_STYLE_TYPE :=
  match l with
  | [] => None
  | (n, t) :: r => if String.eqb n name then Some t else style_lookup name r
  end.

(** Assigning a style by name: the name must be that of a style of the
    document, of the type of the object styled. *)
Definition check_style (doc : Document) (name : string) (t : WD_STYLE_TYPE)
  : result unit :=
  match style_lookup name (styles doc) with
  | None => Raise (KeyError ("no style with name '" ++ name ++ "'"))
  | Some t' =>
      if style_type_eqb t' t then Ok tt
      else Raise (ValueError "assigned style is of the wrong type")
  end.

Definition append_node (doc : Document) (n : BodyNode) : Document :=
  mkDocument (package doc) (styles doc) (body doc ++ [n]).

(** *** Text that XML can hold

    python-docx stores the text of a run in [w:t] elements, and lxml
    refuses a string that is not XML compatible.  The test is lxml's, on
    the UTF-8 bytes: a byte below [0x80] must be a tab, a line feed, a
    carriage return or at least [0x20] (libxml2's [xmlIsChar_ch]), and no
    three bytes from a byte with the high bit on may be the encoding of
    [U+FFFE], of [U+FFFF] or of a surrogate.  (The tab, the line feed and
    the carriage return never reach lxml: python-docx turns them into
    [w:tab] and [w:br] elements.) *)
Definition xmlIsChar_ch (c : ascii) : bool :=
  let n := N_of_ascii c in
  (((9 <=? n) && (n <=? 10)) || (n =? 13) || (32 <=? n))%N.

Definition high_bit (c : ascii) : bool := (128 <=? N_of_ascii c)%N.

Definition forbidden3 (a b c : ascii) : bool :=
  let next3 := (N_of_ascii a * 65536 + N_of_ascii b * 256 + N_of_ascii c)%N in
  ((next3 =? 15712190) || (next3 =? 15712191)
   || ((15573120 <=? next3) && (next3 <=? 15581119)))%N.

Fixpoint xml_compatible (s : string) : bool :=
  match s with
  | EmptyString => true
  | String a r =>
      (if high_bit a
       then match r with
            | String b (String c _) => negb (forbidden3 a b c)
            | _ => true
            end
       else xmlIsChar_ch a)
      && xml_compatible r
  end.

Definition XML_INCOMPATIBLE : string :=
  "All strings must be XML compatible: Unicode or ASCII, no NULL bytes or control characters".

(** [run.text = s] on a run just made: the run with that text, or lxml's
    [ValueError]. *)
Definition run_of_text (s : string) : result Run :=
  if xml_compatible s then Ok (mkRun s None None)
  else Raise (ValueError XML_INCOMPATIBLE).

(** [p = target_doc.add_paragraph(); p.style = name; p.add_run(text)].

    A call that raises gives no document: [target_doc] is local to
    [generate_docx_with_template], whose [except] clause returns [None],
    so what was appended to it before the error is seen by nobody. *)
Definition add_styled_paragraph (doc : Document) (name text : string)
  : result Document :=
  rbind (check_style doc name PARAGRAPH) (fun _ =>
  rbind (run_of_text text) (fun r =>
  Ok (append_node doc (ParagraphNode (mkParagraph (Some name) None [r]))))).

(** A cell as [add_table] and [add_row] make it: one empty paragraph. *)
Definition empty_cell : Cell := mkCell [mkParagraph None None []] [].

Definition Pt (n : nat) : nat := n.

(** [cell.text = s]: the content is replaced by one paragraph with one
    run, whose text is set as that of any run. *)
Definition set_cell_text (c : Cell) (s : string) : result Cell :=
  rbind (run_of_text s) (fun r =>
  Ok (mkCell [mkParagraph None None [r]] (tcPr c))).

Definition map_paragraphs (f : Paragraph -> Paragraph) (c : Cell) : Cell :=
  mkCell (f <$> paragraphs c) (tcPr c).

Definition map_runs (f : Run -> Run) (p : Paragraph) : Paragraph :=
  mkParagraph (style p) (alignment p) (f <$> runs p).

Definition set_font_size (n : nat) (r : Run) : Run :=
  mkRun (run_text r) (bold r) (Some n).

Definition set_bold (r : Run) : Run :=
  mkRun (run_text r) (Some true) (font_size r).

Definition center (p : Paragraph) : Paragraph :=
  mkParagraph (style p) (Some CENTER) (runs p).

(** Lines 405-409 *)
Definition set_table_font (rws : list (list Cell)) : list (list Cell) :=
  (fun row : list Cell => map_paragraphs (map_runs (set_font_size (Pt 10))) <$> row) <$> rws.

(** Lines 414-422, the body of the header loop on the cell [hdr_cells[j]] *)
Definition write_header_cell (c : Cell) (text : string) : result Cell :=
  rbind (set_cell_text c text) (fun c =>
  let c := map_paragraphs
             (fun p => map_runs (fun r => set_font_size (Pt 10) (set_bold r)) (center p)) c in
  Ok (mkCell (paragraphs c) (tcPr c ++ ["5B9BD5"]))).

(** Lines 428-432, the body of the row loop on the cell [row_cells[j]] *)
Definition write_body_cell (c : Cell) (text : string) : result Cell :=
  rbind (set_cell_text c text) (fun c =>
  Ok (map_paragraphs (fun p => map_runs (set_font_size (Pt 10)) (center p)) c)).

(** [for j, cell in enumerate(values): cells[j] = write(cells[j], cell)],
    entered at index [j]: indexing the cell tuple past its end raises
    [IndexError], before anything is written to that cell; the cells
    before it have been written by then. *)
Fixpoint fill_cells (write : Cell -> string -> result Cell) (j : nat)
    (values : list string) (cells : list Cell) : result (list Cell) :=
  match values with
  | [] => Ok cells
  | v :: rest =>
      match cells !! j with
      | None => Raise (IndexError "tuple index out of range")
      | Some c =>
          rbind (write c v) (fun c' => fill_cells write (S j) rest (<[j := c']> cells))
      end
  end.

(** Lines 425-432: one turn per row of [table_data[1:]]; [table.add_row()]
    adds a row of as many empty cells as the table has columns. *)
Fixpoint add_data_rows (cols : nat) (data : list (list string))
    (rws : list (list Cell)) : result (list (list Cell)) :=
  match data with
  | [] => Ok rws
  | row :: rest =>
      rbind (fill_cells write_body_cell 0 row (replicate cols empty_cell))
            (fun row_cells => add_data_rows cols rest (rws ++ [row_cells]))
  end.

(** Lines 398-432.  The table is appended to the document at line 401 and
    filled in place; as for the paragraphs, a call that raises gives no
    document, the table with the cells written up to the error being part
    of a [target_doc] that is dropped. *)
Definition add_table_from (doc : Document) (table_data : list (list string))
  : result Document :=
  match table_data with
  | [] => Ok doc
  | header :: data =>
      let cols := length header in
      (* target_doc.add_table(rows=1, cols=...); table.style = 'Table Grid' *)
      rbind (check_style doc "Table Grid" TABLE) (fun _ =>
      let rws := set_table_font [replicate cols empty_cell] in
      rbind (match rws with
             | hdr_cells :: _ => fill_cells write_header_cell 0 header hdr_cells
             | [] => Raise (IndexError "list index out of range")
             end) (fun hdr_cells =>
      rbind (add_data_rows cols data [hdr_cells]) (fun rws =>
      Ok (append_node doc (TableNode (mkTable (Some "Table Grid") cols rws))))))
  end.

(** ** The line walker: lines 322-439 *)

Definition div_open (class : string) : string := "<div class=" ++ quoted class.

(** The five [div] branches: the style of the paragraph a line of that
    class becomes. *)
Definition div_styles : list (string * string) := [
  (div_open "title", "A标题");
  (div_open "text", "A正文");
  (div_open "onetitle", "A一级标题");
  (div_open "twotitle", "A二级标题");
  (div_open "threetitle", "A三级标题")
].

(** The first branch of the [if]/[elif] chain of lines 328-361 whose test
    holds for the stripped line. *)
Fixpoint div_branch (branches : list (string * string)) (line : string)
  : option string :=
  match branches with
  | [] => None
  | (opener, sty) :: r =>
      if startswith line opener then Some sty else div_branch r line
  end.

(** Lines 369-371: the lines gathered up to the first one that starts, once
    stripped, with [</table>], or to the end of the input. *)
Fixpoint capture_table (rest : list string) : list string :=
  match rest with
  | [] => []
  | l :: rest' =>
      if startswith (strip l) "</table>" then []
      else l :: capture_table rest'
  end.

(** One turn of the [while] loop at the line [raw = lines[i]], with
    [rest = lines[i+1:]]: the document after it and how many lines of [rest]
    the index has passed when the turn ends (after the [i += 1] of line 439):
    none, or the lines gathered for a table and the line that closes it. *)
Definition loop_body (raw : string) (rest : list string) (doc : Document)
  : result (nat * Document) :=
  let line := strip raw in
  match div_branch div_styles line with
  | Some sty =>
      match search_div line with
      | Some text => rbind (add_styled_paragraph doc sty text) (fun d => Ok (0, d))
      | None => Ok (0, doc)
      end
  | None =>
      if startswith line "<table>" then
        let table_content := capture_table rest in
        let table_text := join_lines table_content in
        rbind (add_table_from doc (extract_table_data table_text))
              (fun d => Ok (S (length table_content), d))
      else if negb (String.eqb line EmptyString) && negb (startswith line "</") then
        rbind (add_styled_paragraph doc "A正文" line) (fun d => Ok (0, d))
      else Ok (0, doc)
  end.

(** The [while i < len(lines)] loop on [lines[i:]]; [skip] is the number of
    lines at the front that the index has already passed. *)
Fixpoint walk_lines (skip : nat) (lines : list string) (doc : Document)
  : result Document :=
  match lines with
  | [] => Ok doc
  | raw :: rest =>
      match skip with
      | S k => walk_lines k rest doc
      | O => rbind (loop_body raw rest doc)
                   (fun '(moved, d) => walk_lines moved rest d)
      end
  end.

Definition build_document (doc : Document) (markdown_content : string)
  : result Document :=
  walk_lines 0 (split_lines markdown_content) doc.

(** ** The tool: [DocxWithTemplateStyleTool._invoke] *)

(** The messages a tool yields to the host. *)
Inductive ToolInvokeMessage : Type :=
| BlobMessage (blob : bytes) (mime_type filename : string)
| TextMessage (text : string).

(** [self.create_text_message(text)] *)
Definition create_text_message (text : string) : ToolInvokeMessage :=
  TextMessage text.

(** What [tool_parameters['model']] can be, by the tests of lines 470-480. *)
Inductive template_object : Type :=
| FileObject (blob : bytes)          (* has a [blob] attribute *)
| Readable (content : bytes)         (* has a [read] method *)
| BytesObject (data : bytes)         (* is a [bytes] *)
| OtherObject.

(** The parameters once lines 462-464 have fetched them. *)
Record parameters : Type := mkParameters {
  model : template_object;
  query : string;
  output_filename : option string
}.

(** A value under the key [output_filename]: a [str], or an object
    without a [lower] attribute ([None], a number, a list), of which line
    465 sees the name of the type. *)
Inductive filename_value : Type :=
| StrValue (s : string)
| WithoutLower (type_name : string).

(** The dictionary [tool_parameters], as far as the code reads it: the
    three keys, each there or not.  The value under [model] is any
    object, the one under [query] a [str], the one under
    [output_filename] a [filename_value]. *)
Record parameter_dict : Type := mkParameterDict {
  item_model : option template_object;
  item_query : option string;
  item_output_filename : option filename_value
}.

(** Lines 462-465: the subscriptions, which raise [KeyError] on a key
    that is missing, [dict.get] with its default, and the call of
    [lower] on what it gave. *)
Definition fetch_parameters (tool_parameters : parameter_dict) : result parameters :=
  match item_model tool_parameters with
  | None => Raise (KeyError "'model'")
  | Some template_file =>
      match item_query tool_parameters with
      | None => Raise (KeyError "'query'")
      | Some markdown_content =>
          match item_output_filename tool_parameters with
          | None => Ok (mkParameters template_file markdown_content None)
          | Some (StrValue name) =>
              Ok (mkParameters template_file markdown_content (Some name))
          | Some (WithoutLower type_name) =>
              Raise (AttributeError
                       ("'" ++ type_name ++ "' object has no attribute 'lower'"))
          end
      end
  end.

(** ASCII [str.lower] and [str.endswith]. *)
Definition lower_ascii (c : ascii) : ascii :=
  let n := nat_of_ascii c in
  if ((65 <=? n) && (n <=? 90))%nat then ascii_of_nat (n + 32) else c.

Fixpoint lower (s : string) : string :=
  match s with
  | EmptyString => EmptyString
  | String c r => String (lower_ascii c) (lower r)
  end.

Definition endswith (s suffix : string) : bool :=
  (String.length suffix <=? String.length s)%nat
  && String.eqb (drop_str (String.length s - String.length suffix) s) suffix.

Definition DOCX_MIME :=
  "application/vnd.openxmlformats-officedocument.wordprocessingml.document".

Definition tmp_template := "tmp_template.docx".
Definition tmp_output := "tmp_output.docx".

(** Lines 470-480 *)
Definition template_bytes_of (template_file : template_object) : result bytes :=
  match template_file with
  | FileObject blob => Ok blob
  | Readable content => Ok content
  | BytesObject data => Ok data
  | OtherObject => Raise (TypeError "模板文件格式错误，需要Dify文件对象或字节流")
  end.

(** Lines 483-490 *)
Definition required_files : list string := ["[Content_Types].xml"; "word/document.xml"].

Definition validate_template (template_bytes : bytes) : result unit :=
  match ZipFile template_bytes with
  | Ok test_zip =>
      if forallb (fun f => bool_decide (f ∈ namelist test_zip)) required_files
      then Ok tt
      else Raise (ValueError "模板文件不是有效的DOCX格式")
  | Raise (BadZipFile _) =>
      Raise (ValueError "模板文件不是有效的ZIP压缩文件（可能不是DOCX）")
  | Raise e => Raise e
  end.

Section Tool.

(** What the code takes from outside the repository:
    - the bytes [Document().save(path)] writes, python-docx's package of
      the empty document;
    - [Document(path)] on the bytes of the file at [path], and
      [target_doc.save(stream)] followed by [stream.getvalue()];
    - the host's [create_blob_message], which is handed [None] when
      [generate_docx_with_template] returns nothing. *)
Variable blank_docx : bytes.
Variable Document_open : bytes -> result Document.
Variable Document_save : Document -> result bytes.
Variable create_blob_message :
  option bytes -> string -> string -> result ToolInvokeMessage.

(** Lines 313-445, the body of the [try] *)
Definition generate_body (template_bytes : bytes) (markdown_content : string)
  : io bytes :=
  write_file tmp_template template_bytes;;
  copy_styles_and_dependencies_from_template blank_docx tmp_template tmp_output;;
  data ← read_file tmp_output;
  target_doc ← lift (Document_open data);
  target_doc ← lift (build_document target_doc markdown_content);
  lift (Document_save target_doc).

(** Lines 452-457, the [finally] *)
Definition remove_temporary_files : io unit :=
  there ← gets (exists_ tmp_template);
  (if (there : bool) then remove tmp_template else ret tt);;
  there ← gets (exists_ tmp_output);
  if (there : bool) then remove tmp_output else ret tt.

(** Lines 306-457.  The [except] clause prints the error and the
    traceback and falls off the end of the function, which then returns
    [None]. *)
Definition generate_docx_with_template
    (template_bytes : bytes) (markdown_content : string) : io (option bytes) :=
  try_finally
    (try_except
       (final ← generate_body template_bytes markdown_content; ret (Some final))
       (fun _ => ret None))
    remove_temporary_files.

(** Lines 464-466 *)
Definition filename_of (tool_parameters : parameters) : string :=
  let name := default "高校毕业生就业情况分析报告.docx" (output_filename tool_parameters) in
  if endswith (lower name) ".docx" then name else name ++ ".docx".

(** Lines 468-506: the messages yielded, in order. *)
Definition _invoke (tool_parameters : parameters) : io (list ToolInvokeMessage) :=
  let template_file := model tool_parameters in
  let markdown_content := query tool_parameters in
  let output_filename := filename_of tool_parameters in
  try_except
    (template_bytes ← lift (template_bytes_of template_file);
     lift (validate_template template_bytes);;
     final_docx_bytes ← generate_docx_with_template template_bytes markdown_content;
     message ← lift (create_blob_message final_docx_bytes DOCX_MIME output_filename);
     ret [message])
    (fun e => ret [create_text_message ("生成带模板样式的docx时出错: " ++ str e)]).

(** Lines 459-506, the whole method on the dictionary: lines 462-466 run
    outside the [try], so what they raise leaves the method. *)
Definition invoke_tool (tool_parameters : parameter_dict)
  : io (list ToolInvokeMessage) :=
  match fetch_parameters tool_parameters with
  | Ok fetched => _invoke fetched
  | Raise e => raise e
  end.

End Tool.

(** ** Notions the properties are stated with *)

(** A name without a path separator. *)
Fixpoint no_slash (s : string) : bool :=
  match s with
  | EmptyString => true
  | String c r => negb (Ascii.eqb c "/") && no_slash r
  end.

(** The code [m] changes, whatever it returns or raises, at most the paths
    that satisfy [P]. *)
Definition touches {A} (P : string -> Prop) (m : io A) : Prop :=
  forall fs r fs', m fs = (r, fs') -> forall q, ~ P q -> fs' !! q = fs !! q.

(** The table has a relationship of the given type and target. *)
Definition has_relationship (root : ElementTree) (rel_type target : string) : bool :=
  match xpath_relationship root rel_type target with
  | [] => false
  | _ :: _ => true
  end.

(** The table [read_relationships] returns when it returns one: that of the
    file, or the empty one it writes when there is no file. *)
Definition relationships_at (fs : FS) (doc_rels_path : string) : ElementTree :=
  match fs !! doc_rels_path with
  | Some (File (XmlDoc root)) => root
  | _ => mkTree (clark NS_REL "Relationships") []
  end.

(** The table [ensure_relationship] writes back, given the one it read. *)
Definition ensure_relationship_tree (root : ElementTree) (rel_type target : string)
  : ElementTree :=
  if has_relationship root rel_type target then root
  else root_append root (new_relationship root rel_type target).


(** Every entry of the disk lies in directories that are there. *)
Definition tree_closed (fs : FS) : Prop :=
  forall q x, is_Some (fs !! q) -> x ∈ dir_prefixes "" q -> fs !! x = Some Dir.


Definition doc_rels_path : string := path_join b_dir "word/_rels/document.xml.rels".

(** What lies below the directory [d], the directory itself apart, comes
    from the members of an archive extracted there: every file is a member,
    every directory is above a member. *)
Definition extracted (d : string) (members : list (string * bytes)) (fs : FS)
  : Prop :=
  forall q n, under d q = true -> q <> d -> fs !! q = Some n ->
    match n with
    | File data => exists name, (name, data) ∈ members /\ q = path_join d name
    | Dir => exists name,
               name ∈ namelist members /\ q ∈ dir_prefixes "" (path_join d name)
    end.

(** The paths [safe_copy] can write for one part. *)
Definition safe_copy_targets (src_root dst_root rel_path : string) : list string :=
  let src := path_join src_root rel_path in
  let dst := path_join dst_root rel_path in
  dir_prefixes "" (dirname dst) ++ [dirname dst; dst; path_join dst (basename src)].

(** The code [m] leaves every directory in place. *)
Definition keeps_dirs {A} (m : io A) : Prop :=
  forall fs r fs' q, m fs = (r, fs') -> fs !! q = Some Dir -> fs' !! q = Some Dir.

(** [zf.read(name)]: the member of that name, the last one when several
    have it. *)
Fixpoint archive_read (members : list (string * bytes)) (name : string)
  : option bytes :=
  match members with
  | [] => None
  | (n, data) :: r =>
      match archive_read r name with
      | Some later => Some later
      | None => if String.eqb n name then Some data else None
      end
  end.

(** The relationship table of the main document in the package at
    [tmp_output]. *)
Definition output_relationships (fs : FS) : option ElementTree :=
  match fs !! tmp_output with
  | Some (File (ZipArchive members)) =>
      match archive_read members "word/_rels/document.xml.rels" with
      | Some (XmlDoc root) => Some root
      | _ => None
      end
  | _ => None
  end.

(** ** Notions of the further properties *)

(** The identifiers of the relationships of a table, in document order:
    the list [existing_ids] is the set of. *)
Definition relationship_ids (root : ElementTree) : list string :=
  omap (fun el => match el_get el "Id" with
                  | Some EmptyString => None
                  | o => o
                  end)
       (relationships root).

(** The content-type manifest of the blank working directory. *)
Definition ct_path : string := path_join b_dir "[Content_Types].xml".

(** The manifest declares the part: it has an override for that name. *)
Definition has_override (root : ElementTree) (partname : string) : bool :=
  match xpath_override root partname with
  | [] => false
  | _ :: _ => true
  end.

(** The paths of the blank working directory that the merge can write
    after the extraction: the destinations of the copies, the manifest, and
    the relationship table of the main document with its directories. *)
Definition merge_targets : list string :=
  (PARTS_TO_COPY ≫= safe_copy_targets t_dir b_dir)
  ++ [ct_path]
  ++ dir_prefixes "" (dirname doc_rels_path) ++ [dirname doc_rels_path; doc_rels_path].

(** Lines 140-141, the body of the loop of [fix_content_types]. *)
Definition declare_part (kv : string * string) : io unit :=
  there ← gets (exists_ (path_join b_dir (lstrip_slash kv.1)));
  if (there : bool) then ensure_content_type_override ct_path kv.1 kv.2
  else ret tt.

(** The code [m] makes no directory at the path [q]. *)
Definition no_new_directory {A} (q : string) (m : io A) : Prop :=
  forall fs r fs', m fs = (r, fs') -> fs !! q <> Some Dir -> fs' !! q <> Some Dir.

(** The string has no occurrence of the character. *)
Fixpoint lacks (c : ascii) (s : string) : bool :=
  match s with
  | EmptyString => true
  | String a r => negb (Ascii.eqb a c) && lacks c r
  end.

(** A header cell and a body cell as the table code leaves them: the text
    in one run of 10 points in a centred paragraph, bold and on the fill
    colour [5B9BD5] in the header. *)
Definition header_cell (text : string) : Cell :=
  mkCell [mkParagraph None (Some CENTER) [mkRun text (Some true) (Some (Pt 10))]]
         ["5B9BD5"].

Definition body_cell (text : string) : Cell :=
  mkCell [mkParagraph None (Some CENTER) [mkRun text None (Some (Pt 10))]] [].

(** *** Well-formed table text

    The elements [open c close] of a list, with the separator [sep] before
    each of them and after the last. *)
Fixpoint elements_text (open close sep : string) (contents : list string) : string :=
  match contents with
  | [] => sep
  | c :: r => sep ++ open ++ c ++ close ++ elements_text open close sep r
  end.

(** The text of a table with a header row and body rows, every tag set off
    by the separator. *)
Definition table_text_of (sep : string) (header : list string)
    (data : list (list string)) : string :=
  sep ++ "<thead>"
      ++ (sep ++ "<tr>" ++ elements_text "<th>" "</th>" sep header ++ "</tr>" ++ sep)
      ++ "</thead>"
  ++ sep ++ "<tbody>"
      ++ elements_text "<tr>" "</tr>" sep (elements_text "<td>" "</td>" sep <$> data)
      ++ "</tbody>"
  ++ sep.

(** The lazy group runs over [p]: the closing text starts nowhere in it. *)
Definition passes (dotall : bool) (closes : list string) (p : string) : Prop :=
  forall s, lazy_until dotall closes (p ++ s)
            = match lazy_until dotall closes s with
              | Some (g, n) => Some ((p ++ g)%string, String.length p + n)
              | None => None
              end.

(** No opening text starts in [p], whatever follows it. *)
Fixpoint no_open (opens : list string) (p : string) : Prop :=
  match p with
  | EmptyString => True
  | String a r =>
      (forall s, prefix_any opens (String a (r ++ s)) = None) /\ no_open opens r
  end.

(** ** Sample packages, documents and inputs *)

Module Sample.

Definition relationship (id rel_type target : string) : Element :=
  mkElement (clark NS_REL "Relationship")
            [("Id", id); ("Type", rel_type); ("Target", target)].

Definition override (partname content_type : string) : Element :=
  mkElement (clark NS_CT "Override")
            [("PartName", partname); ("ContentType", content_type)].

Definition REL_TYPE_SETTINGS :=
  "http://schemas.openxmlformats.org/officeDocument/2006/relationships/settings".
Definition REL_TYPE_FONT_TABLE :=
  "http://schemas.openxmlformats.org/officeDocument/2006/relationships/fontTable".

(** The table of the example of the specification: identifiers
    [rId1], [rId2] and [rId4]. *)
Definition rels_1_2_4 : ElementTree :=
  mkTree (clark NS_REL "Relationships")
         [relationship "rId1" REL_TYPE_STYLES "styles.xml";
          relationship "rId2" REL_TYPE_SETTINGS "settings.xml";
          relationship "rId4" REL_TYPE_FONT_TABLE "fontTable.xml"].

Definition rels_path := "word/_rels/document.xml.rels".

Definition rels_disk : FS := {[ rels_path := File (XmlDoc rels_1_2_4) ]}.

Definition content_types : ElementTree :=
  mkTree (clark NS_CT "Types")
         [mkElement (clark NS_CT "Default")
                    [("Extension", "xml"); ("ContentType", "application/xml")];
          override "/word/document.xml"
            "application/vnd.openxmlformats-officedocument.wordprocessingml.document.main+xml"].


(** A manifest that lists the styles part twice. *)
Definition content_types_twice : ElementTree :=
  mkTree (clark NS_CT "Types")
         [override "/word/styles.xml" "application/xml";
          override "/word/styles.xml" "application/xml"].

(** A blank package without numbering: manifest, main document and its
    relationships, styles. *)
Definition plain_blank : list (string * bytes) :=
  [("[Content_Types].xml", XmlDoc content_types);
   ("word/document.xml", Raw "<w:document/>");
   ("word/_rels/document.xml.rels", XmlDoc rels_1_2_4);
   ("word/styles.xml", Raw "<w:styles/>")].

(** A blank package that has, as the default template of python-docx
    has, a numbering part and the relationship to it. *)
Definition numbered_rels : ElementTree :=
  mkTree (clark NS_REL "Relationships")
         [relationship "rId1" REL_TYPE_NUMBERING "numbering.xml";
          relationship "rId2" REL_TYPE_STYLES "styles.xml";
          relationship "rId3" REL_TYPE_SETTINGS "settings.xml";
          relationship "rId4" REL_TYPE_THEME "theme/theme1.xml"].

Definition numbered_blank : list (string * bytes) :=
  [("[Content_Types].xml", XmlDoc content_types);
   ("word/document.xml", Raw "<w:document/>");
   ("word/_rels/document.xml.rels", XmlDoc numbered_rels);
   ("word/styles.xml", Raw "<w:styles/>");
   ("word/numbering.xml", Raw "<w:numbering/>");
   ("word/settings.xml", Raw "<w:settings/>");
   ("word/theme/theme1.xml", Raw "<a:theme/>")].

(** A template with styles and a theme and without a numbering part. *)
Definition template : list (string * bytes) :=
  [("[Content_Types].xml", XmlDoc content_types);
   ("word/document.xml", Raw "<w:document/>");
   ("word/styles.xml", Raw "<w:styles>template</w:styles>");
   ("word/theme/theme1.xml", Raw "<a:theme>template</a:theme>")].

(** A ZIP archive with both mandatory parts in which [word/styles.xml] is
    a directory. *)
Definition template_with_directory : list (string * bytes) :=
  [("[Content_Types].xml", XmlDoc content_types);
   ("word/document.xml", Raw "<w:document/>");
   ("word/styles.xml/readme.txt", Raw "not a style sheet")].

(** The disk with the template staged, as line 315 leaves it. *)
Definition staged (template_bytes : bytes) : FS :=
  {[ tmp_template := File template_bytes ]}.

(** The styles the builder asks for. *)
Definition template_styles : list (string * WD_STYLE_TYPE) :=
  [("A标题", PARAGRAPH); ("A正文", PARAGRAPH); ("A一级标题", PARAGRAPH);
   ("A二级标题", PARAGRAPH); ("A三级标题", PARAGRAPH); ("Table Grid", TABLE)].

Definition styled_document : Document := mkDocument template template_styles [].

(** A stand-in for [Document(path)]: the parts of the package, the styles
    above, an empty body. *)
Definition Document_open (data : bytes) : result Document :=
  match data with
  | ZipArchive members => Ok (mkDocument members template_styles [])
  | _ => Raise (ValueError "Package not found")
  end.

Definition render_run (r : Run) : string := run_text r.
Definition render_paragraph (p : Paragraph) : string :=
  "<w:p>" ++ String.concat "" (render_run <$> runs p) ++ "</w:p>".
Definition render_cell (c : Cell) : string :=
  "<w:tc>" ++ String.concat "" (render_paragraph <$> paragraphs c) ++ "</w:tc>".
Definition render_node (n : BodyNode) : string :=
  match n with
  | ParagraphNode p => render_paragraph p
  | TableNode t =>
      "<w:tbl>"
      ++ String.concat ""
           ((fun row : list Cell =>
               ("<w:tr>" ++ String.concat "" (render_cell <$> row) ++ "</w:tr>")%string)
              <$> rows t)
      ++ "</w:tbl>"
  end.

(** A stand-in for [target_doc.save(...)]: the parts, with the body
    written into the main document part. *)
Definition Document_save (doc : Document) : result bytes :=
  Ok (ZipArchive
        (package doc
         ++ [("word/document.xml",
              Raw (String.concat "" (render_node <$> body doc)))])).

(** A host whose [create_blob_message] checks its [blob: bytes]
    parameter. *)
Definition create_blob_message (blob : option bytes) (mime_type filename : string)
  : result ToolInvokeMessage :=
  match blob with
  | Some data => Ok (BlobMessage data mime_type filename)
  | None => Raise (ValidationError "blob: Input should be a valid bytes")
  end.

Definition table_markdown (row : string) : string :=
  String.concat (String newline EmptyString)
    ["<table>";
     "<thead><tr><th>A</th><th>B</th></tr></thead>";
     "<tbody>";
     row;
     "</tbody>";
     "</table>"].

Definition long_row := "<tr><td>1</td><td>2</td><td>3</td></tr>".
Definition short_row := "<tr><td>1</td></tr>".

(** A text with a form feed between two letters, and a row of one cell
    with that text. *)
Definition form_feed_text : string := "a" ++ String (ascii_of_nat 12) "b".

Definition unclosed_title : string := div_open "title" ++ ">Report".

Definition parameters_with (template_bytes : bytes) (markdown : string)
  : parameters :=
  mkParameters (FileObject template_bytes) markdown None.

(** An archive with a member in a directory and a name that occurs twice,
    and a disk where it is to be extracted into a directory that holds an
    older file. *)
Definition small_archive : list (string * bytes) :=
  [("word/x.xml", Raw "1"); ("y.txt", Raw "2"); ("y.txt", Raw "3")].

Definition unpack_disk : FS :=
  {[ "a.docx" := File (ZipArchive small_archive);
     "out" := Dir;
     "out/old.txt" := File (Raw "stale") ]}.

(** A disk where the file to extract is no archive. *)
Definition junk_disk : FS :=
  {[ "a.docx" := File (Raw "junk");
     "out" := Dir;
     "out/old.txt" := File (Raw "stale") ]}.

(** The blank working directory with a manifest and a styles part. *)
Definition blank_dir_disk : FS :=
  {[ b_dir := Dir;
     path_join b_dir "[Content_Types].xml" := File (XmlDoc content_types);
     path_join b_dir "word" := Dir;
     path_join b_dir "word/styles.xml" := File (Raw "<w:styles/>") ]}.

(** The line of the example of the specification. *)
Definition chapter_line : string := div_open "onetitle" ++ ">Chapter 1</div>".

(** A table as the lines of the input have it, one tag a line. *)
Definition table_lines : list string :=
  ["<thead><tr><th>A</th><th>B</th></tr></thead>";
   "<tbody>";
   "<tr><td>1</td></tr>";
   "</tbody>"].

End Sample.

(** * Properties *)

(** ** Relationship identifiers *)

Section RelationshipIds.

#[local] Instance rId_inj : Inj (=) (=) rId.
Proof.
  intros m n H. unfold rId in H.
  apply (inj (String.app "rId")) in H.
  by apply (inj pretty) in H.
Qed.

(** Candidates [rId a .. rId (a+n-1)] all present: the set holds at least
    [n] identifiers. *)
Lemma rId_block_size (ids : gset string) (a n : nat) :
  (forall k, a <= k < a + n -> rId k ∈ ids) -> n <= size ids.
Proof.
  intros H.
  assert (Hsub : list_to_set (rId <$> seq a n) ⊆ ids).
  { intros s Hs. apply elem_of_list_to_set, list_elem_of_fmap in Hs.
    destruct Hs as (k & -> & Hk). apply elem_of_seq in Hk. apply H. lia. }
  apply subseteq_size in Hsub.
  rewrite size_list_to_set in Hsub.
  - by rewrite length_fmap, length_seq in Hsub.
  - apply (NoDup_fmap_2 _), NoDup_seq.
Qed.

Lemma next_rid_loop_spec (fuel : nat) (ids : gset string) (start : nat) :
  (forall k, 1 <= k < start -> rId k ∈ ids) ->
  1 <= start ->
  size ids <= fuel + (start - 1) ->
  let n := next_rid_loop fuel ids start in
  start <= n /\ (rId n ∉ ids) /\ forall k, 1 <= k < n -> rId k ∈ ids.
Proof.
  revert start. induction fuel as [|fuel IH]; intros start Hbelow Hpos Hfuel;
    simpl; destruct (decide (rId start ∈ ids)) as [Hin|Hout]; auto.
  - exfalso.
    assert (start <= size ids).
    { apply (rId_block_size ids 1 start). intros k Hk.
      destruct (decide (k = start)) as [->|]; [done | apply Hbelow; lia]. }
    lia.
  - destruct (IH (S start)) as (Hle & Hfresh & Hall).
    + intros k Hk. destruct (decide (k = start)) as [->|]; [done | apply Hbelow; lia].
    + lia.
    + lia.
    + split_and!; [lia | done | done].
Qed.

(** The [while] loop of lines 101-103 stops within its fuel, on the lowest
    positive number whose identifier is free. *)
Lemma next_rid_spec (ids : gset string) :
  1 <= next_rid ids /\ (rId (next_rid ids) ∉ ids)
  /\ forall k, 1 <= k < next_rid ids -> rId k ∈ ids.
Proof.
  unfold next_rid. apply next_rid_loop_spec; [intros; lia | lia | lia].
Qed.

End RelationshipIds.

(** ** Running code on the disk *)

Ltac io_unfold :=
  unfold mbind, io_bind, mret, io_ret, bind, ret, raise, gets, lift in *.

Lemma read_file_File (p : string) (data : bytes) (fs : FS) :
  fs !! p = Some (File data) -> read_file p fs = (Ok data, fs).
Proof. intros H. unfold read_file. by rewrite H. Qed.

Lemma write_file_over (p : string) (old data : bytes) (fs : FS) :
  fs !! p = Some (File old) ->
  write_file p data fs = (Ok tt, <[p := File data]> fs).
Proof. intros H. unfold write_file. by rewrite H. Qed.

Lemma etree_parse_xml (p : string) (root : ElementTree) (fs : FS) :
  fs !! p = Some (File (XmlDoc root)) -> etree_parse p fs = (Ok root, fs).
Proof.
  intros H. unfold etree_parse. io_unfold. by rewrite (read_file_File _ _ _ H).
Qed.

Lemma exists_true (p : string) (n : node) (fs : FS) :
  fs !! p = Some n -> exists_ p fs = true.
Proof. intros H. unfold exists_. apply bool_decide_eq_true. by rewrite H. Qed.

Lemma exists_false (p : string) (fs : FS) :
  fs !! p = None -> exists_ p fs = false.
Proof.
  intros H. unfold exists_. apply bool_decide_eq_false. rewrite H.
  intros [? ?]. discriminate.
Qed.

(** ** Prefixes *)

Lemma prefix_cons (a b : ascii) (p s : string) :
  String.prefix (String a p) (String b s)
  = if ascii_dec a b then String.prefix p s else false.
Proof. reflexivity. Qed.

Lemma prefix_inv (p s : string) :
  String.prefix p s = true -> exists r, s = (p ++ r)%string.
Proof.
  revert s. induction p as [|a p IH]; intros s H.
  - by exists s.
  - destruct s as [|b s]; [done |]. rewrite prefix_cons in H.
    destruct (ascii_dec a b) as [->|]; [| done].
    destruct (IH s H) as [r ->]. by exists r.
Qed.

Lemma prefix_app (p r : string) : String.prefix p (p ++ r)%string = true.
Proof.
  induction p as [|a p IH].
  - by destruct r.
  - change (String a p +:+ r) with (String a (p +:+ r)). rewrite prefix_cons.
    by destruct (ascii_dec a a).
Qed.

(** ** Paths *)

Lemma str_app_cons (a : ascii) (s r : string) :
  (String a s ++ r)%string = String a (s ++ r).
Proof. reflexivity. Qed.

Lemma str_app_assoc (s1 s2 s3 : string) :
  ((s1 ++ s2) ++ s3)%string = (s1 ++ s2 ++ s3)%string.
Proof.
  induction s1 as [|a s1 IH]; [done |].
  by rewrite !str_app_cons, IH.
Qed.

Lemma str_app_nil_r (s : string) : (s ++ "")%string = s.
Proof. induction s as [|a s IH]; [done |]. by rewrite str_app_cons, IH. Qed.

(** Every directory above a path is the part of the path before one of its
    separators, and conversely. *)
Lemma dir_prefixes_spec (s acc x : string) :
  x ∈ dir_prefixes acc s <->
  exists s1 s2, s = (s1 ++ "/" ++ s2)%string /\ x = (acc ++ s1)%string.
Proof.
  revert acc. induction s as [|c s IH]; intros acc; simpl.
  - split; [by intros ?%elem_of_nil |].
    intros (s1 & s2 & H & _). by destruct s1.
  - destruct (Ascii.eqb_spec c "/") as [->|Hc].
    + rewrite elem_of_cons, IH. split.
      * intros [->|(s1 & s2 & -> & ->)].
        -- exists "", s. by rewrite str_app_nil_r.
        -- exists (String "/" s1), s2. by rewrite str_app_assoc.
      * intros (s1 & s2 & H & ->). destruct s1 as [|a s1].
        -- left. by rewrite str_app_nil_r.
        -- right. rewrite str_app_cons in H. simplify_eq.
           exists s1, s2. by rewrite str_app_assoc.
    + rewrite IH. split.
      * intros (s1 & s2 & -> & ->). exists (String c s1), s2.
        by rewrite str_app_assoc.
      * intros (s1 & s2 & H & ->). destruct s1 as [|a s1].
        -- change ("" ++ "/" ++ s2)%string with (String "/" s2) in H. congruence.
        -- rewrite str_app_cons in H. simplify_eq.
           exists s1, s2. by rewrite str_app_assoc.
Qed.

Lemma under_refl (d : string) : under d d = true.
Proof. unfold under. by rewrite String.eqb_refl. Qed.

Lemma under_join (d n : string) : under d (path_join d n) = true.
Proof.
  unfold under, path_join. rewrite <- str_app_assoc, prefix_app.
  apply orb_true_r.
Qed.

Lemma under_join_join (d n m : string) :
  under d (path_join (path_join d n) m) = true.
Proof.
  unfold path_join. rewrite str_app_assoc. apply under_join.
Qed.

(** Cutting a path below a directory whose name has no separator: the cut
    is at the end of the directory name or further down. *)
Lemma split_below (d n s1 s2 : string) :
  no_slash d = true ->
  (d ++ "/" ++ n)%string = (s1 ++ "/" ++ s2)%string ->
  s1 = d \/ exists t, s1 = (d ++ "/" ++ t)%string.
Proof.
  revert s1. induction d as [|a d IH]; intros s1 Hd H.
  - destruct s1 as [|b s1]; [by left |]. right.
    change ("" ++ "/" ++ n)%string with (String "/" n) in H.
    rewrite str_app_cons in H. simplify_eq. by exists s1.
  - simpl in Hd. apply andb_true_iff in Hd as [Ha Hd].
    rewrite str_app_cons in H. destruct s1 as [|b s1].
    + exfalso. change ("" ++ "/" ++ s2)%string with (String "/" s2) in H.
      injection H as -> _. by vm_compute in Ha.
    + rewrite str_app_cons in H. injection H as <- H.
      destruct (IH s1 Hd H) as [->|[t ->]]; [by left |].
      right. by exists t.
Qed.

Lemma dir_prefixes_under (d n x : string) :
  no_slash d = true ->
  x ∈ dir_prefixes "" (path_join d n) -> under d x = true.
Proof.
  intros Hd (s1 & s2 & H & ->)%dir_prefixes_spec.
  change ("" ++ s1)%string with s1.
  destruct (split_below d n s1 s2 Hd H) as [->|[t ->]].
  - apply under_refl.
  - apply under_join.
Qed.

Lemma last_elem_of {A} (l : list A) (d : A) : l <> [] -> List.last l d ∈ l.
Proof.
  induction l as [|x [|y l] IH]; intros H; [done | |].
  - by apply list_elem_of_singleton.
  - apply elem_of_cons. right. by apply IH.
Qed.

(** The directory of a path, when it has one, is one of the directories
    above it, and so are the directories above that. *)
Lemma dirname_elem_of (p : string) :
  dirname p <> "" -> dirname p ∈ dir_prefixes "" p.
Proof.
  unfold dirname. intros H. apply last_elem_of. intros E. by rewrite E in H.
Qed.

Lemma dir_prefixes_dirname (p x : string) :
  x ∈ dir_prefixes "" (dirname p) ++ [dirname p] ->
  dirname p <> "" ->
  x ∈ dir_prefixes "" p.
Proof.
  intros Hx Hne. pose proof (dirname_elem_of p Hne) as Hd.
  apply elem_of_app in Hx as [Hx | ->%list_elem_of_singleton]; [| done].
  apply dir_prefixes_spec in Hx as (s1 & s2 & Hs & ->).
  apply dir_prefixes_spec in Hd as (t1 & t2 & Hp & Hd).
  change ("" ++ t1)%string with t1 in Hd. subst t1.
  apply dir_prefixes_spec. exists s1, (s2 ++ "/" ++ t2)%string. split; [| done].
  rewrite Hp at 1. rewrite Hs. by rewrite !str_app_assoc.
Qed.

(** ** Which paths a piece of code can change *)

Section Touches.
Context {A : Type} (P : string -> Prop).

Lemma touches_ret (a : A) : touches P (ret a).
Proof. intros fs r fs' [= <- <-] q _. done. Qed.

Lemma touches_raise (e : exn) : touches P (@raise A e).
Proof. intros fs r fs' [= <- <-] q _. done. Qed.

Lemma touches_gets (f : FS -> A) : touches P (gets f).
Proof. intros fs r fs' [= <- <-] q _. done. Qed.

Lemma touches_lift (x : result A) : touches P (lift x).
Proof. intros fs r fs' [= <- <-] q _. done. Qed.

Lemma touches_weaken (Q : string -> Prop) (m : io A) :
  (forall q, Q q -> P q) -> touches Q m -> touches P m.
Proof. intros HQP Hm fs r fs' Hrun q Hq. eapply Hm; eauto. Qed.

Lemma touches_bind {B} (m : io B) (k : B -> io A) :
  touches P m -> (forall b, touches P (k b)) -> touches P (m ≫= k).
Proof.
  intros Hm Hk fs r fs' Hrun q Hq. io_unfold.
  destruct (m fs) as [[b|e] fs1] eqn:E.
  - rewrite (Hk b _ _ _ Hrun q Hq). eapply Hm; eauto.
  - injection Hrun as <- <-. eapply Hm; eauto.
Qed.

Lemma touches_try_except (body : io A) (handler : exn -> io A) :
  touches P body -> (forall e, touches P (handler e)) ->
  touches P (try_except body handler).
Proof.
  intros Hm Hk fs r fs' Hrun q Hq. unfold try_except in Hrun.
  destruct (body fs) as [[b|e] fs1] eqn:E.
  - injection Hrun as <- <-. eapply Hm; eauto.
  - rewrite (Hk e _ _ _ Hrun q Hq). eapply Hm; eauto.
Qed.

Lemma touches_try_finally (body : io A) (cleanup : io unit) :
  touches P body -> touches P cleanup ->
  touches P (try_finally body cleanup).
Proof.
  intros Hm Hk fs r fs' Hrun q Hq. unfold try_finally in Hrun.
  destruct (body fs) as [r1 fs1] eqn:E.
  destruct (cleanup fs1) as [[[]|e] fs2] eqn:E2; injection Hrun as <- <-;
    rewrite (Hk _ _ _ E2 q Hq); eapply Hm; eauto.
Qed.
End Touches.

Lemma touches_for_each {B} (P : string -> Prop) (l : list B) (body : B -> io unit) :
  (forall x, x ∈ l -> touches P (body x)) -> touches P (for_each l body).
Proof.
  induction l as [|x l IH]; intros H; simpl.
  - apply touches_ret.
  - apply (touches_bind P (body x) (fun _ => for_each l body)).
    + apply H, elem_of_cons. by left.
    + intros _. apply IH. intros y Hy. apply H, elem_of_cons. by right.
Qed.

Lemma touches_if {A} (P : string -> Prop) (b : bool) (m1 m2 : io A) :
  touches P m1 -> touches P m2 -> touches P (if b then m1 else m2).
Proof. by destruct b. Qed.

Lemma touches_write_file (P : string -> Prop) (p : string) (data : bytes) :
  P p -> touches P (write_file p data).
Proof.
  intros Hp fs r fs' Hrun q Hq. unfold write_file in Hrun.
  assert (q <> p) by congruence.
  repeat case_match; simplify_eq; try done; by rewrite lookup_insert_ne.
Qed.

Lemma touches_read_file (P : string -> Prop) (p : string) :
  touches P (read_file p).
Proof.
  intros fs r fs' Hrun q Hq. unfold read_file in Hrun.
  repeat case_match; by simplify_eq.
Qed.

Lemma touches_remove (P : string -> Prop) (p : string) :
  P p -> touches P (remove p).
Proof.
  intros Hp fs r fs' Hrun q Hq. unfold remove in Hrun.
  assert (q <> p) by congruence.
  repeat case_match; simplify_eq; try done; by rewrite lookup_delete_ne.
Qed.

Lemma touches_mkdir_step (P : string -> Prop) (d : string) :
  P d -> touches P (mkdir_step d).
Proof.
  intros Hp fs r fs' Hrun q Hq. unfold mkdir_step in Hrun.
  assert (q <> d) by congruence.
  repeat case_match; simplify_eq; try done; by rewrite lookup_insert_ne.
Qed.

Lemma touches_makedirs_exist_ok (P : string -> Prop) (d : string) :
  (forall x, x ∈ dir_prefixes "" d ++ [d] -> P x) ->
  touches P (makedirs_exist_ok d).
Proof.
  intros H. unfold makedirs_exist_ok. destruct d as [|c d].
  - apply touches_raise.
  - apply touches_for_each. intros x Hx. by apply touches_mkdir_step, H.
Qed.

Lemma touches_makedirs (P : string -> Prop) (d : string) :
  (forall x, x ∈ dir_prefixes "" d ++ [d] -> P x) ->
  touches P (makedirs d).
Proof.
  intros H fs r fs' Hrun q Hq. unfold makedirs in Hrun.
  destruct (fs !! d); [by simplify_eq |].
  eapply touches_makedirs_exist_ok; eauto.
Qed.

Lemma lookup_remove_tree (d q : string) (fs : FS) :
  remove_tree d fs !! q = if under d q then None else fs !! q.
Proof.
  unfold remove_tree. destruct (under d q) eqn:E.
  - apply map_lookup_filter_None. right. intros n _ Hn. simpl in Hn.
    apply Hn. by rewrite E.
  - destruct (fs !! q) as [n|] eqn:Hq.
    + apply map_lookup_filter_Some. split; [done |]. simpl. rewrite E. intros [].
    + apply map_lookup_filter_None. by left.
Qed.

Lemma touches_rmtree (P : string -> Prop) (d : string) :
  (forall q, under d q = true -> P q) -> touches P (rmtree d).
Proof.
  intros H fs r fs' Hrun q Hq. unfold rmtree in Hrun.
  repeat case_match; simplify_eq; try done.
  rewrite lookup_remove_tree. destruct (under d q) eqn:E; [| done].
  by apply H in E.
Qed.

Lemma touches_rmtree_ignore_errors (P : string -> Prop) (d : string) :
  (forall q, under d q = true -> P q) -> touches P (rmtree_ignore_errors d).
Proof.
  intros H fs r fs' Hrun q Hq. unfold rmtree_ignore_errors in Hrun.
  repeat case_match; simplify_eq; try done.
  rewrite lookup_remove_tree. destruct (under d q) eqn:E; [| done].
  by apply H in E.
Qed.

Lemma touches_etree_parse (P : string -> Prop) (p : string) :
  touches P (etree_parse p).
Proof.
  unfold etree_parse. apply touches_bind; [apply touches_read_file |].
  intros []; (apply touches_ret || apply touches_raise).
Qed.

Lemma touches_tree_write (P : string -> Prop) (p : string) (t : ElementTree) :
  P p -> touches P (tree_write p t).
Proof. apply touches_write_file. Qed.

(** Making the directory of a path below [d] stays below [d]. *)
Lemma touches_makedirs_dirname (d n : string) :
  no_slash d = true ->
  touches (fun q => under d q = true) (makedirs_exist_ok (dirname (path_join d n))).
Proof.
  intros Hd. destruct (decide (dirname (path_join d n) = "")) as [->|Hne].
  - apply touches_raise.
  - apply touches_makedirs_exist_ok. intros x Hx.
    eapply dir_prefixes_under; [done |].
    by apply dir_prefixes_dirname.
Qed.

Lemma touches_extractall (d : string) (members : list (string * bytes)) :
  no_slash d = true ->
  touches (fun q => under d q = true) (extractall members d).
Proof.
  intros Hd. apply touches_for_each. intros m _. unfold extract_member.
  apply touches_bind; [by apply touches_makedirs_dirname |].
  intros _. apply touches_write_file, under_join.
Qed.

Lemma touches_unzip_docx (docx_path d : string) :
  no_slash d = true ->
  touches (fun q => under d q = true) (unzip_docx docx_path d).
Proof.
  intros Hd. unfold unzip_docx.
  apply touches_bind; [apply touches_gets |]. intros there.
  apply touches_bind.
  { apply touches_if; [by apply touches_rmtree | apply touches_ret]. }
  intros _. apply touches_bind.
  { apply touches_makedirs. intros x Hx.
    apply elem_of_app in Hx as [Hx | ->%list_elem_of_singleton].
    - apply dir_prefixes_spec in Hx as (s1 & s2 & -> & ->). exfalso.
      clear -Hd. induction s1 as [|a s1 IH]; simpl in Hd; [done |].
      rewrite str_app_cons in Hd. simpl in Hd.
      apply andb_true_iff in Hd as [_ Hd]. auto.
    - apply under_refl. }
  intros _. apply touches_bind; [apply touches_read_file |]. intros data.
  apply touches_bind; [apply touches_lift |]. intros members.
  by apply touches_extractall.
Qed.

Lemma touches_copy2 (P : string -> Prop) (src dst : string) :
  P dst -> P (path_join dst (basename src)) -> touches P (copy2 src dst).
Proof.
  intros H1 H2. unfold copy2.
  apply touches_bind; [apply touches_read_file |]. intros data.
  apply touches_bind; [apply touches_gets |]. intros [];
    by apply touches_write_file.
Qed.

Lemma touches_safe_copy (src_root d rel_path : string) :
  no_slash d = true ->
  touches (fun q => under d q = true) (safe_copy src_root d rel_path).
Proof.
  intros Hd. unfold safe_copy.
  apply touches_bind; [apply touches_gets |]. intros [].
  - apply touches_bind; [by apply touches_makedirs_dirname |]. intros _.
    apply touches_bind; [| intros; apply touches_ret].
    apply touches_copy2; [apply under_join | apply under_join_join].
  - apply touches_ret.
Qed.

Lemma touches_zip_dir (P : string -> Prop) (input_dir output_docx : string) :
  P output_docx -> touches P (zip_dir input_dir output_docx).
Proof.
  intros H. unfold zip_dir.
  apply touches_bind; [by apply touches_write_file |]. intros _.
  apply touches_bind; [apply touches_gets |]. intros members.
  by apply touches_write_file.
Qed.

Lemma touches_ensure_content_type_override
    (P : string -> Prop) (ct_path partname content_type : string) :
  P ct_path ->
  touches P (ensure_content_type_override ct_path partname content_type).
Proof.
  intros H. unfold ensure_content_type_override.
  apply touches_bind; [apply touches_etree_parse |]. intros root.
  destruct (xpath_override root partname);
    [by apply touches_tree_write | apply touches_ret].
Qed.

Lemma touches_read_relationships (d n : string) :
  no_slash d = true ->
  touches (fun q => under d q = true) (read_relationships (path_join d n)).
Proof.
  intros Hd. unfold read_relationships.
  apply touches_bind; [apply touches_gets |]. intros there.
  apply touches_bind; [| intros; apply touches_etree_parse].
  destruct there; [apply touches_ret |].
  apply touches_bind; [by apply touches_makedirs_dirname |]. intros _.
  apply touches_tree_write, under_join.
Qed.

Lemma touches_ensure_relationship (d n rel_type target : string) :
  no_slash d = true ->
  touches (fun q => under d q = true)
          (ensure_relationship (path_join d n) rel_type target).
Proof.
  intros Hd. unfold ensure_relationship.
  apply touches_bind; [by apply touches_read_relationships |]. intros root.
  destruct (xpath_relationship root rel_type target);
    apply touches_tree_write, under_join.
Qed.

Lemma touches_copy_parts : touches (fun q => under b_dir q = true) copy_parts.
Proof.
  apply touches_for_each. intros part _.
  apply touches_bind; [by apply touches_safe_copy | intros; apply touches_ret].
Qed.

Lemma touches_fix_content_types :
  touches (fun q => under b_dir q = true) fix_content_types.
Proof.
  apply touches_for_each. intros kv _.
  apply touches_bind; [apply touches_gets |]. intros [].
  - apply touches_ensure_content_type_override, under_join.
  - apply touches_ret.
Qed.

Lemma touches_fix_relationships :
  touches (fun q => under b_dir q = true) fix_relationships.
Proof.
  unfold fix_relationships.
  apply touches_bind; [by apply touches_ensure_relationship |]. intros _.
  apply touches_bind; [by apply touches_ensure_relationship |]. intros _.
  apply touches_bind; [apply touches_gets |]. intros [].
  - by apply touches_ensure_relationship.
  - apply touches_ret.
Qed.

(** The merge changes nothing but its output file and what lies in its two
    working directories, however it ends. *)
Lemma touches_merge (blank_docx : bytes) (template_path output_path : string) :
  touches (fun q => q = output_path \/ under t_dir q = true \/ under b_dir q = true)
          (copy_styles_and_dependencies_from_template
             blank_docx template_path output_path).
Proof.
  unfold copy_styles_and_dependencies_from_template.
  apply touches_bind; [apply touches_write_file; by left |]. intros _.
  apply touches_bind.
  { eapply touches_weaken; [| by apply (touches_unzip_docx template_path t_dir)].
    simpl. auto. }
  intros _. apply touches_bind.
  { eapply touches_weaken; [| by apply (touches_unzip_docx output_path b_dir)].
    simpl. auto. }
  intros _. apply touches_bind.
  { eapply touches_weaken; [| apply touches_copy_parts]. simpl. auto. }
  intros _. apply touches_bind.
  { eapply touches_weaken; [| apply touches_fix_content_types]. simpl. auto. }
  intros _. apply touches_bind.
  { eapply touches_weaken; [| apply touches_fix_relationships]. simpl. auto. }
  intros _. apply touches_bind; [apply touches_zip_dir; by left |].
  intros _. apply touches_bind.
  { apply touches_rmtree_ignore_errors. auto. }
  intros _. apply touches_rmtree_ignore_errors. auto.
Qed.

(** ** Relationship tables *)


Lemma read_relationships_present (p : string) (root : ElementTree) (fs : FS) :
  fs !! p = Some (File (XmlDoc root)) ->
  read_relationships p fs = (Ok root, fs).
Proof.
  intros H. unfold read_relationships. io_unfold.
  rewrite (exists_true _ _ _ H). by rewrite (etree_parse_xml _ _ _ H).
Qed.


(** ** The content-type manifest *)

(** The override [ensure_content_type_override] appends. *)
Lemma new_override_matches (root : ElementTree) (partname content_type : string) :
  let override :=
    el_set (el_set (new_element (clark NS_CT "Override")) "PartName" partname)
           "ContentType" content_type in
  xpath_override (root_append root override) partname
  = xpath_override root partname ++ [override].
Proof.
  simpl. unfold xpath_override, root_findall, root_append. simpl.
  rewrite !List.filter_app. simpl.
  unfold attr_is, el_get. simpl. by rewrite String.eqb_refl.
Qed.



(** ** Table rows *)

(** Setting the text of a cell, for a text XML can hold and for one it
    cannot. *)
Lemma write_body_cell_ok (c : Cell) (text : string) :
  xml_compatible text = true ->
  write_body_cell c text
  = Ok (mkCell [mkParagraph None (Some CENTER) [mkRun text None (Some 10)]] (tcPr c)).
Proof.
  intros H. unfold write_body_cell, set_cell_text, run_of_text. by rewrite H.
Qed.

Lemma write_header_cell_ok (c : Cell) (text : string) :
  xml_compatible text = true ->
  write_header_cell c text
  = Ok (mkCell [mkParagraph None (Some CENTER) [mkRun text (Some true) (Some 10)]]
               (tcPr c ++ ["5B9BD5"])).
Proof.
  intros H. unfold write_header_cell, set_cell_text, run_of_text. by rewrite H.
Qed.

Lemma write_body_cell_incompatible (c : Cell) (text : string) :
  xml_compatible text = false ->
  write_body_cell c text = Raise (ValueError XML_INCOMPATIBLE).
Proof.
  intros H. unfold write_body_cell, set_cell_text, run_of_text. by rewrite H.
Qed.

Lemma write_header_cell_incompatible (c : Cell) (text : string) :
  xml_compatible text = false ->
  write_header_cell c text = Raise (ValueError XML_INCOMPATIBLE).
Proof.
  intros H. unfold write_header_cell, set_cell_text, run_of_text. by rewrite H.
Qed.

Lemma forallb_compatible (l : list string) :
  forallb xml_compatible l = true <-> Forall (fun text => xml_compatible text = true) l.
Proof. rewrite forallb_forall, Forall_forall. by setoid_rewrite list_elem_of_In. Qed.

(** Writing [values] into a cell tuple from an index on, all within its
    bounds and every write going through: the cells before the index and
    after the last value are kept. *)
Lemma fill_cells_within (write : Cell -> string -> result Cell)
    (f : Cell -> string -> Cell) (values : list string) :
  forall (before cells after : list Cell),
    (forall c v, v ∈ values -> write c v = Ok (f c v)) ->
    length cells = length values ->
    fill_cells write (length before) values (before ++ cells ++ after)
    = Ok (before ++ zip_with f cells values ++ after).
Proof.
  induction values as [|v values IH]; intros before cells after Hw Hlen;
    destruct cells as [|c cells]; simplify_eq/=; [done |].
  rewrite list_lookup_middle by done.
  rewrite (Hw c v) by (apply elem_of_cons; by left). simpl.
  rewrite (insert_app_r_alt before) by lia.
  rewrite Nat.sub_diag. simpl.
  replace (S (length before)) with (length (before ++ [f c v]))
    by (rewrite length_app; simpl; lia).
  rewrite (cons_middle (f c v) before (cells ++ after)), app_assoc.
  rewrite IH; [by rewrite <- app_assoc | | done].
  intros c' v' Hv'. apply Hw. apply elem_of_cons. by right.
Qed.

(** The loop leaves the tuple as long as it was. *)
Lemma fill_cells_length (write : Cell -> string -> result Cell) (values : list string) :
  forall (j : nat) (cells cells' : list Cell),
    fill_cells write j values cells = Ok cells' -> length cells' = length cells.
Proof.
  induction values as [|v values IH]; intros j cells cells' H; simpl in H.
  - by simplify_eq.
  - destruct (cells !! j) as [c|]; [| done].
    destruct (write c v) as [c'|]; [| done]. simpl in H.
    apply IH in H. by rewrite length_insert in H.
Qed.

(** The loop over [values1 ++ values2] is the loop over [values1] followed
    by the loop over [values2], entered where the first one ended. *)
Lemma fill_cells_app (write : Cell -> string -> result Cell) (values1 values2 : list string) :
  forall (j : nat) (cells : list Cell),
    fill_cells write j (values1 ++ values2) cells
    = rbind (fill_cells write j values1 cells)
            (fill_cells write (j + length values1) values2).
Proof.
  induction values1 as [|v values1 IH]; intros j cells; simpl.
  - by rewrite Nat.add_0_r.
  - destruct (cells !! j) as [c|]; [| done].
    destruct (write c v) as [c'|]; [| done]. simpl.
    rewrite IH. by rewrite Nat.add_succ_comm.
Qed.

(** Indexing at the end of the tuple raises, whatever the writer. *)
Lemma fill_cells_at_end (write : Cell -> string -> result Cell)
    (v : string) (values : list string) (cells : list Cell) :
  fill_cells write (length cells) (v :: values) cells
  = Raise (IndexError "tuple index out of range").
Proof.
  simpl. by rewrite lookup_ge_None_2.
Qed.

(** More values than cells: the loop never ends well. *)
Lemma fill_cells_beyond (write : Cell -> string -> result Cell) (values : list string) :
  forall (j : nat) (cells : list Cell),
    j <= length cells ->
    length cells < j + length values ->
    is_ok (fill_cells write j values cells) = false.
Proof.
  induction values as [|v values IH]; intros j cells Hj Hlen; simpl in *.
  - lia.
  - destruct (cells !! j) as [c|] eqn:Hc; [| done].
    apply lookup_lt_Some in Hc.
    destruct (write c v) as [c'|]; [| done]. simpl.
    apply IH; rewrite length_insert; lia.
Qed.

Lemma zip_with_replicate_l {A B C} (f : A -> B -> C) (a : A) (l : list B) :
  zip_with f (replicate (length l) a) l = f a <$> l.
Proof. induction l as [|b l IH]; simpl; [done | by rewrite IH]. Qed.

(** A row no longer than the table is wide, of texts XML can hold,
    written into a new table row. *)
Lemma fill_new_row (row : list string) (cols : nat) :
  length row <= cols ->
  forallb xml_compatible row = true ->
  fill_cells write_body_cell 0 row (replicate cols empty_cell)
  = Ok ((body_cell <$> row) ++ replicate (cols - length row) empty_cell).
Proof.
  intros Hlen Hrow.
  replace (replicate cols empty_cell)
    with ([] ++ replicate (length row) empty_cell
             ++ replicate (cols - length row) empty_cell).
  - rewrite (fill_cells_within write_body_cell
               (fun c text => mkCell [mkParagraph None (Some CENTER)
                                        [mkRun text None (Some 10)]] (tcPr c)) row []).
    + simpl. by rewrite zip_with_replicate_l.
    + intros c v Hv. apply forallb_compatible in Hrow.
      rewrite Forall_forall in Hrow. by apply write_body_cell_ok, Hrow.
    + apply length_replicate.
  - simpl. rewrite <- replicate_add. f_equal. lia.
Qed.

(** A row longer than the table is wide: its first cells are written, one
    per column, and the next index is past the end of the tuple. *)
Lemma fill_long_row (row : list string) (cols : nat) :
  cols < length row ->
  forallb xml_compatible (take cols row) = true ->
  fill_cells write_body_cell 0 (take cols row) (replicate cols empty_cell)
  = Ok (body_cell <$> take cols row)
  /\ fill_cells write_body_cell 0 row (replicate cols empty_cell)
     = Raise (IndexError "tuple index out of range").
Proof.
  intros Hlen Hrow.
  assert (Htake : length (take cols row) = cols) by (rewrite length_take; lia).
  assert (Hfirst : fill_cells write_body_cell 0 (take cols row) (replicate cols empty_cell)
                   = Ok (body_cell <$> take cols row)).
  { rewrite fill_new_row by (done || lia).
    rewrite Htake, Nat.sub_diag. simpl. by rewrite app_nil_r. }
  split; [done |].
  rewrite <- (take_drop cols row) at 1. rewrite fill_cells_app, Hfirst. simpl.
  rewrite Htake.
  destruct (drop cols row) as [|v values] eqn:Hdrop.
  { apply (f_equal length) in Hdrop. rewrite length_drop in Hdrop. simpl in Hdrop. lia. }
  replace cols with (length (body_cell <$> take cols row)) at 1
    by (by rewrite length_fmap).
  apply fill_cells_at_end.
Qed.

(** The row loop over [before ++ rest] is the loop over [before] followed
    by the loop over [rest]. *)
Lemma add_data_rows_app (cols : nat) (before rest : list (list string)) :
  forall rws : list (list Cell),
    add_data_rows cols (before ++ rest) rws
    = rbind (add_data_rows cols before rws) (add_data_rows cols rest).
Proof.
  induction before as [|row before IH]; intros rws; simpl; [done |].
  destruct (fill_cells write_body_cell 0 row (replicate cols empty_cell)); simpl;
    [apply IH | done].
Qed.

(** The rows [add_data_rows] adds when no row is longer than the table is
    wide and XML can hold every text. *)
Lemma add_data_rows_ok (cols : nat) (data : list (list string)) :
  forall rws : list (list Cell),
    Forall (fun row => length row <= cols) data ->
    forallb (forallb xml_compatible) data = true ->
    add_data_rows cols data rws
    = Ok (rws ++ ((fun row => (body_cell <$> row)
                              ++ replicate (cols - length row) empty_cell)
                    <$> data)).
Proof.
  induction data as [|row data IH]; intros rws Hall Hdata; simpl.
  - by rewrite app_nil_r.
  - apply Forall_cons in Hall as [Hrow Hall].
    simpl in Hdata. apply andb_true_iff in Hdata as [Hr Hdata].
    rewrite fill_new_row by done. simpl. rewrite IH by done.
    by rewrite <- app_assoc.
Qed.

(** A row longer than the table is wide, anywhere in the data: the row
    loop does not end well. *)
Lemma add_data_rows_long (cols : nat) (before : list (list string))
    (row : list string) (rest : list (list string)) (rws : list (list Cell)) :
  cols < length row ->
  is_ok (add_data_rows cols (before ++ row :: rest) rws) = false.
Proof.
  intros Hlen. rewrite add_data_rows_app.
  destruct (add_data_rows cols before rws) as [rws'|]; simpl; [| done].
  destruct (fill_cells write_body_cell 0 row (replicate cols empty_cell)) eqn:Hrow;
    simpl; [| done].
  apply (f_equal is_ok) in Hrow.
  rewrite fill_cells_beyond in Hrow by (rewrite ?length_replicate; lia). done.
Qed.

Lemma set_table_font_new_row (cols : nat) :
  set_table_font [replicate cols empty_cell] = [replicate cols empty_cell].
Proof.
  unfold set_table_font. simpl. f_equal.
  induction cols as [|n IH]; [done |].
  change (replicate (S n) empty_cell) with (empty_cell :: replicate n empty_cell).
  rewrite fmap_cons, IH. reflexivity.
Qed.

(** The header loop, on texts XML can hold. *)
Lemma fill_header_row (header : list string) :
  forallb xml_compatible header = true ->
  fill_cells write_header_cell 0 header (replicate (length header) empty_cell)
  = Ok (header_cell <$> header).
Proof.
  intros Hheader.
  replace (replicate (length header) empty_cell)
    with ([] ++ replicate (length header) empty_cell ++ [])
    by (simpl; by rewrite app_nil_r).
  rewrite (fill_cells_within write_header_cell
             (fun c text => mkCell [mkParagraph None (Some CENTER)
                                      [mkRun text (Some true) (Some 10)]]
                                   (tcPr c ++ ["5B9BD5"])) header []).
  - rewrite app_nil_r. simpl. by rewrite zip_with_replicate_l.
  - intros c v Hv. apply forallb_compatible in Hheader.
    rewrite Forall_forall in Hheader. by apply write_header_cell_ok, Hheader.
  - apply length_replicate.
Qed.

(** The whole table, for a document that has the table style and texts XML
    can hold: a header row as wide as the first row of the data, bold,
    centred and shaded, and one row per further row of the data, short rows
    ending in empty cells. *)
Lemma add_table_from_ok (doc : Document) (header : list string)
    (data : list (list string)) :
  check_style doc "Table Grid" TABLE = Ok tt ->
  Forall (fun row => length row <= length header) data ->
  forallb xml_compatible header = true ->
  forallb (forallb xml_compatible) data = true ->
  add_table_from doc (header :: data)
  = Ok (append_node doc
          (TableNode
             (mkTable (Some "Table Grid") (length header)
                ((header_cell <$> header)
                 :: ((fun row => (body_cell <$> row)
                                 ++ replicate (length header - length row) empty_cell)
                       <$> data))))).
Proof.
  intros Hstyle Hall Hheader Hdata. unfold add_table_from. rewrite Hstyle.
  rewrite set_table_font_new_row. unfold rbind at 1.
  rewrite fill_header_row by done. unfold rbind at 1.
  rewrite add_data_rows_ok by done. reflexivity.
Qed.

(** The table with a row longer than the header, anywhere in the data: the
    call does not end well, so no document with the table comes of it. *)
Lemma add_table_from_long (doc : Document) (header : list string)
    (before : list (list string)) (row : list string) (rest : list (list string)) :
  length header < length row ->
  is_ok (add_table_from doc (header :: before ++ row :: rest)) = false.
Proof.
  intros Hlen. unfold add_table_from.
  destruct (check_style doc "Table Grid" TABLE); [unfold rbind at 1 | done].
  rewrite set_table_font_new_row.
  destruct (fill_cells write_header_cell 0 header _); [unfold rbind at 1 | done].
  destruct (add_data_rows _ _ _) eqn:Hrows; simpl; [| done].
  apply (f_equal is_ok) in Hrows. by rewrite add_data_rows_long in Hrows.
Qed.

(** A row longer than the table is wide, after rows that fit, all of
    texts XML can hold: the row loop raises [IndexError]. *)
Lemma add_data_rows_IndexError (cols : nat) (before : list (list string))
    (row : list string) (rest : list (list string)) (rws : list (list Cell)) :
  cols < length row ->
  forallb xml_compatible (take cols row) = true ->
  Forall (fun r => length r <= cols) before ->
  forallb (forallb xml_compatible) before = true ->
  add_data_rows cols (before ++ row :: rest) rws
  = Raise (IndexError "tuple index out of range").
Proof.
  intros Hlen Hrow Hfit Hbefore.
  rewrite add_data_rows_app, add_data_rows_ok by done. simpl.
  by rewrite (proj2 (fill_long_row row cols Hlen Hrow)).
Qed.

Lemma add_table_from_IndexError (doc : Document) (header : list string)
    (before : list (list string)) (row : list string) (rest : list (list string)) :
  length header < length row ->
  forallb xml_compatible (take (length header) row) = true ->
  Forall (fun r => length r <= length header) before ->
  forallb (forallb xml_compatible) before = true ->
  check_style doc "Table Grid" TABLE = Ok tt ->
  forallb xml_compatible header = true ->
  add_table_from doc (header :: before ++ row :: rest)
  = Raise (IndexError "tuple index out of range").
Proof.
  intros Hlen Hrow Hfit Hbefore Hstyle Hheader. unfold add_table_from.
  rewrite Hstyle, set_table_font_new_row. unfold rbind at 1.
  rewrite fill_header_row by done. unfold rbind at 1.
  by rewrite add_data_rows_IndexError.
Qed.

(** A line that opens a table takes none of the [div] branches. *)
Lemma table_line_not_div (line : string) :
  startswith line "<table>" = true -> div_branch div_styles line = None.
Proof.
  unfold startswith. intros H. apply prefix_inv in H as [r ->]. reflexivity.
Qed.

(** The turn of the loop at a [<table>] line is the table code on the rows
    read from the region. *)
Lemma loop_body_table (raw : string) (lines : list string) (doc : Document) :
  startswith (strip raw) "<table>" = true ->
  loop_body raw lines doc
  = rbind (add_table_from doc (extract_table_data (join_lines (capture_table lines))))
          (fun d => Ok (S (length (capture_table lines)), d)).
Proof.
  intros Htable. unfold loop_body.
  by rewrite (table_line_not_div _ Htable), Htable.
Qed.


(** C3, as the code has it. A body row with more cells than the header,
    anywhere in the data, is not cut short.  Whatever the texts and the
    styles, the row loop, the table code and the walk from the [<table>]
    line do not end well: no document comes of the build.  When XML can
    hold the first texts of the row, one per column, the turn of the row
    writes them into the new table row and raises [IndexError] at the next
    index; when besides the rows before fit the table and XML can hold
    their texts and those of the header, and the document has the table
    style, that [IndexError] is what the row loop, the table code and the
    walk raise. *)
Theorem long_row_raises_IndexError
    (header : list string) (before : list (list string)) (row : list string)
    (rest : list (list string)) :
  length header < length row ->
  (forall rws,
      is_ok (add_data_rows (length header) (before ++ row :: rest) rws) = false)
  /\ (forall doc,
         is_ok (add_table_from doc (header :: before ++ row :: rest)) = false)
  /\ (forall doc raw lines,
         startswith (strip raw) "<table>" = true ->
         extract_table_data (join_lines (capture_table lines))
         = header :: before ++ row :: rest ->
         is_ok (loop_body raw lines doc) = false
         /\ is_ok (walk_lines 0 (raw :: lines) doc) = false)
  /\ (forallb xml_compatible (take (length header) row) = true ->
      fill_cells write_body_cell 0 (take (length header) row)
        (replicate (length header) empty_cell)
      = Ok ((fun text =>
               mkCell [mkParagraph None (Some CENTER) [mkRun text None (Some 10)]] [])
              <$> take (length header) row)
      /\ fill_cells write_body_cell 0 row (replicate (length header) empty_cell)
         = Raise (IndexError "tuple index out of range")
      /\ (Forall (fun r => length r <= length header) before ->
          forallb (forallb xml_compatible) before = true ->
          (forall rws,
              add_data_rows (length header) (before ++ row :: rest) rws
              = Raise (IndexError "tuple index out of range"))
          /\ forall doc,
               check_style doc "Table Grid" TABLE = Ok tt ->
               forallb xml_compatible header = true ->
               add_table_from doc (header :: before ++ row :: rest)
               = Raise (IndexError "tuple index out of range")
               /\ forall raw lines,
                    startswith (strip raw) "<table>" = true ->
                    extract_table_data (join_lines (capture_table lines))
                    = header :: before ++ row :: rest ->
                    walk_lines 0 (raw :: lines) doc
                    = Raise (IndexError "tuple index out of range"))).
Proof.
  intros Hlen. split_and!.
  - intros rws. by apply add_data_rows_long.
  - intros doc. by apply add_table_from_long.
  - intros doc raw lines Htable Hdata.
    assert (Hbody : is_ok (loop_body raw lines doc) = false).
    { rewrite loop_body_table, Hdata by done.
      pose proof (add_table_from_long doc header before row rest Hlen) as Hno.
      by destruct (add_table_from doc _). }
    split; [done |]. cbn [walk_lines].
    by destruct (loop_body raw lines doc).
  - intros Hrow.
    destruct (fill_long_row row (length header) Hlen Hrow) as [Hfirst Hraise].
    split_and!; [exact Hfirst | exact Hraise |].
    intros Hfit Hbefore. split.
    + intros rws. by apply add_data_rows_IndexError.
    + intros doc Hstyle Hheader.
      assert (Htab : add_table_from doc (header :: before ++ row :: rest)
                     = Raise (IndexError "tuple index out of range"))
        by by apply add_table_from_IndexError.
      split; [done |]. intros raw lines Htable Hdata.
      cbn [walk_lines]. by rewrite loop_body_table, Hdata, Htab.
Qed.

(** ** The line walker *)

(** C9. A table region from which no row is read: the turn of the loop at
    the [<table>] line raises nothing and leaves the document as it was,
    with no table appended, and the walk goes on after the line that closes
    the region. *)
Theorem empty_table_region_adds_nothing
    (raw : string) (rest : list string) (doc : Document) :
  startswith (strip raw) "<table>" = true ->
  extract_table_data (join_lines (capture_table rest)) = [] ->
  loop_body raw rest doc = Ok (S (length (capture_table rest)), doc)
  /\ walk_lines 0 (raw :: rest) doc
     = walk_lines (S (length (capture_table rest))) rest doc.
Proof.
  intros Htable Hrows.
  assert (Hbody : loop_body raw rest doc = Ok (S (length (capture_table rest)), doc)).
  { unfold loop_body. rewrite (table_line_not_div _ Htable), Htable, Hrows.
    reflexivity. }
  split; [done | simpl; by rewrite Hbody].
Qed.

(** A text with neither a [<thead>...</thead>] nor a [<tbody>...</tbody>]
    match gives no row. *)
Lemma no_sections_no_rows (table_text : string) :
  re_search true ["<thead>"] ["</thead>"] table_text = None ->
  re_search true ["<tbody>"] ["</tbody>"] table_text = None ->
  extract_table_data table_text = [].
Proof.
  intros Hh Hb. unfold extract_table_data, header_rows, body_rows.
  by rewrite Hh, Hb.
Qed.

(** The region of [<table>] followed at once by [</table>], as the whole
    input or at its end: the document is returned as it was. *)
Lemma empty_table_alone (doc : Document) :
  build_document doc ("<table>" ++ String newline "</table>")%string = Ok doc.
Proof. reflexivity. Qed.

(** The same on one line: the closing tag on the line of the opening tag is
    not looked at, the region runs to the end of the input and gives no
    row. *)
Lemma empty_table_on_one_line (doc : Document) :
  build_document doc "<table></table>" = Ok doc.
Proof. reflexivity. Qed.

(** C10. A line that starts, once stripped, with one of the five [div]
    openers and on which [>(.*?)</div>] has no match: the turn of the loop
    adds no node, neither a title nor a text paragraph nor the paragraph of
    the fallback branch, and the walk goes on with the next line. *)
Theorem unmatched_div_line_emits_nothing
    (raw : string) (rest : list string) (doc : Document) :
  (exists class,
      class ∈ ["title"; "text"; "onetitle"; "twotitle"; "threetitle"]
      /\ startswith (strip raw) (div_open class) = true) ->
  search_div (strip raw) = None ->
  loop_body raw rest doc = Ok (0, doc)
  /\ walk_lines 0 (raw :: rest) doc = walk_lines 0 rest doc.
Proof.
  intros (class & Hclass & Hopen) Hnone.
  assert (Hbranch : is_Some (div_branch div_styles (strip raw))).
  { unfold div_styles, div_branch.
    repeat (apply elem_of_cons in Hclass as [->|Hclass];
            [ repeat (rewrite Hopen; eauto); repeat (case_match; eauto) |]).
    by apply elem_of_nil in Hclass. }
  destruct Hbranch as [sty Hsty].
  assert (Hbody : loop_body raw rest doc = Ok (0, doc)).
  { unfold loop_body. by rewrite Hsty, Hnone. }
  split; [done | simpl; by rewrite Hbody].
Qed.

(** ** The relationships of the merged document *)

Lemma write_file_ok (p : string) (data : bytes) (fs fs' : FS) :
  write_file p data fs = (Ok tt, fs') -> fs' = <[p := File data]> fs.
Proof. unfold write_file. intros H. repeat case_match; by simplify_eq. Qed.

Lemma xpath_relationship_append (root : ElementTree) (el : Element) (a b : string) :
  xpath_relationship (root_append root el) a b
  = xpath_relationship root a b
    ++ xpath_relationship (mkTree (root_tag root) [el]) a b.
Proof.
  unfold xpath_relationship, root_findall, root_append. simpl.
  by rewrite !List.filter_app.
Qed.

Lemma xpath_new_relationship (root : ElementTree) (rel_type target a b : string) :
  xpath_relationship (mkTree (root_tag root) [new_relationship root rel_type target]) a b
  = if String.eqb rel_type a && String.eqb target b
    then [new_relationship root rel_type target] else [].
Proof.
  unfold xpath_relationship, root_findall, new_relationship, attr_is, el_get.
  simpl. by destruct (String.eqb rel_type a), (String.eqb target b).
Qed.

Lemma has_relationship_ensure (root : ElementTree) (rel_type target a b : string) :
  has_relationship (ensure_relationship_tree root rel_type target) a b
  = has_relationship root a b || (String.eqb rel_type a && String.eqb target b).
Proof.
  unfold ensure_relationship_tree.
  destruct (has_relationship root rel_type target) eqn:Hhas.
  - destruct (String.eqb_spec rel_type a) as [<-|]; simpl;
      [| by rewrite orb_false_r].
    destruct (String.eqb_spec target b) as [<-|]; simpl;
      [| by rewrite orb_false_r].
    by rewrite Hhas.
  - unfold has_relationship.
    rewrite xpath_relationship_append, xpath_new_relationship.
    destruct (xpath_relationship root a b); simpl;
      by destruct (String.eqb rel_type a && String.eqb target b).
Qed.

Lemma etree_parse_ok (p : string) (root : ElementTree) (fs fs' : FS) :
  etree_parse p fs = (Ok root, fs') ->
  fs' = fs /\ fs !! p = Some (File (XmlDoc root)).
Proof.
  unfold etree_parse, read_file. io_unfold.
  intros E. repeat case_match; by simplify_eq.
Qed.

(** What a successful [read_relationships] returns and leaves. *)
Lemma read_relationships_ok (p : string) (root : ElementTree) (fs fs' : FS) :
  read_relationships p fs = (Ok root, fs') ->
  root = relationships_at fs p /\ fs' !! p = Some (File (XmlDoc root)).
Proof.
  unfold read_relationships. io_unfold.
  destruct (exists_ p fs) eqn:Hex.
  - intros [-> Hp]%etree_parse_ok. split; [| done].
    unfold relationships_at. by rewrite Hp.
  - assert (Hnone : fs !! p = None).
    { unfold exists_ in Hex. apply bool_decide_eq_false in Hex.
      by apply eq_None_not_Some. }
    destruct (makedirs_exist_ok (dirname p) fs) as [[[]|e] fs1]; [| done].
    destruct (tree_write p _ fs1) as [[[]|e] fs2] eqn:Hw; [| done].
    apply write_file_ok in Hw as ->.
    intros [-> Hp]%etree_parse_ok. rewrite lookup_insert_eq in Hp.
    injection Hp as <-. split; [| by rewrite lookup_insert_eq].
    unfold relationships_at. by rewrite Hnone.
Qed.

(** What a successful [ensure_relationship] leaves in the file. *)
Lemma ensure_relationship_ok (p rel_type target : string) (fs fs' : FS) :
  ensure_relationship p rel_type target fs = (Ok tt, fs') ->
  fs' !! p = Some (File (XmlDoc
               (ensure_relationship_tree (relationships_at fs p) rel_type target))).
Proof.
  unfold ensure_relationship. io_unfold.
  destruct (read_relationships p fs) as [[root|e] fs1] eqn:Hread; [| done].
  apply read_relationships_ok in Hread as [<- Hp].
  unfold ensure_relationship_tree, has_relationship.
  destruct (xpath_relationship root rel_type target);
    intros ->%write_file_ok; by rewrite lookup_insert_eq.
Qed.

Lemma touches_read_relationships_at (p : string) :
  touches (fun q => q ∈ dir_prefixes "" (dirname p) ++ [dirname p; p])
          (read_relationships p).
Proof.
  unfold read_relationships.
  apply touches_bind; [apply touches_gets |]. intros there.
  apply touches_bind; [| intros; apply touches_etree_parse].
  destruct there; [apply touches_ret |].
  apply touches_bind.
  - apply touches_makedirs_exist_ok. intros x Hx.
    apply elem_of_app in Hx as [Hx|Hx%list_elem_of_singleton];
      apply elem_of_app; [by left | right]. subst. apply elem_of_cons. by left.
  - intros _. apply touches_tree_write. apply elem_of_app. right.
    apply elem_of_cons. right. by apply list_elem_of_singleton.
Qed.

Lemma touches_ensure_relationship_at (p rel_type target : string) :
  touches (fun q => q ∈ dir_prefixes "" (dirname p) ++ [dirname p; p])
          (ensure_relationship p rel_type target).
Proof.
  unfold ensure_relationship.
  apply touches_bind; [apply touches_read_relationships_at |]. intros root.
  assert (p ∈ dir_prefixes "" (dirname p) ++ [dirname p; p]).
  { apply elem_of_app. right. apply elem_of_cons. right.
    by apply list_elem_of_singleton. }
  destruct (xpath_relationship root rel_type target);
    by apply touches_tree_write.
Qed.

Lemma touches_fix_content_types_at :
  touches (fun q => q = path_join b_dir "[Content_Types].xml") fix_content_types.
Proof.
  apply touches_for_each. intros kv _.
  apply touches_bind; [apply touches_gets |]. intros [].
  - by apply touches_ensure_content_type_override.
  - apply touches_ret.
Qed.

Lemma exists_eq (p : string) (fs fs' : FS) :
  fs' !! p = fs !! p -> exists_ p fs' = exists_ p fs.
Proof. unfold exists_. by intros ->. Qed.





Lemma str_length_app (s r : string) :
  String.length (s ++ r)%string = String.length s + String.length r.
Proof.
  induction s as [|a s IH]; [done |]. rewrite str_app_cons. simpl. by rewrite IH.
Qed.

Lemma drop_str_app (s r : string) : drop_str (String.length s) (s ++ r)%string = r.
Proof. induction s as [|a s IH]; [by destruct r |]. by rewrite str_app_cons. Qed.

Lemma relpath_join (d rel : string) : relpath (path_join d rel) d = rel.
Proof.
  unfold relpath, path_join.
  replace (S (String.length d)) with (String.length (d ++ "/")%string)
    by (rewrite str_length_app; simpl; lia).
  by rewrite <- str_app_assoc, drop_str_app.
Qed.

(** The members [zip_dir] writes are the files below the directory. *)
Lemma elem_of_walk_files (d rel : string) (data : bytes) (fs : FS) :
  (rel, data) ∈ walk_files d fs <-> fs !! path_join d rel = Some (File data).
Proof.
  unfold walk_files. rewrite list_elem_of_omap. split.
  - intros ([k n] & Hk%elem_of_map_to_list & Hf). simpl in Hf.
    destruct n as [data'|]; [| done].
    destruct (String.prefix (d ++ "/") k) eqn:Hpre; [| done].
    apply prefix_inv in Hpre as [r ->]. rewrite str_app_assoc in Hf, Hk.
    change (d ++ "/" ++ r)%string with (path_join d r) in Hf, Hk.
    rewrite relpath_join in Hf. by simplify_eq.
  - intros H. exists (path_join d rel, File data). split.
    + by apply elem_of_map_to_list.
    + simpl. unfold path_join at 1. rewrite <- str_app_assoc, prefix_app.
      by rewrite relpath_join.
Qed.

Lemma zip_dir_ok (d output_docx : string) (fs fs' : FS) :
  zip_dir d output_docx fs = (Ok tt, fs') ->
  exists members,
    fs' !! output_docx = Some (File (ZipArchive members))
    /\ forall rel data,
         path_join d rel <> output_docx ->
         ((rel, data) ∈ members <-> fs !! path_join d rel = Some (File data)).
Proof.
  unfold zip_dir. io_unfold.
  destruct (write_file output_docx (ZipArchive []) fs) as [[[]|e] fs1] eqn:H1;
    [| done].
  apply write_file_ok in H1 as ->.
  intros ->%write_file_ok. eexists. split; [by rewrite lookup_insert_eq |].
  intros rel data Hne. rewrite elem_of_walk_files. by rewrite lookup_insert_ne.
Qed.



(** ** Extraction *)

Lemma extracted_mono (d : string) (ms ms' : list (string * bytes)) (fs : FS) :
  (forall m, m ∈ ms -> m ∈ ms') -> extracted d ms fs -> extracted d ms' fs.
Proof.
  intros Hsub H q n Hu Hq Hn. specialize (H q n Hu Hq Hn).
  destruct n as [data|].
  - destruct H as (name & Hin & ->). eauto.
  - destruct H as (name & Hin & Hpre). exists name. split; [| done].
    unfold namelist in *. apply list_elem_of_fmap in Hin as ([n' b] & -> & Hin).
    apply list_elem_of_fmap. exists (n', b). split; [done | by apply Hsub].
Qed.

Lemma mkdir_step_lookup (x q : string) (n : node) (fs fs' : FS) (r : result unit) :
  mkdir_step x fs = (r, fs') -> fs' !! q = Some n ->
  fs !! q = Some n \/ (n = Dir /\ q = x).
Proof.
  unfold mkdir_step. intros H Hq. repeat case_match; simplify_eq; auto.
  destruct (decide (q = x)) as [->|Hne].
  - rewrite lookup_insert_eq in Hq. simplify_eq. auto.
  - rewrite lookup_insert_ne in Hq by done. auto.
Qed.

Lemma makedirs_lookup (l : list string) (q : string) (n : node) :
  forall (fs fs' : FS) (r : result unit),
    for_each l mkdir_step fs = (r, fs') -> fs' !! q = Some n ->
    fs !! q = Some n \/ (n = Dir /\ q ∈ l).
Proof.
  induction l as [|x l IH]; intros fs fs' r H Hq; simpl in H.
  - injection H as <- <-. auto.
  - unfold bind in H. destruct (mkdir_step x fs) as [[[]|e] fs1] eqn:Hx.
    + destruct (IH _ _ _ H Hq) as [H1|[-> Hin]].
      * destruct (mkdir_step_lookup _ _ _ _ _ _ Hx H1) as [?|[-> ->]]; auto.
        right. split; [done |]. apply elem_of_cons. by left.
      * right. split; [done |]. apply elem_of_cons. by right.
    + injection H as <- <-.
      destruct (mkdir_step_lookup _ _ _ _ _ _ Hx Hq) as [?|[-> ->]]; auto.
      right. split; [done |]. apply elem_of_cons. by left.
Qed.

Lemma makedirs_exist_ok_lookup (D q : string) (n : node) (fs fs' : FS)
    (r : result unit) :
  makedirs_exist_ok D fs = (r, fs') -> fs' !! q = Some n ->
  fs !! q = Some n \/ (n = Dir /\ D <> "" /\ q ∈ dir_prefixes "" D ++ [D]).
Proof.
  unfold makedirs_exist_ok. destruct D as [|c D].
  - intros [= <- <-]. auto.
  - intros H Hq. destruct (makedirs_lookup _ _ _ _ _ _ H Hq) as [?|[-> ?]]; auto.
Qed.

Lemma extract_member_extracted (d : string) (m : string * bytes)
    (ms : list (string * bytes)) (fs fs' : FS) :
  extracted d ms fs ->
  extract_member d m fs = (Ok tt, fs') ->
  extracted d (m :: ms) fs'.
Proof.
  intros Hex. unfold extract_member. io_unfold.
  destruct (makedirs_exist_ok _ fs) as [[[]|e] fs1] eqn:Hmk; [| done].
  intros ->%write_file_ok. intros q n Hu Hq Hn.
  destruct (decide (q = path_join d m.1)) as [->|Hne].
  - rewrite lookup_insert_eq in Hn. simplify_eq.
    exists m.1. split; [| done]. apply elem_of_cons. left. by destruct m.
  - rewrite lookup_insert_ne in Hn by done.
    destruct (makedirs_exist_ok_lookup _ _ _ _ _ _ Hmk Hn)
      as [Hold|(-> & Hne' & Hin)].
    + eapply (extracted_mono d ms); [| done | done..].
      intros m' ?. apply elem_of_cons. by right.
    + exists m.1. split.
      * unfold namelist. apply list_elem_of_fmap. exists m. split; [done |].
        apply elem_of_cons. by left.
      * by apply dir_prefixes_dirname.
Qed.

Lemma extractall_extracted (d : string) (l : list (string * bytes)) :
  forall (ms : list (string * bytes)) (fs fs' : FS),
    extracted d ms fs ->
    extractall l d fs = (Ok tt, fs') ->
    extracted d (ms ++ l) fs'.
Proof.
  unfold extractall.
  induction l as [|m l IH]; intros ms fs fs' Hex H; simpl in H.
  - injection H as <-. by rewrite app_nil_r.
  - unfold bind in H.
    destruct (extract_member d m fs) as [[[]|e] fs1] eqn:Hm; [| done].
    rewrite (cons_middle m ms l), app_assoc. apply (IH _ fs1); [| done].
    eapply extracted_mono; [| by eapply extract_member_extracted].
    intros m' [->|?]%elem_of_cons; apply elem_of_app;
      [right; by apply list_elem_of_singleton | by left].
Qed.

Lemma dir_prefixes_no_slash (d : string) : no_slash d = true -> dir_prefixes "" d = [].
Proof.
  intros Hd. apply elem_of_nil_inv. intros x (s1 & s2 & -> & _)%dir_prefixes_spec.
  clear -Hd. induction s1 as [|a s1 IH]; [done |].
  rewrite str_app_cons in Hd. simpl in Hd.
  apply andb_true_iff in Hd as [_ Hd]. auto.
Qed.

Lemma unzip_docx_tail (docx_path d : string) (fs fs' : FS) :
  no_slash d = true -> under d docx_path = false ->
  (forall q, under d q = true -> fs !! q = None) ->
  (makedirs d;;
   data ← read_file docx_path;
   members ← lift (ZipFile data);
   extractall members d) fs = (Ok tt, fs') ->
  exists members,
    fs !! docx_path = Some (File (ZipArchive members))
    /\ extracted d members fs'.
Proof.
  intros Hd Hp Hclean. io_unfold.
  unfold makedirs. rewrite (Hclean d (under_refl d)).
  unfold makedirs_exist_ok. rewrite (dir_prefixes_no_slash d Hd).
  assert (Hne : docx_path <> d).
  { intros ->. by rewrite under_refl in Hp. }
  destruct d as [|c d']; [done |]. set (d := String c d') in *.
  simpl. unfold bind, mkdir_step. rewrite (Hclean d (under_refl d)).
  unfold ret. unfold read_file.
  rewrite lookup_insert_ne by done.
  destruct (fs !! docx_path) as [[data|]|]; [| done..].
  destruct data as [?|?|members]; simpl; [done.. |].
  intros Hx. exists members. split; [done |].
  apply (extractall_extracted d members [] (<[d:=Dir]> fs) fs'); [| done].
  intros q n Hu Hq Hn. rewrite lookup_insert_ne in Hn by done.
  by rewrite (Hclean q Hu) in Hn.
Qed.

(** What a successful [unzip_docx] has read and leaves below the directory. *)
Lemma unzip_docx_ok (docx_path d : string) (fs fs' : FS) :
  no_slash d = true -> under d docx_path = false ->
  (fs !! d = None -> forall q, under d q = true -> fs !! q = None) ->
  unzip_docx docx_path d fs = (Ok tt, fs') ->
  exists members,
    fs !! docx_path = Some (File (ZipArchive members))
    /\ extracted d members fs'.
Proof.
  intros Hd Hp Hclosed. unfold unzip_docx.
  unfold mbind at 1, io_bind, bind at 1. unfold gets at 1.
  unfold mbind at 1, io_bind, bind at 1.
  destruct (fs !! d) as [[c|]|] eqn:E.
  - rewrite (exists_true _ _ _ E). unfold rmtree. by rewrite E.
  - rewrite (exists_true _ _ _ E). unfold rmtree. rewrite E.
    intros H. apply unzip_docx_tail in H as (members & Hm & Hx); [| done.. |].
    + exists members. split; [| done].
      by rewrite lookup_remove_tree, Hp in Hm.
    + intros q Hq. by rewrite lookup_remove_tree, Hq.
  - rewrite (exists_false _ _ E). unfold ret.
    intros H. apply unzip_docx_tail in H; auto.
Qed.

(** ** The copy step and the numbering part *)

Lemma touches_safe_copy_at (src_root dst_root rel_path : string) :
  touches (fun q => q ∈ safe_copy_targets src_root dst_root rel_path)
          (safe_copy src_root dst_root rel_path).
Proof.
  unfold safe_copy, safe_copy_targets.
  apply touches_bind; [apply touches_gets |]. intros [].
  - apply touches_bind.
    + apply touches_makedirs_exist_ok. intros x Hx.
      apply elem_of_app in Hx as [Hx|Hx%list_elem_of_singleton];
        apply elem_of_app; [by left | right]. subst. apply elem_of_cons. by left.
    + intros _. apply touches_bind; [| intros; apply touches_ret].
      apply touches_copy2; apply elem_of_app; right.
      * apply elem_of_cons. right. apply elem_of_cons. by left.
      * do 2 (apply elem_of_cons; right). by apply list_elem_of_singleton.
  - apply touches_ret.
Qed.

(** A part that is not in the template directory is not copied. *)
Lemma safe_copy_frame (part q : string) (fs fs' : FS) (r : result bool) :
  safe_copy t_dir b_dir part fs = (r, fs') ->
  (q ∈ safe_copy_targets t_dir b_dir part ->
   exists_ (path_join t_dir part) fs = false) ->
  fs' !! q = fs !! q.
Proof.
  intros Hrun Hq.
  destruct (decide (q ∈ safe_copy_targets t_dir b_dir part)) as [Hin|Hout].
  - specialize (Hq Hin). unfold safe_copy in Hrun. io_unfold.
    rewrite Hq in Hrun. by injection Hrun as <- <-.
  - by eapply touches_safe_copy_at.
Qed.

Lemma under_b_dir_t_dir (x : string) : under b_dir (path_join t_dir x) = false.
Proof. by vm_compute. Qed.

Lemma under_t_dir_not_b_dir (q : string) :
  under t_dir q = true -> under b_dir q = false.
Proof.
  unfold under at 1. intros [Hq|Hq]%orb_true_iff.
  - apply String.eqb_eq in Hq as ->. by vm_compute.
  - apply prefix_inv in Hq as [r ->]. by vm_compute.
Qed.

Lemma copy_parts_frame (q : string) (parts : list string) :
  forall (fs fs' : FS) (r : result unit),
    for_each parts (fun part => safe_copy t_dir b_dir part;; ret tt) fs = (r, fs') ->
    (forall part, part ∈ parts ->
       q ∈ safe_copy_targets t_dir b_dir part ->
       exists_ (path_join t_dir part) fs = false) ->
    fs' !! q = fs !! q.
Proof.
  induction parts as [|part parts IH]; intros fs fs' r Hrun Hq; simpl in Hrun.
  - by injection Hrun as <- <-.
  - io_unfold.
    destruct (safe_copy t_dir b_dir part fs) as [[b|e] fs1] eqn:Hcopy.
    + rewrite (IH _ _ _ Hrun).
      * eapply safe_copy_frame; [done |]. apply Hq, elem_of_cons. by left.
      * intros part' Hin' Ht. rewrite <- (Hq part'); [| apply elem_of_cons; by right | done].
        apply exists_eq.
        eapply (touches_safe_copy t_dir b_dir part eq_refl); [done |].
        by rewrite under_b_dir_t_dir.
    + injection Hrun as <- <-.
      eapply safe_copy_frame; [done |]. apply Hq, elem_of_cons. by left.
Qed.

Lemma path_join_inj (d x y : string) : path_join d x = path_join d y -> x = y.
Proof.
  unfold path_join. intros H. apply (inj (String.app d)) in H.
  by apply (inj (String.app "/")) in H.
Qed.

Lemma path_join_ne (d x : string) : path_join d x <> d.
Proof.
  unfold path_join. intros H. rewrite <- (str_app_nil_r d) in H at 2.
  by apply (inj (String.app d)) in H.
Qed.

(** Nothing at a path that no member of the archive is at or below. *)
Lemma extracted_absent (d x : string) (members : list (string * bytes)) (fs : FS) :
  extracted d members fs ->
  (forall name, name ∈ namelist members -> under x name = false) ->
  fs !! path_join d x = None.
Proof.
  intros Hex Hno. destruct (fs !! path_join d x) as [n|] eqn:E; [| done].
  exfalso. specialize (Hex _ _ (under_join d x) (path_join_ne d x) E).
  destruct n as [data|].
  - destruct Hex as (name & Hin & ->%path_join_inj).
    assert (Hn : name ∈ namelist members).
    { unfold namelist. apply list_elem_of_fmap. by exists (name, data). }
    apply Hno in Hn. by rewrite under_refl in Hn.
  - destruct Hex as (name & Hin & Hpre).
    apply dir_prefixes_spec in Hpre as (s1 & s2 & Hsplit & Hs1).
    change ("" ++ s1)%string with s1 in Hs1. subst s1.
    unfold path_join in Hsplit. rewrite !str_app_assoc in Hsplit.
    apply (inj (String.app d)), (inj (String.app "/")) in Hsplit. subst name.
    apply Hno in Hin. unfold under in Hin.
    rewrite <- str_app_assoc, prefix_app, orb_true_r in Hin. done.
Qed.

Lemma extracted_file (d x : string) (data : bytes)
    (members : list (string * bytes)) (fs : FS) :
  extracted d members fs ->
  fs !! path_join d x = Some (File data) -> (x, data) ∈ members.
Proof.
  intros Hex E. specialize (Hex _ _ (under_join d x) (path_join_ne d x) E).
  by destruct Hex as (name & Hin & <-%path_join_inj).
Qed.

(** Below a directory that is not there, a closed disk has nothing. *)
Lemma tree_closed_none (d q : string) (fs : FS) :
  tree_closed fs -> fs !! d = None -> under d q = true -> fs !! q = None.
Proof.
  intros Hc Hd [Hq|Hq]%orb_true_iff.
  - by apply String.eqb_eq in Hq as ->.
  - apply prefix_inv in Hq as [r ->]. apply eq_None_not_Some. intros Hsome.
    rewrite (Hc _ d Hsome) in Hd; [done |].
    apply dir_prefixes_spec. exists d, r. by rewrite str_app_assoc.
Qed.





(** ** Directories stay *)

Lemma keeps_dirs_ret {A} (a : A) : keeps_dirs (ret a).
Proof. by intros fs r fs' q [= <- <-]. Qed.

Lemma keeps_dirs_raise {A} (e : exn) : keeps_dirs (@raise A e).
Proof. by intros fs r fs' q [= <- <-]. Qed.

Lemma keeps_dirs_gets {A} (f : FS -> A) : keeps_dirs (gets f).
Proof. by intros fs r fs' q [= <- <-]. Qed.

Lemma keeps_dirs_lift {A} (x : result A) : keeps_dirs (lift x).
Proof. by intros fs r fs' q [= <- <-]. Qed.

Lemma keeps_dirs_bind {A B} (m : io A) (k : A -> io B) :
  keeps_dirs m -> (forall a, keeps_dirs (k a)) -> keeps_dirs (m ≫= k).
Proof.
  intros Hm Hk fs r fs' q Hrun Hq. io_unfold.
  destruct (m fs) as [[a|e] fs1] eqn:E.
  - eapply Hk; [done |]. eapply Hm; eauto.
  - injection Hrun as <- <-. eapply Hm; eauto.
Qed.

Lemma keeps_dirs_for_each {B} (l : list B) (body : B -> io unit) :
  (forall x, keeps_dirs (body x)) -> keeps_dirs (for_each l body).
Proof.
  intros H. induction l as [|x l IH]; simpl.
  - apply keeps_dirs_ret.
  - by apply (keeps_dirs_bind (body x) (fun _ => for_each l body)).
Qed.

Lemma keeps_dirs_write_file (p : string) (data : bytes) :
  keeps_dirs (write_file p data).
Proof.
  intros fs r fs' q Hrun Hq. unfold write_file in Hrun.
  repeat case_match; simplify_eq; try done;
    (destruct (decide (q = p)) as [->|]; [congruence | by rewrite lookup_insert_ne]).
Qed.

Lemma keeps_dirs_read_file (p : string) : keeps_dirs (read_file p).
Proof.
  intros fs r fs' q Hrun Hq. unfold read_file in Hrun.
  repeat case_match; by simplify_eq.
Qed.

Lemma keeps_dirs_mkdir_step (d : string) : keeps_dirs (mkdir_step d).
Proof.
  intros fs r fs' q Hrun Hq. unfold mkdir_step in Hrun.
  repeat case_match; simplify_eq; try done.
  destruct (decide (q = d)) as [->|]; [congruence | by rewrite lookup_insert_ne].
Qed.

Lemma keeps_dirs_makedirs_exist_ok (d : string) : keeps_dirs (makedirs_exist_ok d).
Proof.
  unfold makedirs_exist_ok. destruct d; [apply keeps_dirs_raise |].
  apply keeps_dirs_for_each, keeps_dirs_mkdir_step.
Qed.

Lemma keeps_dirs_etree_parse (p : string) : keeps_dirs (etree_parse p).
Proof.
  unfold etree_parse. apply keeps_dirs_bind; [apply keeps_dirs_read_file |].
  intros []; (apply keeps_dirs_ret || apply keeps_dirs_raise).
Qed.

Lemma keeps_dirs_extractall (members : list (string * bytes)) (d : string) :
  keeps_dirs (extractall members d).
Proof.
  apply keeps_dirs_for_each. intros m. unfold extract_member.
  apply keeps_dirs_bind; [apply keeps_dirs_makedirs_exist_ok |].
  intros _. apply keeps_dirs_write_file.
Qed.

Lemma keeps_dirs_safe_copy (src_root dst_root rel_path : string) :
  keeps_dirs (safe_copy src_root dst_root rel_path).
Proof.
  unfold safe_copy. apply keeps_dirs_bind; [apply keeps_dirs_gets |].
  intros []; [| apply keeps_dirs_ret].
  apply keeps_dirs_bind; [apply keeps_dirs_makedirs_exist_ok |]. intros _.
  apply keeps_dirs_bind; [| intros; apply keeps_dirs_ret].
  unfold copy2. apply keeps_dirs_bind; [apply keeps_dirs_read_file |]. intros data.
  apply keeps_dirs_bind; [apply keeps_dirs_gets |]. intros b.
  apply keeps_dirs_write_file.
Qed.

Lemma keeps_dirs_ensure_content_type_override (ct_path partname content_type : string) :
  keeps_dirs (ensure_content_type_override ct_path partname content_type).
Proof.
  unfold ensure_content_type_override.
  apply keeps_dirs_bind; [apply keeps_dirs_etree_parse |]. intros root.
  destruct (xpath_override root partname);
    [apply keeps_dirs_write_file | apply keeps_dirs_ret].
Qed.

Lemma keeps_dirs_ensure_relationship (p rel_type target : string) :
  keeps_dirs (ensure_relationship p rel_type target).
Proof.
  unfold ensure_relationship, read_relationships.
  apply keeps_dirs_bind.
  - apply keeps_dirs_bind; [apply keeps_dirs_gets |]. intros there.
    apply keeps_dirs_bind; [| intros; apply keeps_dirs_etree_parse].
    destruct there; [apply keeps_dirs_ret |].
    apply keeps_dirs_bind; [apply keeps_dirs_makedirs_exist_ok |].
    intros _. apply keeps_dirs_write_file.
  - intros root. destruct (xpath_relationship root rel_type target);
      apply keeps_dirs_write_file.
Qed.

(** Lines 134-151: copying, repairing and re-zipping. *)
Lemma keeps_dirs_repair (output_path : string) :
  keeps_dirs (copy_parts;; fix_content_types;; fix_relationships;;
              zip_dir b_dir output_path).
Proof.
  apply keeps_dirs_bind.
  { apply keeps_dirs_for_each. intros part.
    apply keeps_dirs_bind; [apply keeps_dirs_safe_copy | intros; apply keeps_dirs_ret]. }
  intros _. apply keeps_dirs_bind.
  { apply keeps_dirs_for_each. intros kv.
    apply keeps_dirs_bind; [apply keeps_dirs_gets |].
    intros []; [apply keeps_dirs_ensure_content_type_override | apply keeps_dirs_ret]. }
  intros _. apply keeps_dirs_bind.
  { unfold fix_relationships.
    apply keeps_dirs_bind; [apply keeps_dirs_ensure_relationship |]. intros _.
    apply keeps_dirs_bind; [apply keeps_dirs_ensure_relationship |]. intros _.
    apply keeps_dirs_bind; [apply keeps_dirs_gets |].
    intros []; [apply keeps_dirs_ensure_relationship | apply keeps_dirs_ret]. }
  intros _. unfold zip_dir.
  apply keeps_dirs_bind; [apply keeps_dirs_write_file |]. intros _.
  apply keeps_dirs_bind; [apply keeps_dirs_gets |]. intros members.
  apply keeps_dirs_write_file.
Qed.

(** After a successful [unzip_docx] the directory is there. *)
Lemma unzip_docx_dir (docx_path d : string) (fs fs' : FS) :
  unzip_docx docx_path d fs = (Ok tt, fs') -> fs' !! d = Some Dir.
Proof.
  unfold unzip_docx. io_unfold.
  destruct ((if exists_ d fs then rmtree d else _) fs) as [[[]|e] fs1]; [| done].
  destruct (makedirs d fs1) as [[[]|e] fs2] eqn:Hmk; [| done].
  assert (Hd : fs2 !! d = Some Dir).
  { unfold makedirs in Hmk. destruct (fs1 !! d); [done |].
    unfold makedirs_exist_ok in Hmk. destruct d as [|c d']; [done |].
    revert Hmk. generalize (dir_prefixes "" (String c d')). intros l.
    revert fs1. induction l as [|x l IH]; intros fs1 Hmk; simpl in Hmk.
    - unfold bind, mkdir_step, ret in Hmk.
      repeat case_match; simplify_eq; try done. by rewrite lookup_insert_eq.
    - unfold bind in Hmk at 1.
      destruct (mkdir_step x fs1) as [[[]|e] fs1']; [| done]. by eapply IH. }
  destruct (read_file docx_path fs2) as [[data|e] fs3] eqn:Hr; [| done].
  assert (fs3 = fs2) as ->.
  { unfold read_file in Hr. repeat case_match; by simplify_eq. }
  destruct (ZipFile data) as [members|e]; [| done].
  intros Hx. by eapply keeps_dirs_extractall.
Qed.

(** The defect behind C4, in general: once both packages are extracted, a
    merge that raises leaves both working directories on the disk. *)
Lemma merge_raise_leaves_working_directories
    (blank_docx : bytes) (template_path output_path : string)
    (fs fs1 fs' : FS) (e : exn) :
  (write_file output_path blank_docx;;
   unzip_docx template_path t_dir;;
   unzip_docx output_path b_dir) fs = (Ok tt, fs1) ->
  copy_styles_and_dependencies_from_template blank_docx template_path output_path fs
  = (Raise e, fs') ->
  fs' !! t_dir = Some Dir /\ fs' !! b_dir = Some Dir.
Proof.
  unfold copy_styles_and_dependencies_from_template.
  pose proof (keeps_dirs_repair output_path) as Hkeep. revert Hkeep. io_unfold.
  intros Hkeep.
  destruct (write_file output_path blank_docx fs) as [[[]|e1] fsa]; [| done].
  destruct (unzip_docx template_path t_dir fsa) as [[[]|e1] fsb] eqn:Hu1; [| done].
  destruct (unzip_docx output_path b_dir fsb) as [[[]|e1] fsc] eqn:Hu2; [| done].
  intros [= <-] Hrun.
  assert (Ht : fsc !! t_dir = Some Dir).
  { rewrite (touches_unzip_docx output_path b_dir eq_refl _ _ _ Hu2) by done.
    by eapply unzip_docx_dir. }
  assert (Hb : fsc !! b_dir = Some Dir) by by eapply unzip_docx_dir.
  unfold keeps_dirs in Hkeep. specialize (Hkeep fsc). simpl in Hkeep.
  destruct (copy_parts fsc) as [[[]|e1] fsd].
  2:{ injection Hrun as <- <-. split; by eapply Hkeep. }
  destruct (fix_content_types fsd) as [[[]|e1] fse].
  2:{ injection Hrun as <- <-. split; by eapply Hkeep. }
  destruct (fix_relationships fse) as [[[]|e1] fsf].
  2:{ injection Hrun as <- <-. split; by eapply Hkeep. }
  destruct (zip_dir b_dir output_path fsf) as [[[]|e1] fsg].
  2:{ injection Hrun as <- <-. split; by eapply Hkeep. }
  exfalso. unfold rmtree_ignore_errors in Hrun. repeat case_match; simplify_eq.
Qed.

(** A merge that runs through leaves nothing of its working directories. *)
Lemma merge_ok_removes_working_directories
    (blank_docx : bytes) (template_path output_path : string) (fs fs' : FS) :
  copy_styles_and_dependencies_from_template blank_docx template_path output_path fs
  = (Ok tt, fs') ->
  forall q, under t_dir q = true \/ under b_dir q = true -> fs' !! q = None.
Proof.
  unfold copy_styles_and_dependencies_from_template.
  pose proof (keeps_dirs_repair output_path) as Hkeep. revert Hkeep. io_unfold.
  intros Hkeep.
  destruct (write_file output_path blank_docx fs) as [[[]|e1] fsa]; [| done].
  destruct (unzip_docx template_path t_dir fsa) as [[[]|e1] fsb] eqn:Hu1; [| done].
  destruct (unzip_docx output_path b_dir fsb) as [[[]|e1] fsc] eqn:Hu2; [| done].
  assert (Ht : fsc !! t_dir = Some Dir).
  { rewrite (touches_unzip_docx output_path b_dir eq_refl _ _ _ Hu2) by done.
    by eapply unzip_docx_dir. }
  assert (Hb : fsc !! b_dir = Some Dir) by by eapply unzip_docx_dir.
  unfold keeps_dirs in Hkeep. specialize (Hkeep fsc). simpl in Hkeep.
  destruct (copy_parts fsc) as [[[]|e1] fsd]; [| done].
  destruct (fix_content_types fsd) as [[[]|e1] fse]; [| done].
  destruct (fix_relationships fse) as [[[]|e1] fsf]; [| done].
  destruct (zip_dir b_dir output_path fsf) as [[[]|e1] fsg]; [| done].
  pose proof (Hkeep _ _ t_dir eq_refl Ht) as Ht'.
  pose proof (Hkeep _ _ b_dir eq_refl Hb) as Hb'.
  unfold rmtree_ignore_errors. rewrite Ht'.
  assert (Hb'' : remove_tree t_dir fsg !! b_dir = Some Dir)
    by by rewrite lookup_remove_tree.
  rewrite Hb''. intros [= <-] q Hq. rewrite !lookup_remove_tree.
  destruct (under b_dir q); [done |]. destruct (under t_dir q); [done |].
  by destruct Hq.
Qed.

(** ** The tool *)

Section ToolProperties.

Variable blank_docx : bytes.
Variable Document_open : bytes -> result Document.
Variable Document_save : Document -> result bytes.
Variable create_blob_message :
  option bytes -> string -> string -> result ToolInvokeMessage.

Local Abbreviation body_of :=
  (generate_body blank_docx Document_open Document_save).
Local Abbreviation generate :=
  (generate_docx_with_template blank_docx Document_open Document_save).
Local Abbreviation invoke :=
  (_invoke blank_docx Document_open Document_save create_blob_message).

(** C6. A template that is not a ZIP archive, or is one that lacks
    [[Content_Types].xml] or [word/document.xml]: the invocation ends
    without an exception, having yielded one text message and no blob, and
    the disk is as it was, nothing of the merge or the build having run. *)
Theorem invalid_template_is_rejected
    (tool_parameters : parameters) (template_bytes : bytes) (fs : FS) :
  template_bytes_of (model tool_parameters) = Ok template_bytes ->
  match ZipFile template_bytes with
  | Raise _ => True
  | Ok test_zip =>
      "[Content_Types].xml" ∉ namelist test_zip
      \/ "word/document.xml" ∉ namelist test_zip
  end ->
  exists text,
    invoke tool_parameters fs = (Ok [TextMessage text], fs).
Proof.
  intros Hbytes Hbad. unfold _invoke, try_except. io_unfold.
  rewrite Hbytes. unfold validate_template.
  destruct template_bytes as [data|t|members]; simpl in *; eauto.
  destruct Hbad as [Hbad|Hbad].
  - rewrite (bool_decide_eq_false_2 _ Hbad). simpl. eauto.
  - rewrite (bool_decide_eq_false_2 _ Hbad), andb_false_r. simpl. eauto.
Qed.




(** The invocation changes nothing on the disk but its two temporary files
    and its two working directories. *)
Lemma touches_invoke (tool_parameters : parameters) :
  touches (fun q => q = tmp_template \/ q = tmp_output
                    \/ under t_dir q = true \/ under b_dir q = true)
          (invoke tool_parameters).
Proof.
  unfold _invoke.
  apply touches_try_except; [| intros; apply touches_ret].
  apply touches_bind; [apply touches_lift |]. intros template_bytes.
  apply touches_bind; [apply touches_lift |]. intros _.
  apply touches_bind; [| intros final; apply touches_bind;
                         [apply touches_lift | intros; apply touches_ret]].
  unfold generate_docx_with_template. apply touches_try_finally.
  - apply touches_try_except; [| intros; apply touches_ret].
    apply touches_bind; [| intros; apply touches_ret].
    unfold generate_body.
    apply touches_bind; [apply touches_write_file; auto |]. intros _.
    apply touches_bind.
    { eapply touches_weaken; [| apply touches_merge]. simpl. tauto. }
    intros _. apply touches_bind; [apply touches_read_file |]. intros data.
    apply touches_bind; [apply touches_lift |]. intros doc.
    apply touches_bind; apply touches_lift || (intros; apply touches_lift).
  - unfold remove_temporary_files.
    apply touches_bind; [apply touches_gets |]. intros there1.
    apply touches_bind.
    { destruct there1; [apply touches_remove; auto | apply touches_ret]. }
    intros _. apply touches_bind; [apply touches_gets |].
    intros []; [apply touches_remove; auto | apply touches_ret].
Qed.


End ToolProperties.

(** ** The properties on the sample inputs *)

Section OnSamples.
Import Sample.

Local Abbreviation merge_on blank tpl :=
  (copy_styles_and_dependencies_from_template
     (ZipArchive blank) tmp_template tmp_output (staged (ZipArchive tpl))).
Local Abbreviation invoke_on blank :=
  (_invoke (ZipArchive blank) Document_open Document_save create_blob_message).

(** The example of the specification: with [rId1], [rId2] and [rId4] in
    the table, the new relationship is [rId3]. *)
Lemma ensure_relationship_rId3 :
  (relationships_at
     (ensure_relationship rels_path REL_TYPE_THEME "theme/theme1.xml" rels_disk).2
     rels_path)
  = root_append rels_1_2_4
      (relationship "rId3" REL_TYPE_THEME "theme/theme1.xml").
Proof. by vm_compute. Qed.

(** Without a table on the disk, [ensure_relationship] makes the
    directories and the table, and the first relationship is [rId1]. *)
Lemma ensure_relationship_creates_table :
  (ensure_relationship rels_path REL_TYPE_STYLES "styles.xml" ∅).1 = Ok tt
  /\ relationships_at
       (ensure_relationship rels_path REL_TYPE_STYLES "styles.xml" ∅).2 rels_path
     = mkTree (clark NS_REL "Relationships")
              [relationship "rId1" REL_TYPE_STYLES "styles.xml"]
  /\ (ensure_relationship rels_path REL_TYPE_STYLES "styles.xml" ∅).2 !! "word/_rels"
     = Some Dir.
Proof. vm_compute. by repeat split. Qed.



(** On a manifest that lists the part name twice, both overrides stay. *)
Lemma ensure_content_type_override_keeps_duplicates :
  (ensure_content_type_override "[Content_Types].xml" "/word/styles.xml"
     "application/xml"
     {[ "[Content_Types].xml" := File (XmlDoc content_types_twice) ]}).2
  !! "[Content_Types].xml"
  = Some (File (XmlDoc content_types_twice)).
Proof. by vm_compute. Qed.

(** C3, as the specification has it, fails: a header of two cells and a
    body row of three.  The specification has the third cell dropped and
    nothing raised; the row loop raises [IndexError] and the build ends
    without a document. *)
Lemma long_row_is_not_truncated :
  add_data_rows 2 [["1"; "2"; "3"]] [] = Raise (IndexError "tuple index out of range")
  /\ build_document styled_document (table_markdown long_row)
     = Raise (IndexError "tuple index out of range").
Proof. split; by vm_compute. Qed.

(** A header of two cells, a row that fits and then a row of three: the
    first two cells of the long row are written, the third index raises,
    and the walk from the [<table>] line ends with that [IndexError]. *)
Lemma long_row_raises_IndexError_witness :
  length ["A"; "B"] < length ["1"; "2"; "3"]
  /\ forallb xml_compatible (take (length ["A"; "B"]) ["1"; "2"; "3"]) = true
  /\ fill_cells write_body_cell 0 ["1"; "2"] (replicate 2 empty_cell)
     = Ok [mkCell [mkParagraph None (Some CENTER) [mkRun "1" None (Some 10)]] [];
           mkCell [mkParagraph None (Some CENTER) [mkRun "2" None (Some 10)]] []]
  /\ fill_cells write_body_cell 0 ["1"; "2"; "3"] (replicate 2 empty_cell)
     = Raise (IndexError "tuple index out of range")
  /\ add_table_from styled_document [["A"; "B"]; ["x"]; ["1"; "2"; "3"]; ["y"]]
     = Raise (IndexError "tuple index out of range")
  /\ is_ok (walk_lines 0 (split_lines (table_markdown long_row)) styled_document)
     = false.
Proof.
  split; [simpl; lia |]. split; [reflexivity |].
  destruct (long_row_raises_IndexError ["A"; "B"] [["x"]] ["1"; "2"; "3"] [["y"]])
    as (_ & _ & _ & Hexact); [simpl; lia |].
  destruct (Hexact eq_refl) as (Hfirst & Hraise & Hrows).
  split; [exact Hfirst |]. split; [exact Hraise |].
  destruct (Hrows ltac:(repeat constructor) eq_refl) as [_ Htable].
  split; [exact (proj1 (Htable styled_document eq_refl eq_refl)) |].
  destruct (long_row_raises_IndexError ["A"; "B"] [] ["1"; "2"; "3"] [])
    as (_ & _ & Hwalk & _); [simpl; lia |].
  exact (proj2 (Hwalk styled_document "<table>"
                  (tail (split_lines (table_markdown long_row)))
                  eq_refl eq_refl)).
Defined.



(** The whole build on a table with the short row: the second cell of the
    body row is the empty cell. *)
Lemma short_row_table :
  (fun doc => rows <$> (match body doc with
                        | [TableNode t] => Some t
                        | _ => None
                        end))
    <$> (match build_document styled_document (table_markdown short_row) with
         | Ok doc => Some doc
         | Raise _ => None
         end)
  = Some (Some [ [header_cell "A"; header_cell "B"];
                 [body_cell "1"; empty_cell] ]).
Proof. by vm_compute. Qed.

Lemma empty_table_region_adds_nothing_witness :
  startswith (strip "<table>") "<table>" = true
  /\ extract_table_data (join_lines (capture_table ["</table>"; "next"])) = []
  /\ loop_body "<table>" ["</table>"; "next"] styled_document
     = Ok (S (length (capture_table ["</table>"; "next"])), styled_document)
  /\ walk_lines 0 ("<table>" :: ["</table>"; "next"]) styled_document
     = walk_lines (S (length (capture_table ["</table>"; "next"])))
         ["</table>"; "next"] styled_document.
Proof.
  split; [reflexivity |]. split; [reflexivity |].
  apply (empty_table_region_adds_nothing
           "<table>" ["</table>"; "next"] styled_document); reflexivity.
Defined.

Lemma unmatched_div_line_emits_nothing_witness :
  search_div (strip unclosed_title) = None
  /\ loop_body unclosed_title ["next"] styled_document = Ok (0, styled_document)
  /\ walk_lines 0 (unclosed_title :: ["next"]) styled_document
     = walk_lines 0 ["next"] styled_document.
Proof.
  split; [reflexivity |].
  apply (unmatched_div_line_emits_nothing unclosed_title ["next"] styled_document);
    [| reflexivity].
  exists "title". split; [| reflexivity]. apply elem_of_cons. by left.
Defined.

Lemma invalid_template_is_rejected_witness :
  template_bytes_of (model (parameters_with (Raw "not a zip") "text"))
  = Ok (Raw "not a zip")
  /\ exists text,
       invoke_on numbered_blank (parameters_with (Raw "not a zip") "text") ∅
       = (Ok [TextMessage text], ∅).
Proof.
  split; [reflexivity |].
  apply (invalid_template_is_rejected
           (ZipArchive numbered_blank) Document_open Document_save
           create_blob_message
           (parameters_with (Raw "not a zip") "text") (Raw "not a zip") ∅);
    [reflexivity | exact I].
Defined.

(** A ZIP archive without [word/document.xml] is turned down as well. *)
Lemma archive_without_document_is_rejected :
  invoke_on numbered_blank
    (parameters_with (ZipArchive [("[Content_Types].xml", XmlDoc content_types)])
                     "text") ∅
  = (Ok [TextMessage "生成带模板样式的docx时出错: 模板文件不是有效的DOCX格式"], ∅).
Proof. by vm_compute. Qed.


(** The three outcomes on the samples: a blob for a template that merges
    and a text that builds, a text message when the build raises (the
    long row), a text message when the merge raises (the template with a
    directory in place of a part). *)
Lemma invoke_outcomes :
  match (invoke_on numbered_blank
           (parameters_with (ZipArchive template) (table_markdown short_row)) ∅).1
  with
  | Ok [BlobMessage _ mime_type filename] =>
      mime_type = DOCX_MIME /\ filename = "高校毕业生就业情况分析报告.docx"
  | _ => False
  end
  /\ (invoke_on numbered_blank
        (parameters_with (ZipArchive template) (table_markdown long_row)) ∅).1
     = Ok [TextMessage "生成带模板样式的docx时出错: blob: Input should be a valid bytes"]
  /\ (invoke_on numbered_blank
        (parameters_with (ZipArchive template_with_directory) "text") ∅).1
     = Ok [TextMessage "生成带模板样式的docx时出错: blob: Input should be a valid bytes"].
Proof. split_and!; by vm_compute. Qed.

(** C4 fails on the code. The template is a ZIP archive with both
    mandatory parts in which [word/styles.xml] is a directory: copying
    that part raises, the merge ends there, and both working directories
    stay on the disk, with what was extracted into them; they are still
    there when [generate_docx_with_template] has returned, its [finally]
    clause having removed the two temporary files only. *)
Theorem merge_failure_leaves_working_directories :
  let merged := merge_on numbered_blank template_with_directory in
  let generated :=
    generate_docx_with_template (ZipArchive numbered_blank) Document_open
      Document_save (ZipArchive template_with_directory) "text" ∅ in
  merged.1 = Raise (OSError "Is a directory: _tmp_tpl_unzip/word/styles.xml")
  /\ merged.2 !! t_dir = Some Dir
  /\ merged.2 !! b_dir = Some Dir
  /\ generated.1 = Ok None
  /\ generated.2 !! tmp_template = None
  /\ generated.2 !! tmp_output = None
  /\ generated.2 !! t_dir = Some Dir
  /\ generated.2 !! b_dir = Some Dir
  /\ exists_ (path_join t_dir "word/document.xml") generated.2 = true
  /\ exists_ (path_join b_dir "word/document.xml") generated.2 = true.
Proof. vm_compute. by repeat split. Qed.

(** A merge that runs through removes both working directories. *)
Lemma merge_success_removes_working_directories :
  let merged := merge_on numbered_blank template in
  merged.1 = Ok tt
  /\ fst <$> map_to_list merged.2 = [tmp_output; tmp_template].
Proof. vm_compute. by split. Qed.


(** With a blank package that has no numbering part, the same template
    gives a merged document without the numbering relationship, and with
    those to the styles and the theme. *)
Lemma no_numbering_relationship_without_part :
  (fun rels =>
     (has_relationship rels REL_TYPE_STYLES "styles.xml",
      has_relationship rels REL_TYPE_THEME "theme/theme1.xml",
      has_relationship rels REL_TYPE_NUMBERING "numbering.xml"))
    <$> output_relationships (merge_on plain_blank template).2
  = Some (true, true, false).
Proof. by vm_compute. Qed.


End OnSamples.

(** * Further properties of the code *)

(** ** Extraction, read back *)

Lemma mkdir_step_keeps (x q : string) (n : node) (fs fs' : FS) (r : result unit) :
  mkdir_step x fs = (r, fs') -> fs !! q = Some n -> fs' !! q = Some n.
Proof.
  unfold mkdir_step. intros H Hq. repeat case_match; simplify_eq; auto.
  rewrite lookup_insert_ne; [done |]. intros ->. congruence.
Qed.

Lemma for_each_mkdir_keeps (l : list string) (q : string) (n : node) :
  forall (fs fs' : FS) (r : result unit),
    for_each l mkdir_step fs = (r, fs') -> fs !! q = Some n -> fs' !! q = Some n.
Proof.
  induction l as [|x l IH]; intros fs fs' r H Hq; simpl in H.
  - by injection H as <- <-.
  - unfold bind in H. destruct (mkdir_step x fs) as [[[]|e] fs1] eqn:Hx.
    + eapply IH; [done |]. by eapply mkdir_step_keeps.
    + injection H as <- <-. by eapply mkdir_step_keeps.
Qed.

Lemma makedirs_exist_ok_keeps (D q : string) (n : node) (fs fs' : FS)
    (r : result unit) :
  makedirs_exist_ok D fs = (r, fs') -> fs !! q = Some n -> fs' !! q = Some n.
Proof.
  unfold makedirs_exist_ok. destruct D as [|c D].
  - by intros [= <- <-].
  - apply for_each_mkdir_keeps.
Qed.

(** One member extracted: its file is there, and what was at another path
    still is. *)
Lemma extract_member_ok (d : string) (m : string * bytes) (fs fs' : FS) :
  extract_member d m fs = (Ok tt, fs') ->
  fs' !! path_join d m.1 = Some (File m.2)
  /\ forall q n, q <> path_join d m.1 -> fs !! q = Some n -> fs' !! q = Some n.
Proof.
  unfold extract_member. io_unfold.
  destruct (makedirs_exist_ok _ fs) as [[[]|e] fs1] eqn:Hmk; [| done].
  intros ->%write_file_ok. split; [by rewrite lookup_insert_eq |].
  intros q n Hq Hn. rewrite lookup_insert_ne by done.
  by eapply makedirs_exist_ok_keeps.
Qed.

Lemma extractall_keeps (d q : string) (n : node) (l : list (string * bytes)) :
  forall fs fs' : FS,
    extractall l d fs = (Ok tt, fs') ->
    (forall name, name ∈ namelist l -> q <> path_join d name) ->
    fs !! q = Some n -> fs' !! q = Some n.
Proof.
  unfold extractall.
  induction l as [|m l IH]; intros fs fs' H Hq Hn; simpl in H.
  - by injection H as <-.
  - unfold bind in H.
    destruct (extract_member d m fs) as [[[]|e] fs1] eqn:Hm; [| done].
    apply extract_member_ok in Hm as [_ Hkeep].
    apply (IH fs1); [done | |].
    + intros name Hin. apply Hq.
      change (namelist (m :: l)) with (m.1 :: namelist l).
      apply elem_of_cons. by right.
    + apply Hkeep; [| done]. apply Hq.
      change (namelist (m :: l)) with (m.1 :: namelist l).
      apply elem_of_cons. by left.
Qed.

Lemma archive_read_None (members : list (string * bytes)) (name : string) :
  archive_read members name = None <-> name ∉ namelist members.
Proof.
  induction members as [|[n data] l IH]; simpl.
  - split; [intros _; apply not_elem_of_nil | done].
  - change (namelist ((n, data) :: l)) with (n :: namelist l).
    rewrite not_elem_of_cons.
    destruct (archive_read l name) as [later|].
    + split; [done |]. intros [_ H]. by apply IH in H.
    + destruct (String.eqb n name) eqn:E.
      * apply String.eqb_eq in E as ->. split; [done | by intros [? _]].
      * apply String.eqb_neq in E. split; [| done]. intros _. split; [done |].
        by apply IH.
Qed.

Lemma archive_read_elem_of (members : list (string * bytes)) (name : string)
    (data : bytes) :
  archive_read members name = Some data -> (name, data) ∈ members.
Proof.
  induction members as [|[n d0] l IH]; simpl; [done |].
  destruct (archive_read l name) as [later|].
  - intros [= ->]. apply elem_of_cons. right. by apply IH.
  - destruct (String.eqb n name) eqn:E; [| done].
    apply String.eqb_eq in E as ->. intros [= ->]. apply elem_of_cons. by left.
Qed.

(** [extractall] leaves, for every member name, the file of the last member
    of that name. *)
Lemma extractall_read (d : string) (l : list (string * bytes)) :
  forall (fs fs' : FS) (name : string) (data : bytes),
    extractall l d fs = (Ok tt, fs') ->
    archive_read l name = Some data ->
    fs' !! path_join d name = Some (File data).
Proof.
  induction l as [|[n d0] l IH]; intros fs fs' name data H Hr; [done |].
  pose proof H as Hall. unfold extractall in H. simpl in H, Hr. unfold bind in H.
  destruct (extract_member d (n, d0) fs) as [[[]|e] fs1] eqn:Hm; [| done].
  destruct (archive_read l name) as [later|] eqn:El.
  - injection Hr as ->. by apply (IH fs1).
  - destruct (String.eqb n name) eqn:E; [| done].
    apply String.eqb_eq in E as ->. injection Hr as ->.
    apply extract_member_ok in Hm as [Hfile _]. simpl in Hfile.
    apply (extractall_keeps d _ _ l fs1); [done | | done].
    intros name' Hin ->%path_join_inj. by apply archive_read_None in El.
Qed.

(** What [unzip_docx] has done when it returns: the archive read, and the
    state [extractall] started from, which has below the directory nothing
    of what the disk had there when the directory existed. *)
Lemma unzip_docx_inv (docx_path d : string) (fs fs' : FS) :
  unzip_docx docx_path d fs = (Ok tt, fs') ->
  exists members fs0,
    fs !! docx_path = Some (File (ZipArchive members))
    /\ extractall members d fs0 = (Ok tt, fs')
    /\ forall q n, fs0 !! q = Some n ->
         (fs !! q = Some n /\ (is_Some (fs !! d) -> under d q = false))
         \/ (n = Dir /\ q ∈ dir_prefixes "" d ++ [d]).
Proof.
  unfold unzip_docx.
  unfold mbind at 1, io_bind, bind at 1. unfold gets at 1.
  unfold mbind at 1, io_bind, bind at 1.
  assert (Htail : forall fs1 : FS,
    fs1 !! d = None ->
    (makedirs d;;
     data ← read_file docx_path;
     members ← lift (ZipFile data);
     extractall members d) fs1 = (Ok tt, fs') ->
    exists members fs0,
      fs1 !! docx_path = Some (File (ZipArchive members))
      /\ extractall members d fs0 = (Ok tt, fs')
      /\ forall q n, fs0 !! q = Some n ->
           fs1 !! q = Some n \/ (n = Dir /\ q ∈ dir_prefixes "" d ++ [d])).
  { intros fs1 Hnone. io_unfold. unfold makedirs. rewrite Hnone.
    destruct (makedirs_exist_ok d fs1) as [[[]|e] fs0] eqn:Hmk; [| done].
    unfold read_file.
    destruct (fs0 !! docx_path) as [[data|]|] eqn:Hdoc; [| done..].
    destruct data as [?|?|members]; simpl; [done.. |].
    intros Hx. exists members, fs0. split_and!; [| done |].
    - destruct (makedirs_exist_ok_lookup _ _ _ _ _ _ Hmk Hdoc) as [?|[? _]]; done.
    - intros q n Hq.
      destruct (makedirs_exist_ok_lookup _ _ _ _ _ _ Hmk Hq) as [?|(? & _ & ?)]; auto. }
  destruct (fs !! d) as [[c|]|] eqn:E.
  - rewrite (exists_true _ _ _ E). unfold rmtree. by rewrite E.
  - rewrite (exists_true _ _ _ E). unfold rmtree. rewrite E.
    intros H. apply Htail in H as (members & fs0 & Hm & Hx & Hold).
    2:{ by rewrite lookup_remove_tree, under_refl. }
    exists members, fs0. rewrite lookup_remove_tree in Hm.
    destruct (under d docx_path); [done |]. split_and!; [done.. |].
    intros q n Hq. destruct (Hold q n Hq) as [H1|H1]; [left | by right].
    rewrite lookup_remove_tree in H1. destruct (under d q); [done |]. done.
  - rewrite (exists_false _ _ E). unfold ret.
    intros H. apply Htail in H as (members & fs0 & Hm & Hx & Hold); [| done].
    exists members, fs0. split_and!; [done.. |].
    intros q n Hq. destruct (Hold q n Hq) as [H1|H1]; [left | by right].
    split; [done |]. by intros [? ?].
Qed.

(** After [unzip_docx] has run through, the files below the directory are
    the members of the archive, each under its name with the content of the
    last member of that name. *)
Lemma unzip_docx_read (docx_path d : string) (fs fs' : FS) :
  no_slash d = true -> under d docx_path = false ->
  (fs !! d = None -> forall q, under d q = true -> fs !! q = None) ->
  unzip_docx docx_path d fs = (Ok tt, fs') ->
  exists members,
    fs !! docx_path = Some (File (ZipArchive members))
    /\ forall name data,
         fs' !! path_join d name = Some (File data)
         <-> archive_read members name = Some data.
Proof.
  intros Hd Hp Hclosed Hrun.
  destruct (unzip_docx_ok _ _ _ _ Hd Hp Hclosed Hrun) as (members & Hm & Hex).
  destruct (unzip_docx_inv _ _ _ _ Hrun) as (members' & fs0 & Hm' & Hall & _).
  rewrite Hm in Hm'. injection Hm' as <-.
  exists members. split; [done |]. intros name data. split.
  - intros Hfile. pose proof (extracted_file _ _ _ _ _ Hex Hfile) as Hin.
    destruct (archive_read members name) as [last|] eqn:Hr.
    + rewrite (extractall_read _ _ _ _ _ _ Hall Hr) in Hfile. congruence.
    + apply archive_read_None in Hr. exfalso. apply Hr.
      unfold namelist. apply list_elem_of_fmap. by exists (name, data).
  - intros Hr. by eapply extractall_read.
Qed.

(** X1. [unzip_docx] replaces the directory by the content of the archive,
    for an archive of files whose names [extractall] takes as they stand
    (no component empty, [.] or [..], so no directory entry and no
    absolute name) and a directory named by one such component.  After it
    has run through the directory is there and nothing outside it has
    changed; the files below it are the members of the archive, each
    under its name with the content of the last member of that name; and a
    path below it that no member is at or below holds nothing, whatever was
    there before. *)
Theorem unzip_docx_replaces_directory (docx_path d : string)
    (members : list (string * bytes)) (fs fs' : FS) :
  no_slash d = true -> clean_name d = true -> under d docx_path = false ->
  (fs !! d = None -> forall q, under d q = true -> fs !! q = None) ->
  fs !! docx_path = Some (File (ZipArchive members)) ->
  forallb clean_name (namelist members) = true ->
  unzip_docx docx_path d fs = (Ok tt, fs') ->
  fs' !! d = Some Dir
  /\ (forall q, under d q = false -> fs' !! q = fs !! q)
  /\ (forall name data,
        clean_name name = true ->
        fs' !! path_join d name = Some (File data)
        <-> archive_read members name = Some data)
  /\ forall x, clean_name x = true ->
               (forall name, name ∈ namelist members -> under x name = false) ->
               fs' !! path_join d x = None.
Proof.
  intros Hd _ Hp Hclosed Hfile _ Hrun.
  destruct (unzip_docx_ok _ _ _ _ Hd Hp Hclosed Hrun) as (members0 & Hm & Hex).
  destruct (unzip_docx_read _ _ _ _ Hd Hp Hclosed Hrun) as (members' & Hm' & Hfiles).
  rewrite Hm in Hm'. injection Hm' as <-.
  rewrite Hfile in Hm. injection Hm as <-.
  split_and!; [by eapply unzip_docx_dir | | by intros name data _ |].
  - intros q Hq. eapply (touches_unzip_docx docx_path d Hd); [done |]. by rewrite Hq.
  - intros x _ Hx. by eapply extracted_absent.
Qed.

(** X2. [zip_dir] archives the files below the directory, each under its
    path relative to the directory, and nothing else; only the archive file
    changes on the disk. *)
Theorem zip_dir_archives_files (d output_docx : string) (fs fs' : FS) :
  under d output_docx = false ->
  zip_dir d output_docx fs = (Ok tt, fs') ->
  exists members,
    fs' !! output_docx = Some (File (ZipArchive members))
    /\ (forall rel data,
          (rel, data) ∈ members <-> fs !! path_join d rel = Some (File data))
    /\ forall q, q <> output_docx -> fs' !! q = fs !! q.
Proof.
  intros Hout Hrun.
  destruct (zip_dir_ok _ _ _ _ Hrun) as (members & Hfile & Hmem).
  exists members. split_and!; [done | |].
  - intros rel data. apply Hmem. intros E.
    by rewrite <- E, under_join in Hout.
  - intros q Hq.
    by eapply (touches_zip_dir (fun q => q = output_docx) d output_docx eq_refl).
Qed.

(** X3. Extracting an archive with [unzip_docx] and packing the directory
    again with [zip_dir] gives an archive with the same files: one member
    for every name of the first archive, with the content of its last member
    of that name.  The archive is one of files whose names [extractall]
    takes as they stand, the directory is named by one such component. *)
Theorem unzip_then_zip (docx_path d output_docx : string)
    (members : list (string * bytes)) (fs fs' : FS) :
  no_slash d = true -> clean_name d = true ->
  under d docx_path = false -> under d output_docx = false ->
  (fs !! d = None -> forall q, under d q = true -> fs !! q = None) ->
  fs !! docx_path = Some (File (ZipArchive members)) ->
  forallb clean_name (namelist members) = true ->
  (unzip_docx docx_path d;; zip_dir d output_docx) fs = (Ok tt, fs') ->
  exists members',
    fs' !! output_docx = Some (File (ZipArchive members'))
    /\ forall name data,
         (name, data) ∈ members' <-> archive_read members name = Some data.
Proof.
  intros Hd _ Hp Hout Hclosed Hfile _. io_unfold.
  destruct (unzip_docx docx_path d fs) as [[[]|e] fs1] eqn:Hun; [| done].
  intros Hzip.
  destruct (unzip_docx_read _ _ _ _ Hd Hp Hclosed Hun) as (members0 & Hm & Hfiles).
  rewrite Hfile in Hm. injection Hm as <-.
  destruct (zip_dir_ok _ _ _ _ Hzip) as (members' & Hm' & Hmem).
  exists members'. split_and!; [done |].
  intros name data. rewrite Hmem, Hfiles; [done |].
  intros E. by rewrite <- E, under_join in Hout.
Qed.

(** ** Copying one part *)

Lemma not_own_dir_prefix (p : string) : p ∉ dir_prefixes "" p.
Proof.
  intros (s1 & s2 & Hp & Hs1)%dir_prefixes_spec.
  change ("" ++ s1)%string with s1 in Hs1. subst s1.
  apply (f_equal String.length) in Hp. rewrite !str_length_app in Hp.
  simpl in Hp. lia.
Qed.

Lemma not_above_itself (p : string) :
  p ∉ dir_prefixes "" (dirname p) ++ [dirname p] \/ dirname p = "".
Proof.
  destruct (decide (dirname p = "")) as [|Hne]; [by right | left].
  intros Hin. apply (not_own_dir_prefix p). by apply dir_prefixes_dirname.
Qed.

(** A source that is a file: [safe_copy] returns [True] or raises, and when
    it returns the content is at the destination, or inside it when the
    destination was a directory. *)
Lemma safe_copy_file (src_root dst_root rel_path : string) (data : bytes)
    (fs fs' : FS) (r : result bool) :
  safe_copy src_root dst_root rel_path fs = (r, fs') ->
  fs !! path_join src_root rel_path = Some (File data) ->
  r <> Ok false
  /\ (is_ok r = true ->
      match fs !! path_join dst_root rel_path with
      | Some Dir =>
          fs' !! path_join (path_join dst_root rel_path)
                           (basename (path_join src_root rel_path))
          = Some (File data)
      | _ => fs' !! path_join dst_root rel_path = Some (File data)
      end).
Proof.
  intros Hrun Esrc. unfold safe_copy in Hrun. io_unfold.
  set (src := path_join src_root rel_path) in *.
  set (dst := path_join dst_root rel_path) in *.
  rewrite (exists_true _ _ _ Esrc) in Hrun.
  destruct (makedirs_exist_ok (dirname dst) fs) as [[[]|e] fs1] eqn:Hmk.
  - pose proof (makedirs_exist_ok_keeps _ _ _ _ _ _ Hmk Esrc) as Esrc1.
    unfold copy2 in Hrun. io_unfold. unfold read_file in Hrun.
    rewrite Esrc1 in Hrun.
    destruct (write_file _ data fs1) as [[[]|e] fs2] eqn:Hw;
      injection Hrun as <- <-; [| split; done].
    split; [done |]. intros _. apply write_file_ok in Hw as ->.
    destruct (fs !! dst) as [[old|]|] eqn:Edst.
    + rewrite (makedirs_exist_ok_keeps _ _ _ _ _ _ Hmk Edst).
      by rewrite lookup_insert_eq.
    + rewrite (makedirs_exist_ok_keeps _ _ _ _ _ _ Hmk Edst).
      by rewrite lookup_insert_eq.
    + destruct (fs1 !! dst) as [[old|]|] eqn:Edst1;
        [by rewrite lookup_insert_eq | | by rewrite lookup_insert_eq].
      exfalso.
      destruct (makedirs_exist_ok_lookup _ _ _ _ _ _ Hmk Edst1)
        as [?|(_ & Hne & Hin)]; [congruence |].
      by destruct (not_above_itself dst).
  - injection Hrun as <- <-. split; done.
Qed.

(** A source that is a directory: [shutil.copy2] raises. *)
Lemma safe_copy_directory (src_root dst_root rel_path : string)
    (fs fs' : FS) (r : result bool) :
  safe_copy src_root dst_root rel_path fs = (r, fs') ->
  fs !! path_join src_root rel_path = Some Dir ->
  is_ok r = false.
Proof.
  intros Hrun Esrc. unfold safe_copy in Hrun. io_unfold.
  rewrite (exists_true _ _ _ Esrc) in Hrun.
  destruct (makedirs_exist_ok _ fs) as [[[]|e] fs1] eqn:Hmk.
  - pose proof (makedirs_exist_ok_keeps _ _ _ _ _ _ Hmk Esrc) as Esrc1.
    unfold copy2 in Hrun. io_unfold. unfold read_file in Hrun.
    rewrite Esrc1 in Hrun. by injection Hrun as <- <-.
  - by injection Hrun as <- <-.
Qed.

(** X4. [safe_copy] skips a part that is not in the source tree: it returns
    [False] and the disk is as before.  When it returns [True] the source is
    a file and its content is at the destination, or inside the destination
    when that was a directory.  It never returns [False] for a source that
    is there, and a source that is a directory makes it raise. *)
Theorem safe_copy_cases (src_root dst_root rel_path : string)
    (fs fs' : FS) (r : result bool) :
  safe_copy src_root dst_root rel_path fs = (r, fs') ->
  let src := path_join src_root rel_path in
  let dst := path_join dst_root rel_path in
  match fs !! src with
  | None => r = Ok false /\ fs' = fs
  | Some Dir => exists e, r = Raise e
  | Some (File data) =>
      r <> Ok false
      /\ (r = Ok true ->
          match fs !! dst with
          | Some Dir => fs' !! path_join dst (basename src) = Some (File data)
          | _ => fs' !! dst = Some (File data)
          end)
  end.
Proof.
  intros Hrun. cbv zeta.
  destruct (fs !! path_join src_root rel_path) as [[data|]|] eqn:Esrc.
  - destruct (safe_copy_file _ _ _ _ _ _ _ Hrun Esrc) as [Hr Hfile].
    split; [done |]. intros ->. by apply Hfile.
  - pose proof (safe_copy_directory _ _ _ _ _ _ Hrun Esrc) as Hr.
    destruct r as [b|e]; [done | by exists e].
  - unfold safe_copy in Hrun. io_unfold.
    rewrite (exists_false _ _ Esrc) in Hrun. by injection Hrun as <- <-.
Qed.

(** ** Relationship tables *)

Lemma relationships_append (root : ElementTree) (rel_type target : string) :
  relationships (root_append root (new_relationship root rel_type target))
  = relationships root ++ [new_relationship root rel_type target].
Proof.
  unfold relationships, root_findall, root_append. simpl.
  by rewrite List.filter_app.
Qed.

Lemma new_relationship_id (root : ElementTree) (rel_type target : string) :
  el_get (new_relationship root rel_type target) "Id"
  = Some (rId (next_rid (existing_ids root))).
Proof. reflexivity. Qed.

Lemma relationship_ids_append (root : ElementTree) (rel_type target : string) :
  relationship_ids (root_append root (new_relationship root rel_type target))
  = relationship_ids root ++ [rId (next_rid (existing_ids root))].
Proof.
  unfold relationship_ids. rewrite relationships_append, omap_app. reflexivity.
Qed.

(** X5. [ensure_relationship] keeps the relationships of the table as they
    are, in their order, and keeps the identifiers distinct: when no two
    relationships of the table share an identifier before the call, none do
    after it. *)
Theorem ensure_relationship_keeps_ids_distinct
    (doc_rels_path rel_type target : string) (fs fs' : FS) :
  ensure_relationship doc_rels_path rel_type target fs = (Ok tt, fs') ->
  NoDup (relationship_ids (relationships_at fs doc_rels_path)) ->
  exists root',
    fs' !! doc_rels_path = Some (File (XmlDoc root'))
    /\ children (relationships_at fs doc_rels_path) `prefix_of` children root'
    /\ NoDup (relationship_ids root').
Proof.
  intros Hrun%ensure_relationship_ok Hnodup.
  set (root := relationships_at fs doc_rels_path) in *.
  eexists. split; [exact Hrun |].
  unfold ensure_relationship_tree.
  destruct (has_relationship root rel_type target); [done |].
  split; [by eexists |].
  rewrite relationship_ids_append.
  apply NoDup_app. split_and!; [done | | apply NoDup_singleton].
  intros x Hx ->%list_elem_of_singleton.
  destruct (next_rid_spec (existing_ids root)) as (_ & Hfree & _).
  apply Hfree. unfold existing_ids. by apply elem_of_list_to_set.
Qed.

(** X6. [ensure_relationship] is idempotent, for a type and a target free
    of double quotes, as the string literals of its XPath query have to be:
    run again after a run that went through, it succeeds and leaves the
    disk as it is. *)
Theorem ensure_relationship_idempotent
    (doc_rels_path rel_type target : string) (fs fs' : FS) :
  xpath_literal rel_type = true -> xpath_literal target = true ->
  ensure_relationship doc_rels_path rel_type target fs = (Ok tt, fs') ->
  ensure_relationship doc_rels_path rel_type target fs' = (Ok tt, fs').
Proof.
  intros _ _ Hrun%ensure_relationship_ok.
  set (root := ensure_relationship_tree _ _ _) in Hrun.
  assert (Hhas : has_relationship root rel_type target = true).
  { subst root. rewrite has_relationship_ensure, !String.eqb_refl.
    apply orb_true_r. }
  unfold ensure_relationship. io_unfold.
  rewrite (read_relationships_present _ _ _ Hrun).
  unfold has_relationship in Hhas.
  destruct (xpath_relationship root rel_type target); [done |].
  unfold tree_write. rewrite (write_file_over _ _ _ _ Hrun).
  by rewrite insert_id.
Qed.

(** X7. [read_relationships] leaves a table that is there as it is, and
    where there is none it writes the empty table, making the directories
    above it. *)
Theorem read_relationships_cases (doc_rels_path : string) (root : ElementTree)
    (fs fs' : FS) :
  read_relationships doc_rels_path fs = (Ok root, fs') ->
  match fs !! doc_rels_path with
  | Some _ => fs' = fs /\ fs !! doc_rels_path = Some (File (XmlDoc root))
  | None =>
      root = mkTree (clark NS_REL "Relationships") []
      /\ fs' !! doc_rels_path = Some (File (XmlDoc root))
      /\ (dirname doc_rels_path <> "" -> fs' !! dirname doc_rels_path = Some Dir)
      /\ forall q n, fs !! q = Some n -> fs' !! q = Some n
  end.
Proof.
  unfold read_relationships. io_unfold.
  destruct (fs !! doc_rels_path) as [n|] eqn:E.
  - rewrite (exists_true _ _ _ E). intros [-> H]%etree_parse_ok.
    split; [done | congruence].
  - rewrite (exists_false _ _ E).
    destruct (makedirs_exist_ok _ fs) as [[[]|e] fs1] eqn:Hmk; [| done].
    unfold tree_write.
    destruct (write_file _ _ fs1) as [[[]|e] fs2] eqn:Hw; [| done].
    pose proof Hw as Hw'. apply write_file_ok in Hw' as ->.
    intros [-> Hfile]%etree_parse_ok.
    rewrite lookup_insert_eq in Hfile. injection Hfile as <-.
    split_and!; [done | by rewrite lookup_insert_eq | |].
    + intros Hne. rewrite lookup_insert_ne.
      2:{ intros Heq. destruct (not_above_itself doc_rels_path) as [H|H]; [| done].
          apply H. rewrite Heq at 1. apply elem_of_app. right.
          by apply list_elem_of_singleton. }
      unfold write_file in Hw.
      destruct (fs1 !! doc_rels_path) as [[?|]|] eqn:E1.
      * destruct (makedirs_exist_ok_lookup _ _ _ _ _ _ Hmk E1) as [?|[? _]];
          congruence.
      * done.
      * destruct (dirname doc_rels_path); [done |].
        by destruct (fs1 !! String a s) as [[?|]|].
    + intros q n Hq. rewrite lookup_insert_ne by congruence.
      by eapply makedirs_exist_ok_keeps.
Qed.

(** X8. Where there is no relationship table, [ensure_relationship] makes
    one whose only relationship is the one asked for, under the identifier
    [rId1]. *)
Theorem ensure_relationship_on_missing_table
    (doc_rels_path rel_type target : string) (fs fs' : FS) :
  fs !! doc_rels_path = None ->
  ensure_relationship doc_rels_path rel_type target fs = (Ok tt, fs') ->
  fs' !! doc_rels_path
  = Some (File (XmlDoc
       (mkTree (clark NS_REL "Relationships")
          [mkElement (clark NS_REL "Relationship")
             [("Id", "rId1"); ("Type", rel_type); ("Target", target)]]))).
Proof.
  intros Hnone Hrun%ensure_relationship_ok. rewrite Hrun.
  unfold relationships_at. rewrite Hnone. reflexivity.
Qed.

(** ** The manifest *)

Lemma xpath_override_prefix (root root' : ElementTree) (partname : string) :
  children root `prefix_of` children root' ->
  has_override root partname = true -> has_override root' partname = true.
Proof.
  intros [k Hk]. unfold has_override, xpath_override, root_findall.
  rewrite Hk, !List.filter_app.
  by destruct (List.filter _ (List.filter _ (children root))).
Qed.

(** A run of [ensure_content_type_override] that goes through: the manifest
    it leaves declares the part and keeps the children it had. *)
Lemma ensure_content_type_override_ok
    (ct partname content_type : string) (fs fs' : FS) :
  ensure_content_type_override ct partname content_type fs = (Ok tt, fs') ->
  exists root root',
    fs !! ct = Some (File (XmlDoc root))
    /\ fs' !! ct = Some (File (XmlDoc root'))
    /\ children root `prefix_of` children root'
    /\ has_override root' partname = true.
Proof.
  unfold ensure_content_type_override. io_unfold.
  destruct (etree_parse ct fs) as [[root|e] fs1] eqn:Hparse; [| done].
  apply etree_parse_ok in Hparse as [-> Hroot].
  intros Hrun. exists root. unfold has_override.
  destruct (xpath_override root partname) as [|el found] eqn:Hfound.
  - unfold tree_write in Hrun. apply write_file_ok in Hrun as ->. eexists.
    split_and!; [done | by rewrite lookup_insert_eq | by eexists |].
    rewrite new_override_matches, Hfound. done.
  - injection Hrun as <-. exists root. by rewrite Hfound.
Qed.

Lemma part_is_not_manifest (kv : string * string) :
  kv ∈ CONTENT_TYPES -> path_join b_dir (lstrip_slash kv.1) <> ct_path.
Proof.
  unfold CONTENT_TYPES. intros Hin.
  repeat (apply elem_of_cons in Hin as [->|Hin]; [by vm_compute |]).
  by apply elem_of_nil in Hin.
Qed.

Lemma declare_part_inv (kv : string * string) (fs fs' : FS) (r : result unit) :
  declare_part kv fs = (r, fs') ->
  (exists_ (path_join b_dir (lstrip_slash kv.1)) fs = true
   /\ ensure_content_type_override ct_path kv.1 kv.2 fs = (r, fs'))
  \/ (exists_ (path_join b_dir (lstrip_slash kv.1)) fs = false
      /\ r = Ok tt /\ fs' = fs).
Proof.
  unfold declare_part. io_unfold.
  destruct (exists_ _ fs); [by left | right]. by simplify_eq.
Qed.

Lemma fix_content_types_keeps (l : list (string * string)) :
  forall (fs fs' : FS) (root : ElementTree),
    for_each l declare_part fs = (Ok tt, fs') ->
    fs !! ct_path = Some (File (XmlDoc root)) ->
    exists root', fs' !! ct_path = Some (File (XmlDoc root'))
                  /\ children root `prefix_of` children root'.
Proof.
  induction l as [|kv l IH]; intros fs fs' root H Hroot; simpl in H.
  - injection H as <-. by exists root.
  - unfold bind in H.
    destruct (declare_part kv fs) as [[[]|e] fs1] eqn:Hkv; [| done].
    apply declare_part_inv in Hkv as [[_ Hen]|(_ & _ & ->)]; [| by eapply IH].
    apply ensure_content_type_override_ok in Hen as (r0 & r1 & H0 & H1 & Hpre & _).
    rewrite Hroot in H0. injection H0 as <-.
    destruct (IH _ _ _ H H1) as (root' & Hroot' & Hpre').
    exists root'. split; [done |]. by etrans.
Qed.

Lemma fix_content_types_declares_from (l : list (string * string)) :
  forall (fs fs' : FS),
    (forall kv, kv ∈ l -> kv ∈ CONTENT_TYPES) ->
    for_each l declare_part fs = (Ok tt, fs') ->
    forall kv, kv ∈ l ->
      exists_ (path_join b_dir (lstrip_slash kv.1)) fs = true ->
      exists root', fs' !! ct_path = Some (File (XmlDoc root'))
                    /\ has_override root' kv.1 = true.
Proof.
  induction l as [|kv0 l IH]; intros fs fs' Hall H kv Hin Hthere.
  - by apply elem_of_nil in Hin.
  - simpl in H. unfold bind in H.
    destruct (declare_part kv0 fs) as [[[]|e] fs1] eqn:Hkv; [| done].
    apply elem_of_cons in Hin as [->|Hin].
    + apply declare_part_inv in Hkv as [[_ Hen]|(? & _)]; [| congruence].
      apply ensure_content_type_override_ok in Hen as (r0 & r1 & H0 & H1 & _ & Hhas).
      destruct (fix_content_types_keeps _ _ _ _ H H1) as (root' & Hroot' & Hpre).
      exists root'. split; [done |]. by eapply xpath_override_prefix.
    + apply (IH fs1 fs'); [| done | done |].
      * intros kv' ?. apply Hall, elem_of_cons. by right.
      * rewrite <- Hthere. apply exists_eq.
        apply declare_part_inv in Hkv as [[_ Hen]|(_ & _ & ->)]; [| done].
        eapply (touches_ensure_content_type_override (fun q => q = ct_path));
          [done | done |].
        apply part_is_not_manifest, Hall, elem_of_cons. by right.
Qed.

(** X9. After the manifest pass of the merge has run through, every style
    part of [CONTENT_TYPES] that is in the blank working directory is
    declared in the manifest, and the entries the manifest had are still
    there, in their order. *)
Theorem fix_content_types_declares_parts (fs fs' : FS) :
  fix_content_types fs = (Ok tt, fs') ->
  (forall partname content_type,
     (partname, content_type) ∈ CONTENT_TYPES ->
     exists_ (path_join b_dir (lstrip_slash partname)) fs = true ->
     exists root', fs' !! ct_path = Some (File (XmlDoc root'))
                   /\ has_override root' partname = true)
  /\ (forall root, fs !! ct_path = Some (File (XmlDoc root)) ->
      exists root', fs' !! ct_path = Some (File (XmlDoc root'))
                    /\ children root `prefix_of` children root')
  /\ forall q, q <> ct_path -> fs' !! q = fs !! q.
Proof.
  intros Hrun. split_and!.
  - intros partname content_type Hin Hthere.
    by apply (fix_content_types_declares_from CONTENT_TYPES fs fs'
                ltac:(done) Hrun (partname, content_type)).
  - intros root Hroot. by eapply fix_content_types_keeps.
  - intros q Hq. by eapply touches_fix_content_types_at.
Qed.

(** ** The merged package *)

Lemma under_b_dir_not_t_dir (q : string) :
  under b_dir q = true -> under t_dir q = false.
Proof.
  intros Hb. destruct (under t_dir q) eqn:Ht; [| done].
  apply under_t_dir_not_b_dir in Ht. congruence.
Qed.

(** A merge that runs through, pass by pass: the extraction, the three
    passes over the blank working directory, and the archive packed from
    what they leave. *)
Lemma merge_passes (blank_docx : bytes) (fs fs' : FS) :
  copy_styles_and_dependencies_from_template blank_docx tmp_template tmp_output fs
  = (Ok tt, fs') ->
  exists fsc fsd fse fsf members,
    (write_file tmp_output blank_docx;;
     unzip_docx tmp_template t_dir;;
     unzip_docx tmp_output b_dir) fs = (Ok tt, fsc)
    /\ copy_parts fsc = (Ok tt, fsd)
    /\ fix_content_types fsd = (Ok tt, fse)
    /\ fix_relationships fse = (Ok tt, fsf)
    /\ fs' !! tmp_output = Some (File (ZipArchive members))
    /\ forall rel data,
         (rel, data) ∈ members <-> fsf !! path_join b_dir rel = Some (File data).
Proof.
  unfold copy_styles_and_dependencies_from_template. io_unfold.
  destruct (write_file tmp_output blank_docx fs) as [[[]|e] fsa] eqn:Hw; [| done].
  destruct (unzip_docx tmp_template t_dir fsa) as [[[]|e] fsb] eqn:Hu1; [| done].
  destruct (unzip_docx tmp_output b_dir fsb) as [[[]|e] fsc] eqn:Hu2; [| done].
  destruct (copy_parts fsc) as [[[]|e] fsd] eqn:Hcopy; [| done].
  destruct (fix_content_types fsd) as [[[]|e] fse] eqn:Hct; [| done].
  destruct (fix_relationships fse) as [[[]|e] fsf] eqn:Hrel; [| done].
  destruct (zip_dir b_dir tmp_output fsf) as [[[]|e] fsg] eqn:Hzip; [| done].
  destruct (rmtree_ignore_errors t_dir fsg) as [[[]|e] fsh] eqn:Hrm1; [| done].
  intros Hrm2.
  apply zip_dir_ok in Hzip as (members & Hout & Hmem).
  exists fsc, fsd, fse, fsf, members.
  split_and!; [done.. | |].
  - rewrite (touches_rmtree_ignore_errors (fun q => under b_dir q = true)
               b_dir ltac:(auto) _ _ _ Hrm2) by done.
    rewrite (touches_rmtree_ignore_errors (fun q => under t_dir q = true)
               t_dir ltac:(auto) _ _ _ Hrm1) by done.
    done.
  - intros rel data. apply Hmem. intros E.
    apply (f_equal (under b_dir)) in E. by rewrite under_join in E.
Qed.

(** The two working directories after the extraction, on a closed disk:
    each holds the files of its archive. *)
Lemma merge_extraction (blank_docx : bytes) (tpl_members : list (string * bytes))
    (fs fsc : FS) :
  tree_closed fs ->
  fs !! tmp_template = Some (File (ZipArchive tpl_members)) ->
  (write_file tmp_output blank_docx;;
   unzip_docx tmp_template t_dir;;
   unzip_docx tmp_output b_dir) fs = (Ok tt, fsc) ->
  exists blank_members,
    blank_docx = ZipArchive blank_members
    /\ extracted t_dir tpl_members fsc
    /\ extracted b_dir blank_members fsc
    /\ (forall name data, fsc !! path_join t_dir name = Some (File data)
                          <-> archive_read tpl_members name = Some data)
    /\ (forall name data, fsc !! path_join b_dir name = Some (File data)
                          <-> archive_read blank_members name = Some data).
Proof.
  intros Hclosed Htpl. io_unfold.
  destruct (write_file tmp_output blank_docx fs) as [[[]|e] fsa] eqn:Hw; [| done].
  apply write_file_ok in Hw as ->.
  set (fsa := <[tmp_output := File blank_docx]> fs) in *.
  assert (Hsame_a : forall q, q <> tmp_output -> fsa !! q = fs !! q).
  { intros q Hq. subst fsa. by rewrite lookup_insert_ne. }
  destruct (unzip_docx tmp_template t_dir fsa) as [[[]|e] fsb] eqn:Hu1; [| done].
  intros Hu2.
  assert (Hsame_b : forall q, under t_dir q = false -> fsb !! q = fsa !! q).
  { intros q Hq. eapply (touches_unzip_docx tmp_template t_dir eq_refl); [done |].
    by rewrite Hq. }
  assert (Hsame_c : forall q, under b_dir q = false -> fsc !! q = fsb !! q).
  { intros q Hq. eapply (touches_unzip_docx tmp_output b_dir eq_refl); [done |].
    by rewrite Hq. }
  assert (Hc1 : fsa !! t_dir = None ->
                forall q, under t_dir q = true -> fsa !! q = None).
  { intros Hnone q Hq. rewrite Hsame_a in Hnone by done.
    destruct (decide (q = tmp_output)) as [->|Hne]; [done |].
    rewrite Hsame_a by done. by eapply tree_closed_none. }
  assert (Hc2 : fsb !! b_dir = None ->
                forall q, under b_dir q = true -> fsb !! q = None).
  { intros Hnone q Hq. pose proof (under_b_dir_not_t_dir q Hq) as Hqt.
    rewrite Hsame_b, Hsame_a in Hnone by done.
    destruct (decide (q = tmp_output)) as [->|Hne]; [done |].
    rewrite Hsame_b, Hsame_a by done. by eapply tree_closed_none. }
  destruct (unzip_docx_ok tmp_template t_dir _ _ eq_refl eq_refl Hc1 Hu1)
    as (ms1 & Hms1 & Hex1).
  destruct (unzip_docx_read tmp_template t_dir _ _ eq_refl eq_refl Hc1 Hu1)
    as (ms1' & Hms1' & Hrd1).
  rewrite Hms1 in Hms1'. injection Hms1' as <-.
  rewrite Hsame_a, Htpl in Hms1 by done. injection Hms1 as <-.
  destruct (unzip_docx_ok tmp_output b_dir _ _ eq_refl eq_refl Hc2 Hu2)
    as (ms2 & Hms2 & Hex2).
  destruct (unzip_docx_read tmp_output b_dir _ _ eq_refl eq_refl Hc2 Hu2)
    as (ms2' & Hms2' & Hrd2).
  rewrite Hms2 in Hms2'. injection Hms2' as <-.
  rewrite Hsame_b in Hms2 by done. subst fsa.
  rewrite lookup_insert_eq in Hms2. injection Hms2 as ->.
  exists ms2. split_and!; [done | | done | | done].
  - intros q n Hu Hq Hn. apply (Hex1 q n Hu Hq).
    rewrite <- Hn. symmetry. apply Hsame_c. by apply under_t_dir_not_b_dir.
  - intros name data. rewrite <- Hrd1. rewrite Hsame_c; [done |].
    apply under_b_dir_t_dir.
Qed.





Lemma touches_fix_relationships_at :
  touches (fun q => q ∈ dir_prefixes "" (dirname doc_rels_path)
                          ++ [dirname doc_rels_path; doc_rels_path])
          fix_relationships.
Proof.
  unfold fix_relationships.
  apply touches_bind; [apply (touches_ensure_relationship_at doc_rels_path) |].
  intros _.
  apply touches_bind; [apply (touches_ensure_relationship_at doc_rels_path) |].
  intros _.
  apply touches_bind; [apply touches_gets |]. intros [].
  - apply (touches_ensure_relationship_at doc_rels_path).
  - apply touches_ret.
Qed.



Lemma part_is_not_relationships (kv : string * string) :
  kv ∈ CONTENT_TYPES ->
  path_join b_dir (lstrip_slash kv.1) ∉
    dir_prefixes "" (dirname doc_rels_path) ++ [dirname doc_rels_path; doc_rels_path].
Proof.
  unfold CONTENT_TYPES. intros Hin.
  repeat (apply elem_of_cons in Hin as [->|Hin];
          [ apply (bool_decide_unpack _); by vm_compute |]).
  by apply elem_of_nil in Hin.
Qed.

Lemma manifest_is_not_relationships :
  ct_path ∉ dir_prefixes "" (dirname doc_rels_path)
            ++ [dirname doc_rels_path; doc_rels_path].
Proof. apply (bool_decide_unpack _). by vm_compute. Qed.

(** X11. The manifest of the merged package declares the style parts the
    package holds: for every part name of [CONTENT_TYPES] that is a member
    of the merged package, the member [[Content_Types].xml] has an override
    for it. *)
Theorem merged_manifest_declares_style_parts (blank_docx : bytes) (fs fs' : FS) :
  copy_styles_and_dependencies_from_template blank_docx tmp_template tmp_output fs
  = (Ok tt, fs') ->
  exists members,
    fs' !! tmp_output = Some (File (ZipArchive members))
    /\ forall partname content_type data,
         (partname, content_type) ∈ CONTENT_TYPES ->
         (lstrip_slash partname, data) ∈ members ->
         exists root,
           ("[Content_Types].xml", XmlDoc root) ∈ members
           /\ has_override root partname = true.
Proof.
  intros Hrun.
  destruct (merge_passes _ _ _ Hrun)
    as (fsc & fsd & fse & fsf & members & Hext & Hcopy & Hct & Hrel & Hout & Hmem).
  exists members. split; [done |].
  intros partname content_type data Hin Hpart.
  apply Hmem in Hpart.
  rewrite (touches_fix_relationships_at _ _ _ Hrel) in Hpart
    by apply (part_is_not_relationships _ Hin).
  rewrite (touches_fix_content_types_at _ _ _ Hct) in Hpart
    by apply (part_is_not_manifest _ Hin).
  destruct (fix_content_types_declares_from CONTENT_TYPES fsd fse ltac:(done) Hct
              _ Hin (exists_true _ _ _ Hpart)) as (root & Hroot & Hhas).
  exists root. split; [| done]. apply Hmem.
  rewrite (touches_fix_relationships_at _ _ _ Hrel)
    by apply manifest_is_not_relationships.
  done.
Qed.

(** X12. The merged package keeps the rest of the blank package: at every
    name that is not a destination of the copy pass, the manifest or the
    relationship table of the main document, the merged package has a member
    exactly when the blank package has one, with the same content. *)
Theorem merge_keeps_other_parts
    (blank_docx : bytes) (tpl_members : list (string * bytes)) (fs fs' : FS) :
  tree_closed fs ->
  fs !! tmp_template = Some (File (ZipArchive tpl_members)) ->
  copy_styles_and_dependencies_from_template blank_docx tmp_template tmp_output fs
  = (Ok tt, fs') ->
  exists blank_members members,
    blank_docx = ZipArchive blank_members
    /\ fs' !! tmp_output = Some (File (ZipArchive members))
    /\ forall name data,
         path_join b_dir name ∉ merge_targets ->
         ((name, data) ∈ members <-> archive_read blank_members name = Some data).
Proof.
  intros Hclosed Htpl Hrun.
  destruct (merge_passes _ _ _ Hrun)
    as (fsc & fsd & fse & fsf & members & Hext & Hcopy & Hct & Hrel & Hout & Hmem).
  destruct (merge_extraction _ _ _ _ Hclosed Htpl Hext)
    as (blank_members & -> & Hex_t & Hex_b & Hrd_t & Hrd_b).
  exists blank_members, members. split_and!; [done.. |].
  intros name data Hout_of. unfold merge_targets in Hout_of.
  apply not_elem_of_app in Hout_of as [Hcopies Hout_of].
  apply not_elem_of_app in Hout_of as [Hne_ct%not_elem_of_cons Hne_rels].
  rewrite Hmem.
  rewrite (touches_fix_relationships_at _ _ _ Hrel) by done.
  rewrite (touches_fix_content_types_at _ _ _ Hct) by tauto.
  rewrite (copy_parts_frame (path_join b_dir name) PARTS_TO_COPY _ _ _ Hcopy).
  - apply Hrd_b.
  - intros part Hin Ht. exfalso. apply Hcopies.
    apply list_elem_of_bind. by exists part.
Qed.

(** ** The tool, on every input *)

Lemma no_new_directory_touches {A} (P : string -> Prop) (q : string) (m : io A) :
  touches P m -> ~ P q -> no_new_directory q m.
Proof. intros Ht Hq fs r fs' Hrun. by rewrite (Ht _ _ _ Hrun q Hq). Qed.

Lemma no_new_directory_bind {A B} (q : string) (m : io A) (k : A -> io B) :
  no_new_directory q m -> (forall a, no_new_directory q (k a)) ->
  no_new_directory q (m ≫= k).
Proof.
  intros Hm Hk fs r fs' H. io_unfold.
  destruct (m fs) as [[a|e] fs1] eqn:E.
  - intros Hq. eapply Hk; [done |]. by eapply Hm.
  - injection H as <- <-. by eapply Hm.
Qed.

Lemma no_new_directory_write_file (q p : string) (data : bytes) :
  no_new_directory q (write_file p data).
Proof.
  intros fs r fs' H Hq. unfold write_file in H.
  repeat case_match; simplify_eq; try done;
    (destruct (decide (q = p)) as [->|Hne];
     [by rewrite lookup_insert_eq | by rewrite lookup_insert_ne]).
Qed.

Lemma no_new_directory_merge (blank_docx : bytes) :
  no_new_directory tmp_output
    (copy_styles_and_dependencies_from_template blank_docx tmp_template tmp_output).
Proof.
  unfold copy_styles_and_dependencies_from_template.
  apply no_new_directory_bind; [apply no_new_directory_write_file |]. intros _.
  apply no_new_directory_bind.
  { eapply no_new_directory_touches;
      [by apply (touches_unzip_docx tmp_template t_dir) | done]. }
  intros _. apply no_new_directory_bind.
  { eapply no_new_directory_touches;
      [by apply (touches_unzip_docx tmp_output b_dir) | done]. }
  intros _. apply no_new_directory_bind.
  { eapply no_new_directory_touches; [apply touches_copy_parts | done]. }
  intros _. apply no_new_directory_bind.
  { eapply no_new_directory_touches; [apply touches_fix_content_types | done]. }
  intros _. apply no_new_directory_bind.
  { eapply no_new_directory_touches; [apply touches_fix_relationships | done]. }
  intros _. apply no_new_directory_bind.
  { unfold zip_dir.
    apply no_new_directory_bind; [apply no_new_directory_write_file |]. intros _.
    apply no_new_directory_bind.
    - eapply (no_new_directory_touches (fun _ => False));
        [apply touches_gets | tauto].
    - intros members. apply no_new_directory_write_file. }
  intros _. apply no_new_directory_bind.
  { eapply (no_new_directory_touches (fun q => under t_dir q = true));
      [apply touches_rmtree_ignore_errors; auto | done]. }
  intros _.
  eapply (no_new_directory_touches (fun q => under b_dir q = true));
    [apply touches_rmtree_ignore_errors; auto | done].
Qed.

(** The [finally] clause, when it runs through, leaves neither temporary
    file; it runs through when neither path is a directory. *)
Lemma remove_temporary_files_inv (fs fs' : FS) :
  remove_temporary_files fs = (Ok tt, fs') ->
  fs' !! tmp_template = None /\ fs' !! tmp_output = None.
Proof.
  unfold remove_temporary_files. io_unfold.
  assert (Hrm : forall p (fs1 fs2 : FS),
    (if exists_ p fs1 then remove p else fun fs => (Ok tt, fs)) fs1 = (Ok tt, fs2) ->
    fs2 !! p = None /\ forall q, q <> p -> fs2 !! q = fs1 !! q).
  { intros p fs1 fs2.
    destruct (fs1 !! p) as [[data|]|] eqn:E.
    - rewrite (exists_true _ _ _ E). unfold remove. rewrite E. intros [= <-].
      split; [by rewrite lookup_delete_eq |]. intros q Hq.
      by rewrite lookup_delete_ne.
    - rewrite (exists_true _ _ _ E). unfold remove. by rewrite E.
    - rewrite (exists_false _ _ E). by intros [= <-]. }
  destruct ((if exists_ tmp_template fs then remove tmp_template
             else fun fs => (Ok tt, fs)) fs) as [[[]|e] fs1] eqn:H1; [| done].
  intros H2. apply Hrm in H1 as [Ht _]. apply Hrm in H2 as [Ho Hsame].
  split; [| done]. by rewrite Hsame.
Qed.

Lemma remove_temporary_files_runs (fs : FS) :
  fs !! tmp_template <> Some Dir -> fs !! tmp_output <> Some Dir ->
  exists fs', remove_temporary_files fs = (Ok tt, fs').
Proof.
  intros Ht Ho. unfold remove_temporary_files. io_unfold.
  assert (Hrm : forall p (fs1 : FS),
    fs1 !! p <> Some Dir ->
    exists fs2,
      (if exists_ p fs1 then remove p else fun fs => (Ok tt, fs)) fs1 = (Ok tt, fs2)
      /\ forall q, q <> p -> fs2 !! q = fs1 !! q).
  { intros p fs1 Hp.
    destruct (fs1 !! p) as [[data|]|] eqn:E; [| done |].
    - rewrite (exists_true _ _ _ E). unfold remove. rewrite E. eexists.
      split; [done |]. intros q Hq. by rewrite lookup_delete_ne.
    - rewrite (exists_false _ _ E). eauto. }
  destruct (Hrm tmp_template fs Ht) as (fs1 & -> & Hsame).
  destruct (Hrm tmp_output fs1) as (fs2 & -> & _); [by rewrite Hsame | eauto].
Qed.

Lemma lower_app (s r : string) : lower (s ++ r) = (lower s ++ lower r)%string.
Proof.
  induction s as [|c s IH]; [done |].
  rewrite str_app_cons. simpl. by rewrite IH, str_app_cons.
Qed.

Lemma endswith_app (s suffix : string) : endswith (s ++ suffix) suffix = true.
Proof.
  unfold endswith. rewrite str_length_app.
  replace (String.length s + String.length suffix - String.length suffix)
    with (String.length s) by lia.
  rewrite drop_str_app, String.eqb_refl, andb_true_r.
  apply Nat.leb_le. lia.
Qed.

Section ToolCoverage.

Variable blank_docx : bytes.
Variable Document_open : bytes -> result Document.
Variable Document_save : Document -> result bytes.
Variable create_blob_message :
  option bytes -> string -> string -> result ToolInvokeMessage.

Local Abbreviation body_of' :=
  (generate_body blank_docx Document_open Document_save).
Local Abbreviation generate' :=
  (generate_docx_with_template blank_docx Document_open Document_save).
Local Abbreviation invoke' :=
  (_invoke blank_docx Document_open Document_save create_blob_message).
Local Abbreviation invoke_dict' :=
  (invoke_tool blank_docx Document_open Document_save create_blob_message).

Lemma no_new_directory_body (template_bytes : bytes) (markdown_content q : string) :
  q = tmp_template \/ q = tmp_output ->
  no_new_directory q (body_of' template_bytes markdown_content).
Proof.
  intros Hq. unfold generate_body.
  apply no_new_directory_bind; [apply no_new_directory_write_file |]. intros _.
  apply no_new_directory_bind.
  { destruct Hq as [->| ->].
    - eapply no_new_directory_touches; [apply touches_merge |].
      by intros [|[|]].
    - apply no_new_directory_merge. }
  intros _. apply no_new_directory_bind.
  { eapply (no_new_directory_touches (fun _ => False));
      [apply touches_read_file | tauto]. }
  intros data. apply no_new_directory_bind.
  { eapply (no_new_directory_touches (fun _ => False));
      [apply touches_lift | tauto]. }
  intros doc. apply no_new_directory_bind.
  { eapply (no_new_directory_touches (fun _ => False));
      [apply touches_lift | tauto]. }
  intros doc'.
  eapply (no_new_directory_touches (fun _ => False)); [apply touches_lift | tauto].
Qed.

(** X13. [generate_docx_with_template] raises nothing of its own: on a disk
    where neither temporary path is a directory it returns, with the bytes
    of the document when its body has run through and with [None] when the
    body has raised, and both temporary files are gone when it returns. *)
Theorem generate_docx_with_template_returns
    (template_bytes : bytes) (markdown_content : string) (fs : FS) :
  fs !! tmp_template <> Some Dir -> fs !! tmp_output <> Some Dir ->
  exists fs',
    generate' template_bytes markdown_content fs
    = (match (body_of' template_bytes markdown_content fs).1 with
       | Ok final => Ok (Some final)
       | Raise _ => Ok None
       end, fs')
    /\ fs' !! tmp_template = None /\ fs' !! tmp_output = None.
Proof.
  intros Ht Ho.
  unfold generate_docx_with_template, try_finally, try_except. io_unfold.
  destruct (body_of' template_bytes markdown_content fs) as [r fs1] eqn:Hbody.
  assert (Ht1 : fs1 !! tmp_template <> Some Dir).
  { eapply no_new_directory_body; [by left | done | done]. }
  assert (Ho1 : fs1 !! tmp_output <> Some Dir).
  { eapply no_new_directory_body; [by right | done | done]. }
  destruct (remove_temporary_files_runs fs1 Ht1 Ho1) as [fs' Hrm].
  exists fs'. destruct (remove_temporary_files_inv _ _ Hrm) as [? ?].
  destruct r as [final|e]; simpl; rewrite Hrm; done.
Qed.

(** Past line 466 the invocation never raises and yields exactly one
    message. *)
Lemma invoke_one_message (tool_parameters : parameters) (fs : FS) :
  exists message fs', invoke' tool_parameters fs = (Ok [message], fs').
Proof.
  unfold _invoke, try_except. io_unfold.
  destruct (template_bytes_of (model tool_parameters)) as [b|e]; [| eauto].
  destruct (validate_template b) as [[]|e]; [| eauto].
  destruct (generate' b (query tool_parameters) fs) as [[final|e] fs1]; [| eauto].
  destruct (create_blob_message final DOCX_MIME (filename_of tool_parameters));
    eauto.
Qed.

(** X14. The method on the parameter dictionary raises only at lines
    462-465, which stand before the [try]: [KeyError] when the key [model]
    is missing, [KeyError] when [model] is there and the key [query] is
    missing, and [AttributeError] when both are there and the value under
    [output_filename] is an object without a [lower] attribute; the disk
    is untouched then and no message is yielded.  With both keys there, the query a [str], and the
    file name a [str] or missing, it never raises and yields exactly one
    message, whatever the disk, python-docx and the host do. *)
Theorem invoke_raises_only_on_its_parameters
    (tool_parameters : parameter_dict) (fs : FS) :
  match item_model tool_parameters, item_query tool_parameters,
        item_output_filename tool_parameters with
  | None, _, _ =>
      invoke_dict' tool_parameters fs = (Raise (KeyError "'model'"), fs)
  | Some _, None, _ =>
      invoke_dict' tool_parameters fs = (Raise (KeyError "'query'"), fs)
  | Some _, Some _, Some (WithoutLower type_name) =>
      invoke_dict' tool_parameters fs
      = (Raise (AttributeError
                  ("'" ++ type_name ++ "' object has no attribute 'lower'")), fs)
  | Some template_file, Some markdown_content, Some (StrValue name) =>
      invoke_dict' tool_parameters fs
      = invoke' (mkParameters template_file markdown_content (Some name)) fs
      /\ exists message fs', invoke_dict' tool_parameters fs = (Ok [message], fs')
  | Some template_file, Some markdown_content, None =>
      invoke_dict' tool_parameters fs
      = invoke' (mkParameters template_file markdown_content None) fs
      /\ exists message fs', invoke_dict' tool_parameters fs = (Ok [message], fs')
  end.
Proof.
  unfold invoke_tool, fetch_parameters.
  destruct (item_model tool_parameters) as [template_file|]; [| done].
  destruct (item_query tool_parameters) as [markdown_content|]; [| done].
  destruct (item_output_filename tool_parameters) as [[name|type_name]|];
    [| done |]; (split; [done | apply invoke_one_message]).
Qed.

(** X15. The invocation changes nothing on the disk but its two temporary
    files and what lies in its two working directories, however it ends. *)
Theorem invoke_changes_only_its_files
    (tool_parameters : parameters) (fs fs' : FS)
    (r : result (list ToolInvokeMessage)) (q : string) :
  invoke' tool_parameters fs = (r, fs') ->
  q <> tmp_template -> q <> tmp_output ->
  under t_dir q = false -> under b_dir q = false ->
  fs' !! q = fs !! q.
Proof.
  intros Hrun Ht Ho Htd Hbd.
  eapply touches_invoke; [exact Hrun |].
  intros [|[|[|]]]; congruence.
Qed.

(** X16. An object that is neither a file object, nor readable, nor bytes:
    the invocation yields the text message of the [TypeError] and leaves
    the disk as it is. *)
Theorem unsupported_template_object (tool_parameters : parameters) (fs : FS) :
  model tool_parameters = OtherObject ->
  invoke' tool_parameters fs
  = (Ok [TextMessage ("生成带模板样式的docx时出错: "
                      ++ "模板文件格式错误，需要Dify文件对象或字节流")], fs).
Proof. intros H. unfold _invoke, try_except. io_unfold. by rewrite H. Qed.

End ToolCoverage.

(** X17. The file name of the blob always ends in [.docx], whatever the
    case of the letters: a name that does is kept, another gets [.docx]
    appended, and the default name is kept. *)
Theorem filename_of_ends_in_docx (tool_parameters : parameters) :
  endswith (lower (filename_of tool_parameters)) ".docx" = true
  /\ (forall name, output_filename tool_parameters = Some name ->
        filename_of tool_parameters
        = if endswith (lower name) ".docx" then name else (name ++ ".docx")%string)
  /\ (output_filename tool_parameters = None ->
        filename_of tool_parameters = "高校毕业生就业情况分析报告.docx").
Proof.
  unfold filename_of. split_and!.
  - set (name := default _ (output_filename tool_parameters)).
    destruct (endswith (lower name) ".docx") eqn:E; [done |].
    rewrite lower_app. apply endswith_app.
  - by intros name ->.
  - by intros ->.
Qed.

(** ** The line walker *)

Lemma lacks_app (c : ascii) (s r : string) :
  lacks c (s ++ r) = lacks c s && lacks c r.
Proof.
  induction s as [|a s IH]; [done |].
  rewrite str_app_cons. simpl. by rewrite IH, andb_assoc.
Qed.

Lemma prefix_other_char (a c : ascii) (p s : string) :
  Ascii.eqb a c = false -> String.prefix (String c p) (String a s) = false.
Proof.
  intros H. rewrite prefix_cons. destruct (ascii_dec c a) as [->|]; [| done].
  by rewrite Ascii.eqb_refl in H.
Qed.

(** The search passes over text without [>]. *)
Lemma re_search_skip (dotall : bool) (closes : list string) (pre s : string) :
  lacks ">" pre = true ->
  re_search dotall [">"] closes (pre ++ s) = re_search dotall [">"] closes s.
Proof.
  induction pre as [|a pre IH]; [done |]. simpl.
  intros [Ha Hpre]%andb_true_iff. apply negb_true_iff in Ha.
  unfold match_here. cbn [prefix_any].
  rewrite (prefix_other_char a ">" "" _ Ha). by apply IH.
Qed.

(** The lazy group runs over text without [<] and without a line feed up
    to the closing tag. *)
Lemma lazy_until_text (dotall : bool) (close text tail : string) (c0 : ascii) (close' : string) :
  close = String c0 close' -> c0 = "<"%char ->
  lacks "<" text = true -> (dotall = false -> lacks newline text = true) ->
  lazy_until dotall [close] (text ++ close ++ tail)
  = Some (text, String.length text + String.length close).
Proof.
  intros Hclose -> Htext Hnl. induction text as [|a text IH].
  - change ("" ++ close ++ tail)%string with (close ++ tail)%string.
    destruct (close ++ tail)%string eqn:E.
    + subst close. by rewrite str_app_cons in E.
    + rewrite <- E. unfold lazy_until.
      assert (Hp : prefix_any [close] (close ++ tail) = Some close).
      { simpl. by rewrite prefix_app. }
      rewrite E in *. by rewrite Hp.
  - simpl in Htext. apply andb_true_iff in Htext as [Ha Htext].
    apply negb_true_iff in Ha. rewrite str_app_cons.
    cbn [lazy_until prefix_any]. rewrite Hclose at 1.
    rewrite (prefix_other_char a "<" close' _ Ha).
    assert (Hn : negb dotall && Ascii.eqb a newline = false).
    { destruct dotall; [done |]. specialize (Hnl eq_refl). simpl in Hnl.
      apply andb_true_iff in Hnl as [Hn _]. by apply negb_true_iff in Hn. }
    rewrite Hn, IH; [done | done |].
    intros Hd. specialize (Hnl Hd). simpl in Hnl.
    by apply andb_true_iff in Hnl as [_ ?].
Qed.

Lemma prefix_nil (s : string) : String.prefix "" s = true.
Proof. by destruct s. Qed.

Lemma search_div_tagged (pre text tail : string) :
  lacks ">" pre = true -> lacks "<" text = true -> lacks newline text = true ->
  search_div (pre ++ ">" ++ text ++ "</div>" ++ tail) = Some text.
Proof.
  intros Hpre Htext Hnl. unfold search_div. rewrite re_search_skip by done.
  change (">" ++ text ++ "</div>" ++ tail)%string
    with (String ">" (text ++ "</div>" ++ tail)).
  cbn [re_search]. unfold match_here. cbn [prefix_any].
  rewrite prefix_cons. destruct (ascii_dec ">" ">"); [| done].
  rewrite prefix_nil. cbn [String.length drop_str].
  by rewrite (lazy_until_text false "</div>" text tail "<" "/div>").
Qed.

Lemma div_branch_opener (opener sty more : string) :
  (opener, sty) ∈ div_styles ->
  div_branch div_styles (opener ++ more) = Some sty
  /\ lacks ">" opener = true.
Proof.
  unfold div_styles. intros Hin.
  repeat (apply elem_of_cons in Hin as [[= -> ->]|Hin];
          [ split; [| by vm_compute];
            unfold div_branch, startswith; rewrite ?prefix_app;
            by vm_compute |]).
  by apply elem_of_nil in Hin.
Qed.

(** The outcomes of adding a paragraph: the paragraph with its style and
    one run, [KeyError] or [ValueError] from the style, [ValueError] from
    the text. *)
Lemma add_styled_paragraph_cases (doc : Document) (name text : string) :
  add_styled_paragraph doc name text
  = match check_style doc name PARAGRAPH with
    | Raise e => Raise e
    | Ok _ =>
        if xml_compatible text
        then Ok (append_node doc
                   (ParagraphNode
                      (mkParagraph (Some name) None [mkRun text None None])))
        else Raise (ValueError XML_INCOMPATIBLE)
    end.
Proof.
  unfold add_styled_paragraph, run_of_text.
  destruct (check_style doc name PARAGRAPH); [| done]. simpl.
  by destruct (xml_compatible text).
Qed.

(** The turn of the loop on a line of a [div] class that closes its tag and
    its element, the text free of [<]. *)
Lemma loop_body_div_line
    (opener sty attrs text tail raw : string) (rest : list string) (doc : Document) :
  (opener, sty) ∈ div_styles ->
  strip raw = (opener ++ attrs ++ ">" ++ text ++ "</div>" ++ tail)%string ->
  lacks ">" attrs = true ->
  lacks "<" text = true -> lacks newline text = true ->
  loop_body raw rest doc
  = rbind (add_styled_paragraph doc sty text) (fun d => Ok (0, d)).
Proof.
  intros Hin Hline Hattrs Htext Hnl.
  destruct (div_branch_opener opener sty
              (attrs ++ ">" ++ text ++ "</div>" ++ tail) Hin) as [Hbranch Hopen].
  unfold loop_body. rewrite Hline, Hbranch.
  rewrite <- (str_app_assoc opener attrs).
  rewrite search_div_tagged; [done | | done | done].
  by rewrite lacks_app, Hopen, Hattrs.
Qed.

(** X18. A line that opens one of the five [div] classes, closes the tag
    and closes the element, the text between the tag and the first
    [</div>] free of [<].  When the document has the paragraph style of
    the class and XML can hold the text, the line becomes one paragraph in
    that style with the text as its one run, what follows on the line
    being dropped, and the walk goes on with the next line.  When the
    style is missing or is no paragraph style the turn raises the error of
    the style, and when XML cannot hold the text it raises [ValueError];
    the walk then ends with that error. *)
Theorem div_line_becomes_paragraph
    (opener sty attrs text tail raw : string) (rest : list string) (doc : Document) :
  (opener, sty) ∈ div_styles ->
  strip raw = (opener ++ attrs ++ ">" ++ text ++ "</div>" ++ tail)%string ->
  lacks ">" attrs = true ->
  lacks "<" text = true -> lacks newline text = true ->
  match check_style doc sty PARAGRAPH with
  | Raise e =>
      loop_body raw rest doc = Raise e
      /\ walk_lines 0 (raw :: rest) doc = Raise e
  | Ok _ =>
      if xml_compatible text
      then loop_body raw rest doc
           = Ok (0, append_node doc
                      (ParagraphNode
                         (mkParagraph (Some sty) None [mkRun text None None])))
           /\ walk_lines 0 (raw :: rest) doc
              = walk_lines 0 rest
                  (append_node doc
                     (ParagraphNode
                        (mkParagraph (Some sty) None [mkRun text None None])))
      else loop_body raw rest doc = Raise (ValueError XML_INCOMPATIBLE)
           /\ walk_lines 0 (raw :: rest) doc = Raise (ValueError XML_INCOMPATIBLE)
  end.
Proof.
  intros Hin Hline Hattrs Htext Hnl.
  pose proof (loop_body_div_line opener sty attrs text tail raw rest doc
                Hin Hline Hattrs Htext Hnl) as Hbody.
  rewrite add_styled_paragraph_cases in Hbody.
  cbn [walk_lines]. rewrite Hbody.
  destruct (check_style doc sty PARAGRAPH); [| done].
  by destruct (xml_compatible text).
Qed.

Lemma prefix_shorter (p q s : string) :
  String.prefix p s = false -> String.prefix (p ++ q) s = false.
Proof.
  intros Hp. destruct (String.prefix (p ++ q) s) eqn:E; [| done].
  apply prefix_inv in E as [r ->]. by rewrite str_app_assoc, prefix_app in Hp.
Qed.

Lemma div_branch_other (line : string) :
  startswith line "<d" = false -> div_branch div_styles line = None.
Proof.
  unfold startswith. intros H.
  assert (Hno : forall class, String.prefix (div_open class) line = false).
  { intros class.
    change (div_open class) with ("<d" ++ ("iv class=" ++ quoted class))%string.
    by apply prefix_shorter. }
  unfold div_styles, div_branch, startswith. by rewrite !Hno.
Qed.

(** The turn of the loop on a line that is empty once stripped or starts
    with a closing tag. *)
Lemma loop_body_blank (raw : string) (rest : list string) (doc : Document) :
  strip raw = "" \/ startswith (strip raw) "</" = true ->
  loop_body raw rest doc = Ok (0, doc).
Proof.
  unfold loop_body. intros [H|H].
  - by rewrite H.
  - unfold startswith in H.
    destruct (strip raw) as [|a [|b line]] eqn:E; [done | |].
    { rewrite prefix_cons in H. by destruct (ascii_dec "<" a). }
    rewrite !prefix_cons in H.
    destruct (ascii_dec "<" a) as [<-|]; [| done].
    destruct (ascii_dec "/" b) as [<-|]; [| done].
    rewrite div_branch_other by done.
    unfold startswith. rewrite !prefix_cons.
    repeat (destruct (ascii_dec _ _); try done).
    by rewrite prefix_nil, andb_false_r.
Qed.

(** The turn of the loop on a line that does not start with [<]. *)
Lemma loop_body_plain (raw : string) (rest : list string) (doc : Document)
    (c : ascii) (r : string) :
  strip raw = String c r -> c <> "<"%char ->
  loop_body raw rest doc
  = rbind (add_styled_paragraph doc "A正文" (strip raw)) (fun d => Ok (0, d)).
Proof.
  unfold loop_body. intros E Hc. rewrite E.
  assert (Hlt : forall p, String.prefix (String "<" p) (String c r) = false).
  { intros p. rewrite prefix_cons. by destruct (ascii_dec "<" c) as [<-|]. }
  rewrite div_branch_other by apply Hlt.
  unfold startswith. rewrite !Hlt. done.
Qed.

(** X19. The lines outside the tags.  A line that is not empty once
    stripped and whose first character is then not [<]: when the document
    has the paragraph style [A正文] and XML can hold the stripped line, the
    line becomes one paragraph of that style holding the stripped line,
    and the walk goes on with the next line; when the style is missing or
    is no paragraph style the turn raises the error of the style, and when
    XML cannot hold the line it raises [ValueError]. *)
Theorem untagged_line (raw : string) (rest : list string) (doc : Document)
    (c : ascii) (r : string) :
  strip raw = String c r -> c <> "<"%char ->
  match check_style doc "A正文" PARAGRAPH with
  | Raise e =>
      loop_body raw rest doc = Raise e
      /\ walk_lines 0 (raw :: rest) doc = Raise e
  | Ok _ =>
      if xml_compatible (strip raw)
      then loop_body raw rest doc
           = Ok (0, append_node doc
                      (ParagraphNode
                         (mkParagraph (Some "A正文") None
                            [mkRun (strip raw) None None])))
           /\ walk_lines 0 (raw :: rest) doc
              = walk_lines 0 rest
                  (append_node doc
                     (ParagraphNode
                        (mkParagraph (Some "A正文") None
                           [mkRun (strip raw) None None])))
      else loop_body raw rest doc = Raise (ValueError XML_INCOMPATIBLE)
           /\ walk_lines 0 (raw :: rest) doc = Raise (ValueError XML_INCOMPATIBLE)
  end.
Proof.
  intros E Hc.
  pose proof (loop_body_plain raw rest doc c r E Hc) as Hbody.
  rewrite add_styled_paragraph_cases in Hbody.
  cbn [walk_lines]. rewrite Hbody.
  destruct (check_style doc "A正文" PARAGRAPH); [| done].
  by destruct (xml_compatible (strip raw)).
Qed.

(** X29. A line that is empty once stripped, or then starts with a closing
    tag [</], adds nothing and raises nothing: the document is as it was
    and the walk goes on with the next line. *)
Theorem blank_or_closing_line (raw : string) (rest : list string) (doc : Document) :
  strip raw = "" \/ startswith (strip raw) "</" = true ->
  loop_body raw rest doc = Ok (0, doc)
  /\ walk_lines 0 (raw :: rest) doc = walk_lines 0 rest doc.
Proof.
  intros H. pose proof (loop_body_blank raw rest doc H) as Hbody.
  split; [done |]. cbn [walk_lines]. by rewrite Hbody.
Qed.

Lemma capture_table_closed (content : list string) (closing : string)
    (after : list string) :
  Forall (fun l => startswith (strip l) "</table>" = false) content ->
  startswith (strip closing) "</table>" = true ->
  capture_table (content ++ closing :: after) = content.
Proof.
  intros Hcontent Hclose. induction Hcontent as [|l content Hl _ IH]; simpl.
  - by rewrite Hclose.
  - by rewrite Hl, IH.
Qed.

Lemma capture_table_open (content : list string) :
  Forall (fun l => startswith (strip l) "</table>" = false) content ->
  capture_table content = content.
Proof.
  intros Hcontent. induction Hcontent as [|l content Hl _ IH]; simpl; [done |].
  by rewrite Hl, IH.
Qed.

Lemma walk_lines_skip (content after : list string) (doc : Document) :
  walk_lines (length content) (content ++ after) doc = walk_lines 0 after doc.
Proof. induction content as [|l content IH]; [done | apply IH]. Qed.

Lemma walk_lines_skip_all (n : nat) (content : list string) (doc : Document) :
  length content <= n -> walk_lines n content doc = Ok doc.
Proof.
  revert n. induction content as [|l content IH]; intros n Hn; [done |].
  destruct n as [|n]; [simpl in Hn; lia |]. apply IH. simpl in Hn. lia.
Qed.

(** X20. A table region.  The lines between a line that starts with
    [<table>] and the first line that starts with [</table>] are read as
    the text of one table and are not walked as lines of their own; the
    walk goes on after the closing line.  Without a closing line the region
    runs to the end of the input. *)
Theorem table_region_is_consumed
    (raw : string) (content : list string) (doc : Document) :
  startswith (strip raw) "<table>" = true ->
  Forall (fun l => startswith (strip l) "</table>" = false) content ->
  (forall closing after,
     startswith (strip closing) "</table>" = true ->
     walk_lines 0 (raw :: content ++ closing :: after) doc
     = rbind (add_table_from doc (extract_table_data (join_lines content)))
             (walk_lines 0 after))
  /\ walk_lines 0 (raw :: content) doc
     = add_table_from doc (extract_table_data (join_lines content)).
Proof.
  intros Hraw Hcontent. split.
  - intros closing after Hclose. cbn [walk_lines]. unfold loop_body.
    rewrite (table_line_not_div _ Hraw), Hraw.
    rewrite (capture_table_closed _ _ _ Hcontent Hclose).
    destruct (add_table_from doc _) as [d|e]; [| done]. simpl.
    rewrite (cons_middle closing content after), app_assoc.
    replace (S (length content)) with (length (content ++ [closing]))
      by (rewrite length_app; simpl; lia).
    apply walk_lines_skip.
  - cbn [walk_lines]. unfold loop_body.
    rewrite (table_line_not_div _ Hraw), Hraw.
    rewrite (capture_table_open _ Hcontent).
    destruct (add_table_from doc _) as [d|e]; [| done]. simpl.
    apply walk_lines_skip_all. lia.
Qed.

Lemma add_styled_paragraph_appends (doc d : Document) (name text : string) :
  add_styled_paragraph doc name text = Ok d ->
  exists node, d = append_node doc node.
Proof.
  unfold add_styled_paragraph.
  destruct (check_style doc name PARAGRAPH); [| done]. simpl.
  destruct (run_of_text text); [| done]. simpl.
  intros [= <-]. eauto.
Qed.

Lemma add_table_from_appends (doc d : Document) (table_data : list (list string)) :
  add_table_from doc table_data = Ok d ->
  d = doc \/ exists node, d = append_node doc node.
Proof.
  unfold add_table_from. destruct table_data as [|header data]; [intros [= <-]; auto |].
  destruct (check_style doc "Table Grid" TABLE); [| done]. simpl.
  destruct (fill_cells _ _ _ _); [| done]. simpl.
  destruct (add_data_rows _ _ _); [| done]. simpl.
  intros [= <-]. eauto.
Qed.

Lemma loop_body_appends (raw : string) (rest : list string) (doc d : Document)
    (moved : nat) :
  loop_body raw rest doc = Ok (moved, d) ->
  d = doc \/ exists node, d = append_node doc node.
Proof.
  unfold loop_body.
  destruct (div_branch div_styles (strip raw)) as [sty|].
  - destruct (search_div (strip raw)) as [text|]; [| intros [= _ <-]; auto].
    destruct (add_styled_paragraph doc sty text) as [d'|] eqn:E; [| done].
    intros [= _ <-]. right. by eapply add_styled_paragraph_appends.
  - destruct (startswith (strip raw) "<table>").
    + destruct (add_table_from doc _) as [d'|] eqn:E; [| done].
      intros [= _ <-]. by eapply add_table_from_appends.
    + destruct (_ && _); [| intros [= _ <-]; auto].
      destruct (add_styled_paragraph doc _ _) as [d'|] eqn:E; [| done].
      intros [= _ <-]. right. by eapply add_styled_paragraph_appends.
Qed.

Lemma walk_lines_appends (lines : list string) :
  forall (skip : nat) (doc doc' : Document),
    walk_lines skip lines doc = Ok doc' ->
    exists nodes,
      doc' = mkDocument (package doc) (styles doc) (body doc ++ nodes)
      /\ length nodes <= length lines - skip.
Proof.
  induction lines as [|raw rest IH]; intros skip doc doc' H.
  - injection H as <-. exists []. rewrite app_nil_r. by destruct doc.
  - cbn [walk_lines] in H. destruct skip as [|k].
    + destruct (loop_body raw rest doc) as [[moved d]|e] eqn:Hbody; [| done].
      simpl in H. destruct (IH _ _ _ H) as (nodes & -> & Hlen).
      destruct (loop_body_appends _ _ _ _ _ Hbody) as [->|[node ->]].
      * exists nodes. split; [done |]. simpl. lia.
      * exists (node :: nodes). simpl. rewrite <- app_assoc. split; [done |].
        simpl. lia.
    + destruct (IH _ _ _ H) as (nodes & -> & Hlen). exists nodes.
      split; [done |]. simpl. lia.
Qed.

(** X21. The build only appends.  When it runs through, the document has
    the package, the styles and the body it had, followed by the new
    paragraphs and tables, at most one for each line of the input. *)
Theorem build_document_appends (doc doc' : Document) (markdown_content : string) :
  build_document doc markdown_content = Ok doc' ->
  exists nodes,
    doc' = mkDocument (package doc) (styles doc) (body doc ++ nodes)
    /\ length nodes <= length (split_lines markdown_content).
Proof.
  intros H. destruct (walk_lines_appends _ _ _ _ H) as (nodes & -> & Hlen).
  exists nodes. split; [done | lia].
Qed.

(** X22. A table whose rows are no longer than its header, in a document
    that has the table style [Table Grid], every text of the header and of
    the rows being one XML can hold: one table of style [Table Grid] is
    appended, with as many columns as the header has cells; the first row
    holds the header texts, bold, centred, in 10 points, on the fill colour
    [5B9BD5]; every other row holds its texts centred in 10 points,
    followed by cells of one empty paragraph up to the column count. *)
Theorem add_table_from_cells (doc : Document) (header : list string)
    (data : list (list string)) :
  check_style doc "Table Grid" TABLE = Ok tt ->
  Forall (fun row => length row <= length header) data ->
  forallb xml_compatible header = true ->
  forallb (forallb xml_compatible) data = true ->
  add_table_from doc (header :: data)
  = Ok (append_node doc
          (TableNode
             (mkTable (Some "Table Grid") (length header)
                ((header_cell <$> header)
                 :: ((fun row =>
                        (body_cell <$> row)
                        ++ replicate (length header - length row)
                             (mkCell [mkParagraph None None []] []))
                       <$> data))))).
Proof. apply add_table_from_ok. Qed.

(** ** Tables in well-formed text *)

Lemma str_app_nil_l (s : string) : ("" ++ s)%string = s.
Proof. reflexivity. Qed.

Lemma passes_app (dotall : bool) (closes : list string) (p q : string) :
  passes dotall closes p -> passes dotall closes q -> passes dotall closes (p ++ q).
Proof.
  intros Hp Hq s. rewrite str_app_assoc, Hp, Hq.
  destruct (lazy_until dotall closes s) as [[g n]|]; [| done].
  rewrite str_app_assoc, str_length_app. f_equal. f_equal. lia.
Qed.

Lemma passes_nil (dotall : bool) (closes : list string) : passes dotall closes "".
Proof. intros s. rewrite str_app_nil_l. by destruct (lazy_until _ _ s) as [[g n]|]. Qed.

Lemma prefix_any_other (closes : list string) (a : ascii) (s : string) :
  Forall (fun c => exists r, c = String "<" r) closes ->
  Ascii.eqb a "<" = false ->
  prefix_any closes (String a s) = None.
Proof.
  intros Hc Ha. induction Hc as [|c closes [r ->] _ IH]; [done |].
  cbn [prefix_any]. by rewrite (prefix_other_char a "<" r s Ha).
Qed.

(** Text without [<] is passed over by a group closed by a tag, with
    [re.DOTALL]. *)
Lemma passes_text (closes : list string) (p : string) :
  Forall (fun c => exists r, c = String "<" r) closes ->
  lacks "<" p = true -> passes true closes p.
Proof.
  intros Hc Hp. induction p as [|a p IH]; [apply passes_nil |].
  simpl in Hp. apply andb_true_iff in Hp as [Ha Hp]. apply negb_true_iff in Ha.
  intros s. rewrite str_app_cons. cbn [lazy_until].
  rewrite (prefix_any_other closes a _ Hc Ha). simpl.
  rewrite (IH Hp s). by destruct (lazy_until true closes s) as [[g n]|].
Qed.

Ltac tag_chars :=
  rewrite ?str_app_cons, ?str_app_nil_l;
  cbn [lazy_until prefix_any match_here re_search re_findall_from];
  rewrite ?prefix_cons;
  repeat (destruct (ascii_dec _ _); try done).

Ltac passes_tag :=
  intros s; tag_chars; simpl;
  destruct (lazy_until _ _ s) as [[? ?]|]; reflexivity.

Lemma passes_thead_tr : passes true ["</thead>"] "<tr>".
Proof. passes_tag. Qed.
Lemma passes_thead_tr_end : passes true ["</thead>"] "</tr>".
Proof. passes_tag. Qed.
Lemma passes_thead_th : passes true ["</thead>"] "<th>".
Proof. passes_tag. Qed.
Lemma passes_thead_th_end : passes true ["</thead>"] "</th>".
Proof. passes_tag. Qed.
Lemma passes_tbody_tr : passes true ["</tbody>"] "<tr>".
Proof. passes_tag. Qed.
Lemma passes_tbody_tr_end : passes true ["</tbody>"] "</tr>".
Proof. passes_tag. Qed.
Lemma passes_tbody_td : passes true ["</tbody>"] "<td>".
Proof. passes_tag. Qed.
Lemma passes_tbody_td_end : passes true ["</tbody>"] "</td>".
Proof. passes_tag. Qed.
Lemma passes_tr_td : passes true ["</tr>"] "<td>".
Proof. passes_tag. Qed.
Lemma passes_tr_td_end : passes true ["</tr>"] "</td>".
Proof. passes_tag. Qed.

Lemma passes_elements (closes : list string) (open close sep : string)
    (contents : list string) :
  passes true closes open -> passes true closes close -> passes true closes sep ->
  Forall (passes true closes) contents ->
  passes true closes (elements_text open close sep contents).
Proof.
  intros Ho Hc Hs Hall. induction Hall as [|c contents Hcell _ IH]; simpl; [done |].
  repeat apply passes_app; done.
Qed.

(** The group closed by [close] that runs over [content] is [content]. *)
Lemma lazy_until_close (closes : list string) (content close post : string) :
  passes true closes content ->
  prefix_any closes (close ++ post) = Some close ->
  lazy_until true closes (content ++ close ++ post)
  = Some (content, String.length content + String.length close).
Proof.
  intros Hpass Hclose. rewrite Hpass.
  assert (H : lazy_until true closes (close ++ post)
              = Some ("", String.length close)).
  { destruct (close ++ post)%string; simpl; by rewrite Hclose. }
  by rewrite H, str_app_nil_r.
Qed.

Lemma no_open_app (opens : list string) (p q : string) :
  no_open opens p -> no_open opens q -> no_open opens (p ++ q).
Proof.
  intros Hp Hq. induction p as [|a p IH]; [done |].
  destruct Hp as [Ha Hp]. rewrite str_app_cons. split; [| by apply IH].
  intros s. rewrite str_app_assoc. apply Ha.
Qed.

Lemma no_open_text (opens : list string) (p : string) :
  Forall (fun c => exists r, c = String "<" r) opens ->
  lacks "<" p = true -> no_open opens p.
Proof.
  intros Ho Hp. induction p as [|a p IH]; [done |].
  simpl in Hp. apply andb_true_iff in Hp as [Ha Hp]. apply negb_true_iff in Ha.
  split; [| by apply IH]. intros s. by apply prefix_any_other.
Qed.

Lemma no_open_elements (opens : list string) (open close sep : string)
    (contents : list string) :
  no_open opens open -> no_open opens close -> no_open opens sep ->
  Forall (no_open opens) contents ->
  no_open opens (elements_text open close sep contents).
Proof.
  intros Ho Hc Hs Hall. induction Hall as [|c contents Hcell _ IH]; simpl; [done |].
  repeat apply no_open_app; done.
Qed.

(** The search and the scan pass over text in which no opening text
    starts. *)
Lemma re_search_no_open (dotall : bool) (opens closes : list string) (p s : string) :
  no_open opens p ->
  re_search dotall opens closes (p ++ s) = re_search dotall opens closes s.
Proof.
  induction p as [|a p IH]; [done |]. intros [Ha Hp].
  rewrite str_app_cons. cbn [re_search]. unfold match_here.
  by rewrite Ha, IH.
Qed.

Lemma re_findall_no_open (dotall : bool) (opens closes : list string) (p s : string) :
  no_open opens p ->
  re_findall_from dotall opens closes 0 (p ++ s)
  = re_findall_from dotall opens closes 0 s.
Proof.
  induction p as [|a p IH]; [done |]. intros [Ha Hp].
  rewrite str_app_cons. cbn [re_findall_from]. unfold match_here.
  by rewrite Ha, IH.
Qed.

Lemma re_findall_skip (dotall : bool) (opens closes : list string) (p s : string) :
  re_findall_from dotall opens closes (String.length p) (p ++ s)
  = re_findall_from dotall opens closes 0 s.
Proof.
  induction p as [|a p IH]; [by destruct s |].
  rewrite str_app_cons. apply IH.
Qed.

(** An element found where it starts: the match is the element, the group
    its content. *)
Lemma match_here_element (opens closes : list string)
    (open close content post : string) :
  (forall x, prefix_any opens (open ++ x) = Some open) ->
  (forall x, prefix_any closes (close ++ x) = Some close) ->
  passes true closes content ->
  match_here true opens closes (open ++ content ++ close ++ post)
  = Some (content, String.length (open ++ content ++ close)).
Proof.
  intros Ho Hc Hpass. unfold match_here. rewrite Ho, drop_str_app.
  rewrite (lazy_until_close closes content close post Hpass (Hc post)).
  by rewrite !str_length_app.
Qed.

Lemma re_search_element (opens closes : list string)
    (pre open close content post : string) :
  no_open opens pre ->
  (forall x, prefix_any opens (open ++ x) = Some open) ->
  (forall x, prefix_any closes (close ++ x) = Some close) ->
  passes true closes content ->
  re_search true opens closes (pre ++ open ++ content ++ close ++ post)
  = Some content.
Proof.
  intros Hpre Ho Hc Hpass. rewrite re_search_no_open by done.
  destruct (open ++ content ++ close ++ post)%string eqn:E;
    unfold re_search; rewrite <- E;
    by rewrite (match_here_element opens closes open close content post Ho Hc Hpass).
Qed.

Lemma re_findall_elements (opens closes : list string) (open close sep : string)
    (contents : list string) (s : string) :
  no_open opens sep ->
  (forall x, prefix_any opens (open ++ x) = Some open) ->
  (forall x, prefix_any closes (close ++ x) = Some close) ->
  open <> "" ->
  Forall (passes true closes) contents ->
  re_findall_from true opens closes 0 (elements_text open close sep contents ++ s)
  = contents ++ re_findall_from true opens closes 0 s.
Proof.
  intros Hsep Ho Hc Hne Hall.
  induction Hall as [|c contents Hcell _ IH]; simpl.
  - by apply re_findall_no_open.
  - rewrite !str_app_assoc, re_findall_no_open by done.
    destruct open as [|a open']; [done |].
    rewrite str_app_cons. cbn [re_findall_from]. rewrite <- str_app_cons.
    rewrite (match_here_element opens closes (String a open') close c _ Ho Hc Hcell).
    f_equal. rewrite <- IH.
    replace (Nat.pred (String.length (String a open' ++ c ++ close)))
      with (String.length (open' ++ c ++ close))
      by (rewrite str_app_cons; done).
    rewrite <- (re_findall_skip true opens closes (open' ++ c ++ close)).
    by rewrite !str_app_assoc.
Qed.

Ltac no_open_tag := repeat split; intros s; tag_chars.

Lemma no_open_thead_in_sep : Forall (fun c => exists r, c = String "<" r) ["<thead>"].
Proof. repeat constructor; eauto. Qed.

Lemma no_open_th_tr : no_open ["<th>"] "<tr>".
Proof. no_open_tag. Qed.
Lemma no_open_th_tr_end : no_open ["<th>"] "</tr>".
Proof. no_open_tag. Qed.
Lemma no_open_tbody_thead : no_open ["<tbody>"] "<thead>".
Proof. no_open_tag. Qed.
Lemma no_open_tbody_thead_end : no_open ["<tbody>"] "</thead>".
Proof. no_open_tag. Qed.
Lemma no_open_tbody_tr : no_open ["<tbody>"] "<tr>".
Proof. no_open_tag. Qed.
Lemma no_open_tbody_tr_end : no_open ["<tbody>"] "</tr>".
Proof. no_open_tag. Qed.
Lemma no_open_tbody_th : no_open ["<tbody>"] "<th>".
Proof. no_open_tag. Qed.
Lemma no_open_tbody_th_end : no_open ["<tbody>"] "</th>".
Proof. no_open_tag. Qed.

Lemma starts_lt (l : list string) :
  Forall (fun c => String.prefix "<" c = true) l ->
  Forall (fun c => exists r, c = String "<" r) l.
Proof.
  intros H. eapply Forall_impl; [exact H |].
  intros c Hc. apply prefix_inv in Hc as [r ->]. by exists r.
Qed.

Ltac solve_starts_lt := apply starts_lt; repeat constructor.

Ltac prefix_any_tag :=
  intros x; rewrite ?str_app_cons, ?str_app_nil_l; cbn [prefix_any];
  rewrite ?prefix_cons; repeat (destruct (ascii_dec _ _); try done);
  by rewrite ?prefix_nil.

Lemma open_thead x : prefix_any ["<thead>"] ("<thead>" ++ x) = Some "<thead>".
Proof. revert x. prefix_any_tag. Qed.
Lemma close_thead x : prefix_any ["</thead>"] ("</thead>" ++ x) = Some "</thead>".
Proof. revert x. prefix_any_tag. Qed.
Lemma open_tbody x : prefix_any ["<tbody>"] ("<tbody>" ++ x) = Some "<tbody>".
Proof. revert x. prefix_any_tag. Qed.
Lemma close_tbody x : prefix_any ["</tbody>"] ("</tbody>" ++ x) = Some "</tbody>".
Proof. revert x. prefix_any_tag. Qed.
Lemma open_th x : prefix_any ["<th>"] ("<th>" ++ x) = Some "<th>".
Proof. revert x. prefix_any_tag. Qed.
Lemma close_th x : prefix_any ["</th>"] ("</th>" ++ x) = Some "</th>".
Proof. revert x. prefix_any_tag. Qed.
Lemma open_tr x : prefix_any ["<tr>"] ("<tr>" ++ x) = Some "<tr>".
Proof. revert x. prefix_any_tag. Qed.
Lemma close_tr x : prefix_any ["</tr>"] ("</tr>" ++ x) = Some "</tr>".
Proof. revert x. prefix_any_tag. Qed.
Lemma open_td x : prefix_any ["<th>"; "<td>"] ("<td>" ++ x) = Some "<td>".
Proof. revert x. prefix_any_tag. Qed.
Lemma close_td x : prefix_any ["</th>"; "</td>"] ("</td>" ++ x) = Some "</td>".
Proof. revert x. prefix_any_tag. Qed.

Section WellFormedTable.

Variable sep : string.
Hypothesis sep_plain : lacks "<" sep = true.

(** The header row between [<thead>] and [</thead>]. *)
Local Abbreviation header_text header :=
  (sep ++ "<tr>" ++ elements_text "<th>" "</th>" sep header ++ "</tr>" ++ sep)%string.
Local Abbreviation row_text := (elements_text "<td>" "</td>" sep).
Local Abbreviation body_text data :=
  (elements_text "<tr>" "</tr>" sep (row_text <$> data)).

Lemma passes_header_text (header : list string) :
  Forall (fun c => lacks "<" c = true) header ->
  passes true ["</thead>"] (header_text header).
Proof.
  intros Hh.
  assert (Hsep : passes true ["</thead>"] sep)
    by (apply passes_text; [solve_starts_lt | done]).
  repeat apply passes_app;
    auto using passes_thead_tr, passes_thead_tr_end.
  apply passes_elements; auto using passes_thead_th, passes_thead_th_end.
  eapply Forall_impl; [exact Hh |]. intros c Hc.
  apply passes_text; [solve_starts_lt | done].
Qed.

Lemma no_open_tbody_header_text (header : list string) :
  Forall (fun c => lacks "<" c = true) header ->
  no_open ["<tbody>"] (header_text header).
Proof.
  intros Hh.
  assert (Hsep : no_open ["<tbody>"] sep)
    by (apply no_open_text; [solve_starts_lt | done]).
  repeat apply no_open_app;
    auto using no_open_tbody_tr, no_open_tbody_tr_end.
  apply no_open_elements; auto using no_open_tbody_th, no_open_tbody_th_end.
  eapply Forall_impl; [exact Hh |]. intros c Hc.
  apply no_open_text; [solve_starts_lt | done].
Qed.

Lemma findall_header (header : list string) :
  Forall (fun c => lacks "<" c = true) header ->
  re_findall true ["<th>"] ["</th>"] (header_text header) = header.
Proof.
  intros Hh. unfold re_findall.
  assert (Hsep : no_open ["<th>"] sep)
    by (apply no_open_text; [solve_starts_lt | done]).
  rewrite re_findall_no_open by done.
  rewrite re_findall_no_open by apply no_open_th_tr.
  rewrite re_findall_elements; [| done | apply open_th | apply close_th | done |].
  - rewrite <- (str_app_nil_r ("</tr>" ++ sep)), str_app_assoc.
    rewrite re_findall_no_open by apply no_open_th_tr_end.
    rewrite re_findall_no_open by done. apply app_nil_r.
  - eapply Forall_impl; [exact Hh |]. intros c Hc.
    apply passes_text; [solve_starts_lt | done].
Qed.

Lemma passes_row_text (closes : list string) (row : list string) :
  Forall (fun c => String.prefix "<" c = true) closes ->
  passes true closes "<td>" -> passes true closes "</td>" ->
  Forall (fun c => lacks "<" c = true) row ->
  passes true closes (row_text row).
Proof.
  intros Hc Ho Hcl Hrow. apply passes_elements; [done | done | |].
  - apply passes_text; [by apply starts_lt | done].
  - eapply Forall_impl; [exact Hrow |]. intros c Hcell.
    apply passes_text; [by apply starts_lt | done].
Qed.

Lemma passes_body_text (data : list (list string)) :
  Forall (Forall (fun c => lacks "<" c = true)) data ->
  passes true ["</tbody>"] (body_text data).
Proof.
  intros Hd. apply passes_elements;
    auto using passes_tbody_tr, passes_tbody_tr_end.
  - apply passes_text; [solve_starts_lt | done].
  - apply Forall_fmap. eapply Forall_impl; [exact Hd |]. intros row Hrow.
    apply passes_row_text;
      [repeat constructor | apply passes_tbody_td | apply passes_tbody_td_end | done].
Qed.

Lemma findall_rows (data : list (list string)) :
  Forall (Forall (fun c => lacks "<" c = true)) data ->
  re_findall true ["<tr>"] ["</tr>"] (body_text data) = row_text <$> data.
Proof.
  intros Hd. unfold re_findall.
  rewrite <- (str_app_nil_r (body_text data)).
  rewrite re_findall_elements; [apply app_nil_r | | apply open_tr | apply close_tr | done |].
  - apply no_open_text; [solve_starts_lt | done].
  - apply Forall_fmap. eapply Forall_impl; [exact Hd |]. intros row Hrow.
    apply passes_row_text;
      [repeat constructor | apply passes_tr_td | apply passes_tr_td_end | done].
Qed.

Lemma findall_cells (row : list string) :
  Forall (fun c => lacks "<" c = true) row ->
  re_findall true ["<th>"; "<td>"] ["</th>"; "</td>"] (row_text row) = row.
Proof.
  intros Hrow. unfold re_findall.
  rewrite <- (str_app_nil_r (row_text row)).
  rewrite re_findall_elements; [apply app_nil_r | | apply open_td | apply close_td | done |].
  - apply no_open_text; [solve_starts_lt | done].
  - eapply Forall_impl; [exact Hrow |]. intros c Hcell.
    apply passes_text; [solve_starts_lt | done].
Qed.

(** X23. The rows read from well-formed table text.  For a header row of
    [th] cells inside [thead] and body rows of [td] cells inside [tbody],
    with any text free of [<] between the tags (line feeds and indentation,
    say) and cell texts free of [<], the table data are the header texts
    followed by the texts of each row, all stripped, in their order. *)
Theorem extract_table_data_well_formed
    (header : list string) (data : list (list string)) :
  header <> [] -> Forall (fun row => row <> []) data ->
  Forall (fun c => lacks "<" c = true) header ->
  Forall (Forall (fun c => lacks "<" c = true)) data ->
  extract_table_data (table_text_of sep header data)
  = (strip <$> header) :: ((fun row : list string => strip <$> row) <$> data).
Proof.
  intros Hne Hrows Hh Hd.
  unfold extract_table_data, header_rows, body_rows, table_text_of.
  rewrite (re_search_element ["<thead>"] ["</thead>"] sep "<thead>" "</thead>");
    [| apply no_open_text; [solve_starts_lt | done]
     | apply open_thead | apply close_thead | by apply passes_header_text].
  rewrite (findall_header header Hh).
  destruct header as [|h header]; [done |].
  set (H := (sep ++ "<tr>" ++ _ ++ "</tr>" ++ sep)%string).
  replace (sep ++ "<thead>" ++ H ++ "</thead>" ++ sep ++ "<tbody>"
               ++ body_text data ++ "</tbody>" ++ sep)%string
    with ((sep ++ "<thead>" ++ H ++ "</thead>" ++ sep) ++ "<tbody>"
               ++ body_text data ++ "</tbody>" ++ sep)%string
    by (by rewrite !str_app_assoc).
  rewrite (re_search_element ["<tbody>"] ["</tbody>"] _ "<tbody>" "</tbody>");
    [| | apply open_tbody | apply close_tbody | by apply passes_body_text].
  2:{ assert (Hsep : no_open ["<tbody>"] sep)
        by (apply no_open_text; [solve_starts_lt | done]).
      apply no_open_app; [done |].
      apply no_open_app; [apply no_open_tbody_thead |].
      apply no_open_app; [by apply no_open_tbody_header_text |].
      apply no_open_app; [apply no_open_tbody_thead_end | done]. }
  rewrite (findall_rows data Hd). simpl. f_equal.
  clear -Hrows Hd sep_plain. induction data as [|row data IH]; [done |].
  apply Forall_cons in Hrows as [Hrow Hrows]. apply Forall_cons in Hd as [Hc Hd].
  rewrite !fmap_cons. cbn [omap list_omap]. rewrite (findall_cells row Hc).
  destruct row as [|c row]; [done |]. f_equal. by apply IH.
Qed.

End WellFormedTable.

(** ** Failures and what they leave *)


(** X25. [unzip_docx] on a file that is no archive raises [BadZipFile],
    and only after it has emptied the directory: the directory is there,
    with nothing in it, and the rest of the disk is as before. *)
Theorem unzip_docx_not_an_archive (docx_path d : string) (data : bytes) (fs : FS) :
  d <> "" -> no_slash d = true -> under d docx_path = false ->
  fs !! docx_path = Some (File data) ->
  (forall members, data <> ZipArchive members) ->
  (fs !! d = None \/ fs !! d = Some Dir) ->
  (fs !! d = None -> forall q, under d q = true -> fs !! q = None) ->
  exists fs',
    unzip_docx docx_path d fs = (Raise (BadZipFile "File is not a zip file"), fs')
    /\ fs' !! d = Some Dir
    /\ (forall q, under d q = true -> q <> d -> fs' !! q = None)
    /\ forall q, under d q = false -> fs' !! q = fs !! q.
Proof.
  intros Hd0 Hd Hp Hdoc Hbad Hdir Hclosed.
  assert (Hne : docx_path <> d).
  { intros ->. by rewrite under_refl in Hp. }
  assert (Htail : forall fs1 : FS,
    (forall q, under d q = true -> fs1 !! q = None) ->
    fs1 !! docx_path = Some (File data) ->
    (makedirs d;;
     data ← read_file docx_path;
     members ← lift (ZipFile data);
     extractall members d) fs1
    = (Raise (BadZipFile "File is not a zip file"), <[d := Dir]> fs1)).
  { intros fs1 Hclean Hdoc1. io_unfold.
    unfold makedirs. rewrite (Hclean d (under_refl d)).
    unfold makedirs_exist_ok. rewrite (dir_prefixes_no_slash d Hd).
    destruct d as [|c d']; [done |]. set (d := String c d') in *.
    simpl. unfold bind, mkdir_step. rewrite (Hclean d (under_refl d)).
    unfold ret, read_file. rewrite lookup_insert_ne by done. rewrite Hdoc1.
    destruct data as [?|?|members]; simpl; [done | done |].
    by destruct (Hbad members). }
  unfold unzip_docx.
  unfold mbind at 1, io_bind, bind at 1. unfold gets at 1.
  unfold mbind at 1, io_bind, bind at 1.
  destruct Hdir as [E|E].
  - rewrite (exists_false _ _ E). unfold ret.
    exists (<[d := Dir]> fs). split; [exact (Htail fs (Hclosed E) Hdoc) |].
    split_and!.
    + by rewrite lookup_insert_eq.
    + intros q Hq Hqd. rewrite lookup_insert_ne by done. by apply Hclosed.
    + intros q Hq. rewrite lookup_insert_ne; [done |].
      intros <-. by rewrite under_refl in Hq.
  - rewrite (exists_true _ _ _ E). unfold rmtree. rewrite E.
    exists (<[d := Dir]> (remove_tree d fs)). split.
    { apply (Htail (remove_tree d fs)).
      - intros q Hq. by rewrite lookup_remove_tree, Hq.
      - by rewrite lookup_remove_tree, Hp. }
    split_and!.
    + by rewrite lookup_insert_eq.
    + intros q Hq Hqd. rewrite lookup_insert_ne by done.
      by rewrite lookup_remove_tree, Hq.
    + intros q Hq. rewrite lookup_insert_ne.
      * by rewrite lookup_remove_tree, Hq.
      * intros <-. by rewrite under_refl in Hq.
Qed.

(** X26. A merge that runs through cleans up and stays in its place: both
    working directories are gone with all they held, and nothing has
    changed on the disk outside them but the output file. *)
Theorem merge_success_cleans_up
    (blank_docx : bytes) (template_path output_path : string) (fs fs' : FS) :
  copy_styles_and_dependencies_from_template blank_docx template_path output_path fs
  = (Ok tt, fs') ->
  (forall q, under t_dir q = true \/ under b_dir q = true -> fs' !! q = None)
  /\ forall q, q <> output_path -> under t_dir q = false -> under b_dir q = false ->
               fs' !! q = fs !! q.
Proof.
  intros Hrun. split.
  - by eapply merge_ok_removes_working_directories.
  - intros q Hq Ht Hb. eapply touches_merge; [exact Hrun |].
    intros [|[|]]; congruence.
Qed.

(** X27. A table without a header section.  When the text of a table
    gives no header row (no [thead], or one without [th] cells) the first
    row of the body takes its place: it fixes the number of columns and is
    written with the header formatting, bold on the fill colour.  This is
    for a document that has the table style [Table Grid], further rows no
    longer than the first, and texts XML can hold; the table appended then
    has the other rows as body rows, short ones filled up with cells of
    one empty paragraph. *)
Theorem table_without_header_section
    (doc : Document) (table_text : string)
    (first : list string) (others : list (list string)) :
  header_rows table_text = [] ->
  body_rows table_text = first :: others ->
  check_style doc "Table Grid" TABLE = Ok tt ->
  Forall (fun row => length row <= length first) others ->
  forallb xml_compatible first = true ->
  forallb (forallb xml_compatible) others = true ->
  extract_table_data table_text = first :: others
  /\ add_table_from doc (extract_table_data table_text)
     = Ok (append_node doc
             (TableNode
                (mkTable (Some "Table Grid") (length first)
                   ((header_cell <$> first)
                    :: ((fun row =>
                           (body_cell <$> row)
                           ++ replicate (length first - length row)
                                (mkCell [mkParagraph None None []] []))
                          <$> others))))).
Proof.
  intros Hhead Hbody Hstyle Hrows Hfirst Hothers. unfold extract_table_data.
  rewrite Hhead, Hbody. split; [done |]. by apply add_table_from_ok.
Qed.

Lemma touches_remove_temporary_files :
  touches (fun q => q = tmp_template \/ q = tmp_output) remove_temporary_files.
Proof.
  unfold remove_temporary_files.
  apply touches_bind; [apply touches_gets |]. intros there1.
  apply touches_bind.
  { destruct there1; [apply touches_remove; auto | apply touches_ret]. }
  intros _. apply touches_bind; [apply touches_gets |].
  intros []; [apply touches_remove; auto | apply touches_ret].
Qed.

Section FailedMerge.

Variable blank_docx : bytes.
Variable Document_open : bytes -> result Document.
Variable Document_save : Document -> result bytes.

(** X28. A merge that raises after the extraction leaves its working
    directories behind, and [generate_docx_with_template] does not remove
    them: it returns [None] with both temporary files removed and both
    working directories still on the disk. *)
Theorem generate_failure_leaves_working_directories
    (template_bytes : bytes) (markdown_content : string)
    (fs fs0 fs1 fs2 : FS) (e : exn) :
  fs !! tmp_template <> Some Dir -> fs !! tmp_output <> Some Dir ->
  write_file tmp_template template_bytes fs = (Ok tt, fs0) ->
  (write_file tmp_output blank_docx;;
   unzip_docx tmp_template t_dir;;
   unzip_docx tmp_output b_dir) fs0 = (Ok tt, fs1) ->
  copy_styles_and_dependencies_from_template blank_docx tmp_template tmp_output fs0
  = (Raise e, fs2) ->
  exists fs',
    generate_docx_with_template blank_docx Document_open Document_save
      template_bytes markdown_content fs = (Ok None, fs')
    /\ fs' !! t_dir = Some Dir /\ fs' !! b_dir = Some Dir
    /\ fs' !! tmp_template = None /\ fs' !! tmp_output = None.
Proof.
  intros Ht Ho Hw Hext Hmerge.
  destruct (merge_raise_leaves_working_directories _ _ _ _ _ _ _ Hext Hmerge)
    as [Htd Hbd].
  assert (Hbody : generate_body blank_docx Document_open Document_save
                    template_bytes markdown_content fs = (Raise e, fs2)).
  { unfold generate_body. io_unfold. by rewrite Hw, Hmerge. }
  assert (Ht2 : fs2 !! tmp_template <> Some Dir).
  { eapply (no_new_directory_body blank_docx Document_open Document_save);
      [by left | exact Hbody | done]. }
  assert (Ho2 : fs2 !! tmp_output <> Some Dir).
  { eapply (no_new_directory_body blank_docx Document_open Document_save);
      [by right | exact Hbody | done]. }
  destruct (remove_temporary_files_runs fs2 Ht2 Ho2) as [fs' Hrm].
  destruct (remove_temporary_files_inv _ _ Hrm) as [? ?].
  exists fs'. split_and!; [| | | done | done].
  - unfold generate_docx_with_template, try_finally, try_except. io_unfold.
    fold (generate_body blank_docx Document_open Document_save
            template_bytes markdown_content).
    by rewrite Hbody, Hrm.
  - rewrite <- Htd. eapply touches_remove_temporary_files; [exact Hrm |].
    by intros [|].
  - rewrite <- Hbd. eapply touches_remove_temporary_files; [exact Hrm |].
    by intros [|].
Qed.

End FailedMerge.

(** ** The further properties on the sample inputs *)

Section OnMoreSamples.
Import Sample.

Local Abbreviation merge_of blank tpl :=
  (copy_styles_and_dependencies_from_template
     (ZipArchive blank) tmp_template tmp_output (staged (ZipArchive tpl))).

Lemma staged_closed (template_bytes : bytes) : tree_closed (staged template_bytes).
Proof.
  intros q x [n Hq] Hx. unfold staged in Hq.
  apply lookup_singleton_Some in Hq as [<- _].
  rewrite (dir_prefixes_no_slash tmp_template eq_refl) in Hx.
  by apply elem_of_nil in Hx.
Qed.

Lemma run_ok {A} (m : io A) (fs : FS) (a : A) :
  (m fs).1 = Ok a -> m fs = (Ok a, (m fs).2).
Proof. intros <-. apply surjective_pairing. Qed.

Lemma unzip_docx_replaces_directory_witness :
  clean_name "out" = true
  /\ forallb clean_name (namelist small_archive) = true
  /\ (unzip_docx "a.docx" "out" unpack_disk).2 !! "out" = Some Dir
  /\ (forall q, under "out" q = false ->
        (unzip_docx "a.docx" "out" unpack_disk).2 !! q = unpack_disk !! q)
  /\ (forall name data,
        clean_name name = true ->
        (unzip_docx "a.docx" "out" unpack_disk).2 !! path_join "out" name
        = Some (File data)
        <-> archive_read small_archive name = Some data)
  /\ forall x, clean_name x = true ->
               (forall name, name ∈ namelist small_archive -> under x name = false) ->
               (unzip_docx "a.docx" "out" unpack_disk).2 !! path_join "out" x = None.
Proof.
  split; [reflexivity |]. split; [reflexivity |].
  apply (unzip_docx_replaces_directory "a.docx" "out" small_archive unpack_disk);
    [reflexivity | reflexivity | reflexivity | intros H; vm_compute in H; discriminate
    | reflexivity | reflexivity |].
  apply run_ok. by vm_compute.
Defined.

Lemma zip_dir_archives_files_witness :
  exists members,
    (zip_dir "out" "b.docx" unpack_disk).2 !! "b.docx"
    = Some (File (ZipArchive members))
    /\ (forall rel data,
          (rel, data) ∈ members
          <-> unpack_disk !! path_join "out" rel = Some (File data))
    /\ forall q, q <> "b.docx" ->
                 (zip_dir "out" "b.docx" unpack_disk).2 !! q = unpack_disk !! q.
Proof.
  apply (zip_dir_archives_files "out" "b.docx" unpack_disk); [reflexivity |].
  apply run_ok. by vm_compute.
Defined.

Lemma unzip_then_zip_witness :
  forallb clean_name (namelist small_archive) = true
  /\ exists members',
       ((unzip_docx "a.docx" "out";; zip_dir "out" "b.docx") unpack_disk).2 !! "b.docx"
       = Some (File (ZipArchive members'))
       /\ forall name data,
            (name, data) ∈ members' <-> archive_read small_archive name = Some data.
Proof.
  split; [reflexivity |].
  apply (unzip_then_zip "a.docx" "out" "b.docx" small_archive unpack_disk);
    [reflexivity | reflexivity | reflexivity | reflexivity
    | intros H; vm_compute in H; discriminate | reflexivity | reflexivity |].
  apply (run_ok (unzip_docx "a.docx" "out";; zip_dir "out" "b.docx")). by vm_compute.
Defined.

Lemma safe_copy_cases_witness :
  (safe_copy "out" "dst" "old.txt" unpack_disk).1 <> Ok false
  /\ ((safe_copy "out" "dst" "old.txt" unpack_disk).1 = Ok true ->
      (safe_copy "out" "dst" "old.txt" unpack_disk).2 !! "dst/old.txt"
      = Some (File (Raw "stale"))).
Proof.
  apply (safe_copy_cases "out" "dst" "old.txt" unpack_disk).
  apply surjective_pairing.
Defined.

Lemma ensure_relationship_keeps_ids_distinct_witness :
  exists root',
    (ensure_relationship rels_path REL_TYPE_THEME "theme/theme1.xml" rels_disk).2
      !! rels_path = Some (File (XmlDoc root'))
    /\ children (relationships_at rels_disk rels_path) `prefix_of` children root'
    /\ NoDup (relationship_ids root').
Proof.
  apply (ensure_relationship_keeps_ids_distinct
           rels_path REL_TYPE_THEME "theme/theme1.xml" rels_disk).
  - apply run_ok. by vm_compute.
  - apply (bool_decide_unpack _). by vm_compute.
Defined.

Lemma ensure_relationship_idempotent_witness :
  xpath_literal REL_TYPE_THEME = true
  /\ xpath_literal "theme/theme1.xml" = true
  /\ ensure_relationship rels_path REL_TYPE_THEME "theme/theme1.xml"
       (ensure_relationship rels_path REL_TYPE_THEME "theme/theme1.xml" rels_disk).2
     = (Ok tt,
        (ensure_relationship rels_path REL_TYPE_THEME "theme/theme1.xml" rels_disk).2).
Proof.
  split; [reflexivity |]. split; [reflexivity |].
  apply (ensure_relationship_idempotent
           rels_path REL_TYPE_THEME "theme/theme1.xml" rels_disk);
    [reflexivity | reflexivity |].
  apply run_ok. by vm_compute.
Defined.

Lemma read_relationships_cases_witness :
  let root := mkTree (clark NS_REL "Relationships") [] in
  let fs' := (read_relationships rels_path ∅).2 in
  root = mkTree (clark NS_REL "Relationships") []
  /\ fs' !! rels_path = Some (File (XmlDoc root))
  /\ (dirname rels_path <> "" -> fs' !! dirname rels_path = Some Dir)
  /\ forall q n, (∅ : FS) !! q = Some n -> fs' !! q = Some n.
Proof.
  refine (read_relationships_cases rels_path
            (mkTree (clark NS_REL "Relationships") []) ∅
            (read_relationships rels_path ∅).2 _).
  apply run_ok. by vm_compute.
Defined.

Lemma fix_content_types_declares_parts_witness :
  let fs' := (fix_content_types blank_dir_disk).2 in
  (forall partname content_type,
     (partname, content_type) ∈ CONTENT_TYPES ->
     exists_ (path_join b_dir (lstrip_slash partname)) blank_dir_disk = true ->
     exists root', fs' !! ct_path = Some (File (XmlDoc root'))
                   /\ has_override root' partname = true)
  /\ (forall root, blank_dir_disk !! ct_path = Some (File (XmlDoc root)) ->
      exists root', fs' !! ct_path = Some (File (XmlDoc root'))
                    /\ children root `prefix_of` children root')
  /\ forall q, q <> ct_path -> fs' !! q = blank_dir_disk !! q.
Proof.
  apply (fix_content_types_declares_parts blank_dir_disk).
  apply run_ok. by vm_compute.
Defined.

Lemma merge_of_sample_runs :
  merge_of plain_blank template = (Ok tt, (merge_of plain_blank template).2).
Proof. apply run_ok. by vm_compute. Qed.


Lemma merged_manifest_declares_style_parts_witness :
  exists members,
    (merge_of plain_blank template).2 !! tmp_output
    = Some (File (ZipArchive members))
    /\ forall partname content_type data,
         (partname, content_type) ∈ CONTENT_TYPES ->
         (lstrip_slash partname, data) ∈ members ->
         exists root,
           ("[Content_Types].xml", XmlDoc root) ∈ members
           /\ has_override root partname = true.
Proof.
  apply (merged_manifest_declares_style_parts
           (ZipArchive plain_blank) (staged (ZipArchive template))).
  apply merge_of_sample_runs.
Defined.

Lemma merge_keeps_other_parts_witness :
  exists blank_members members,
    ZipArchive plain_blank = ZipArchive blank_members
    /\ (merge_of plain_blank template).2 !! tmp_output
       = Some (File (ZipArchive members))
    /\ forall name data,
         path_join b_dir name ∉ merge_targets ->
         ((name, data) ∈ members <-> archive_read blank_members name = Some data).
Proof.
  apply (merge_keeps_other_parts
           (ZipArchive plain_blank) template (staged (ZipArchive template)));
    [apply staged_closed | reflexivity | apply merge_of_sample_runs].
Defined.

Lemma merge_success_cleans_up_witness :
  (forall q, under t_dir q = true \/ under b_dir q = true ->
             (merge_of plain_blank template).2 !! q = None)
  /\ forall q, q <> tmp_output -> under t_dir q = false -> under b_dir q = false ->
               (merge_of plain_blank template).2 !! q
               = staged (ZipArchive template) !! q.
Proof.
  apply (merge_success_cleans_up (ZipArchive plain_blank) tmp_template tmp_output).
  apply merge_of_sample_runs.
Defined.

Lemma generate_docx_with_template_returns_witness :
  exists fs',
    generate_docx_with_template (ZipArchive numbered_blank) Document_open
      Document_save (ZipArchive template) (table_markdown long_row) ∅
    = (match (generate_body (ZipArchive numbered_blank) Document_open
                Document_save (ZipArchive template) (table_markdown long_row) ∅).1
       with
       | Ok final => Ok (Some final)
       | Raise _ => Ok None
       end, fs')
    /\ fs' !! tmp_template = None /\ fs' !! tmp_output = None.
Proof.
  apply (generate_docx_with_template_returns
           (ZipArchive numbered_blank) Document_open Document_save
           (ZipArchive template) (table_markdown long_row) ∅);
    by rewrite lookup_empty.
Defined.

Lemma invoke_changes_only_its_files_witness :
  (_invoke (ZipArchive numbered_blank) Document_open Document_save
     create_blob_message
     (parameters_with (ZipArchive template) (table_markdown short_row))
     unpack_disk).2 !! "a.docx"
  = unpack_disk !! "a.docx".
Proof.
  refine (invoke_changes_only_its_files
            (ZipArchive numbered_blank) Document_open Document_save
            create_blob_message
            (parameters_with (ZipArchive template) (table_markdown short_row))
            unpack_disk _ _ "a.docx" _ _ _ _ _);
    [apply surjective_pairing | done | done | reflexivity | reflexivity].
Defined.

Lemma unsupported_template_object_witness :
  _invoke (ZipArchive numbered_blank) Document_open Document_save
    create_blob_message (mkParameters OtherObject "text" None) unpack_disk
  = (Ok [TextMessage ("生成带模板样式的docx时出错: "
                      ++ "模板文件格式错误，需要Dify文件对象或字节流")],
     unpack_disk).
Proof.
  apply (unsupported_template_object
           (ZipArchive numbered_blank) Document_open Document_save
           create_blob_message (mkParameters OtherObject "text" None) unpack_disk).
  reflexivity.
Defined.

(** The example of the specification: the line becomes one paragraph of
    style [A一级标题] with the text [Chapter 1]. *)
Lemma div_line_becomes_paragraph_witness :
  loop_body chapter_line [] styled_document
  = Ok (0, append_node styled_document
             (ParagraphNode
                (mkParagraph (Some "A一级标题") None [mkRun "Chapter 1" None None])))
  /\ walk_lines 0 [chapter_line] styled_document
     = Ok (append_node styled_document
             (ParagraphNode
                (mkParagraph (Some "A一级标题") None [mkRun "Chapter 1" None None]))).
Proof.
  apply (div_line_becomes_paragraph
           (div_open "onetitle") "A一级标题" "" "Chapter 1" "" chapter_line []
           styled_document);
    [| reflexivity..].
  unfold div_styles. do 2 (apply elem_of_cons; right). apply elem_of_cons. by left.
Defined.

(** The same line with a form feed in its text: the turn raises
    [ValueError]. *)
Lemma div_line_with_form_feed :
  loop_body (div_open "text" ++ ">" ++ form_feed_text ++ "</div>") [] styled_document
  = Raise (ValueError XML_INCOMPATIBLE).
Proof. by vm_compute. Qed.

Lemma untagged_line_witness :
  loop_body "  hello " ["next"] styled_document
  = Ok (0, append_node styled_document
             (ParagraphNode (mkParagraph (Some "A正文") None [mkRun "hello" None None])))
  /\ walk_lines 0 ("  hello " :: ["next"]) styled_document
     = walk_lines 0 ["next"]
         (append_node styled_document
            (ParagraphNode (mkParagraph (Some "A正文") None [mkRun "hello" None None]))).
Proof.
  apply (untagged_line "  hello " ["next"] styled_document "h" "ello");
    [reflexivity | done].
Defined.

(** A document without the style [A正文]: the line raises [KeyError]. *)
Lemma untagged_line_without_style :
  loop_body "hello" [] (mkDocument [] [] [])
  = Raise (KeyError "no style with name 'A正文'").
Proof. by vm_compute. Qed.

Lemma blank_or_closing_line_witness :
  loop_body "  </div> " ["next"] styled_document = Ok (0, styled_document)
  /\ walk_lines 0 ("  </div> " :: ["next"]) styled_document
     = walk_lines 0 ["next"] styled_document.
Proof.
  apply (blank_or_closing_line "  </div> " ["next"] styled_document).
  right. reflexivity.
Defined.


(** The method on dictionaries that lack a key or hold a number as file
    name, and on one that holds all three. *)
Lemma invoke_raises_only_on_its_parameters_witness :
  invoke_tool (ZipArchive numbered_blank) Document_open Document_save
    create_blob_message
    (mkParameterDict (Some (FileObject (ZipArchive template))) (Some "text")
                     (Some (WithoutLower "int"))) unpack_disk
  = (Raise (AttributeError "'int' object has no attribute 'lower'"), unpack_disk).
Proof.
  exact (invoke_raises_only_on_its_parameters
           (ZipArchive numbered_blank) Document_open Document_save
           create_blob_message
           (mkParameterDict (Some (FileObject (ZipArchive template))) (Some "text")
                            (Some (WithoutLower "int"))) unpack_disk).
Defined.

Lemma invoke_tool_on_samples :
  invoke_tool (ZipArchive numbered_blank) Document_open Document_save
    create_blob_message (mkParameterDict None (Some "text") None) ∅
  = (Raise (KeyError "'model'"), ∅)
  /\ invoke_tool (ZipArchive numbered_blank) Document_open Document_save
       create_blob_message
       (mkParameterDict (Some (FileObject (ZipArchive template))) None None) ∅
     = (Raise (KeyError "'query'"), ∅)
  /\ (invoke_tool (ZipArchive numbered_blank) Document_open Document_save
        create_blob_message
        (mkParameterDict (Some (FileObject (Raw "junk"))) (Some "text")
                         (Some (StrValue "report"))) ∅).1
     = Ok [TextMessage ("生成带模板样式的docx时出错: "
                        ++ "模板文件不是有效的ZIP压缩文件（可能不是DOCX）")].
Proof. split_and!; by vm_compute. Qed.

Lemma table_region_is_consumed_witness :
  (forall closing after,
     startswith (strip closing) "</table>" = true ->
     walk_lines 0 ("<table>" :: table_lines ++ closing :: after) styled_document
     = rbind (add_table_from styled_document
                (extract_table_data (join_lines table_lines)))
             (walk_lines 0 after))
  /\ walk_lines 0 ("<table>" :: table_lines) styled_document
     = add_table_from styled_document (extract_table_data (join_lines table_lines)).
Proof.
  apply (table_region_is_consumed "<table>" table_lines styled_document);
    [reflexivity |].
  unfold table_lines. repeat constructor.
Defined.

Lemma build_document_appends_witness :
  exists nodes,
    mkDocument template template_styles
      [ParagraphNode (mkParagraph (Some "A正文") None [mkRun "hello" None None])]
    = mkDocument (package styled_document) (styles styled_document)
                 (body styled_document ++ nodes)
    /\ length nodes <= length (split_lines "hello").
Proof.
  apply (build_document_appends styled_document _ "hello"). reflexivity.
Defined.

Lemma add_table_from_cells_witness :
  add_table_from styled_document (["A"; "B"] :: [["1"]])
  = Ok (append_node styled_document
          (TableNode
             (mkTable (Some "Table Grid") 2
                ([header_cell "A"; header_cell "B"]
                 :: [[body_cell "1"; empty_cell]])))).
Proof.
  apply (add_table_from_cells styled_document ["A"; "B"] [["1"]]);
    [reflexivity | repeat constructor | reflexivity | reflexivity].
Defined.

(** A form feed in a cell of the header: the table code raises
    [ValueError]. *)
Lemma add_table_from_form_feed :
  add_table_from styled_document ([form_feed_text; "B"] :: [["1"]])
  = Raise (ValueError XML_INCOMPATIBLE).
Proof. by vm_compute. Qed.

Lemma extract_table_data_well_formed_witness :
  extract_table_data
    (table_text_of (String newline "  ") ["Name"; " Year "] [["a"; "1"]; ["b"]])
  = [["Name"; "Year"]; ["a"; "1"]; ["b"]].
Proof.
  apply (extract_table_data_well_formed
           (String newline "  ") eq_refl ["Name"; " Year "] [["a"; "1"]; ["b"]]);
    [done | repeat constructor; done | repeat constructor..].
Defined.

Lemma unzip_docx_not_an_archive_witness :
  exists fs',
    unzip_docx "a.docx" "out" junk_disk
    = (Raise (BadZipFile "File is not a zip file"), fs')
    /\ fs' !! "out" = Some Dir
    /\ (forall q, under "out" q = true -> q <> "out" -> fs' !! q = None)
    /\ forall q, under "out" q = false -> fs' !! q = junk_disk !! q.
Proof.
  apply (unzip_docx_not_an_archive "a.docx" "out" (Raw "junk") junk_disk);
    [done | reflexivity | reflexivity | reflexivity | done
    | by right | intros H; vm_compute in H; discriminate].
Defined.

Lemma ensure_relationship_on_missing_table_witness :
  (ensure_relationship rels_path REL_TYPE_STYLES "styles.xml" ∅).2 !! rels_path
  = Some (File (XmlDoc
       (mkTree (clark NS_REL "Relationships")
          [mkElement (clark NS_REL "Relationship")
             [("Id", "rId1"); ("Type", REL_TYPE_STYLES); ("Target", "styles.xml")]]))).
Proof.
  apply (ensure_relationship_on_missing_table
           rels_path REL_TYPE_STYLES "styles.xml" ∅);
    [apply lookup_empty | apply run_ok; by vm_compute].
Defined.

Lemma table_without_header_section_witness :
  extract_table_data "<tbody><tr><td>1</td><td>2</td></tr><tr><td>3</td></tr></tbody>"
  = [["1"; "2"]; ["3"]]
  /\ add_table_from styled_document
       (extract_table_data
          "<tbody><tr><td>1</td><td>2</td></tr><tr><td>3</td></tr></tbody>")
     = Ok (append_node styled_document
             (TableNode
                (mkTable (Some "Table Grid") 2
                   ([header_cell "1"; header_cell "2"]
                    :: [[body_cell "3"; empty_cell]])))).
Proof.
  apply (table_without_header_section styled_document
           "<tbody><tr><td>1</td><td>2</td></tr><tr><td>3</td></tr></tbody>"
           ["1"; "2"] [["3"]]);
    [reflexivity | reflexivity | reflexivity | repeat constructor
    | reflexivity | reflexivity].
Defined.

Lemma generate_failure_leaves_working_directories_witness :
  exists fs',
    generate_docx_with_template (ZipArchive numbered_blank) Document_open
      Document_save (ZipArchive template_with_directory) "text" ∅ = (Ok None, fs')
    /\ fs' !! t_dir = Some Dir /\ fs' !! b_dir = Some Dir
    /\ fs' !! tmp_template = None /\ fs' !! tmp_output = None.
Proof.
  refine (generate_failure_leaves_working_directories
            (ZipArchive numbered_blank) Document_open Document_save
            (ZipArchive template_with_directory) "text" ∅
            (staged (ZipArchive template_with_directory))
            ((write_file tmp_output (ZipArchive numbered_blank);;
              unzip_docx tmp_template t_dir;;
              unzip_docx tmp_output b_dir)
               (staged (ZipArchive template_with_directory))).2
            (copy_styles_and_dependencies_from_template
               (ZipArchive numbered_blank) tmp_template tmp_output
               (staged (ZipArchive template_with_directory))).2
            (OSError "Is a directory: _tmp_tpl_unzip/word/styles.xml")
            _ _ _ _ _).
  - by rewrite lookup_empty.
  - by rewrite lookup_empty.
  - reflexivity.
  - apply (run_ok (write_file tmp_output (ZipArchive numbered_blank);;
                   unzip_docx tmp_template t_dir;;
                   unzip_docx tmp_output b_dir)).
    by vm_compute.
  - cut ((copy_styles_and_dependencies_from_template
            (ZipArchive numbered_blank) tmp_template tmp_output
            (staged (ZipArchive template_with_directory))).1
         = Raise (OSError "Is a directory: _tmp_tpl_unzip/word/styles.xml"));
      [intros <-; apply surjective_pairing | by vm_compute].
Defined.

End OnMoreSamples.
